(** * Port scanner back end: scan tasks, port probes and proxy quality

    A shallow embedding of [backend.py] (the multi-task REST back end of the
    LAN port scanner) together with the properties that its specification
    states about it.

    Conventions of the embedding.
    - Python integers are [Z]; strings are [string]; lists are [list].
    - Everything the program obtains from outside (sockets, HTTP requests made
      with [requests], the wall clock, [uuid.uuid4]) is answered by an
      environment [Env].  Each answer may depend on a logical clock that
      counts the interactions made so far, so an environment can answer the
      same question differently at different times.
    - Python exceptions are values of [exn]; code runs in a state-and-exception
      monad [M], and [try]/[except]/[finally] are combinators of that monad.
    - Task objects live in a heap and the registry [scan_tasks] maps task
      identifiers to references, as the dictionary of the source maps them to
      shared objects.
    - Latencies are whole milliseconds, so that [round(elapsed * 1000, 2)] is
      the identity on them; instants are whole seconds. *)

From Stdlib Require Import ZArith List String Ascii Lia Bool SpecFloat.
From stdpp Require Import gmap strings list pretty sorting.

Local Open Scope string_scope.
Local Open Scope list_scope.
Local Open Scope Z_scope.

(** ** Exceptions *)

(** The exception classes the program distinguishes.  The five classes of
    [requests.exceptions] keep their position in the class hierarchy through
    the predicates below; every constructor carries [str(e)]. *)
Inductive exn : Type :=
| ProxyError (msg : string)
| ConnectTimeout (msg : string)
| ReadTimeout (msg : string)
| SSLError (msg : string)
| ConnectionError (msg : string)
| ValueError (msg : string)
| TypeError (msg : string)
| OSError (msg : string)
| ZeroDivisionError (msg : string)
| OtherException (msg : string).

Definition str_exn (e : exn) : string :=
  match e with
  | ProxyError m | ConnectTimeout m | ReadTimeout m | SSLError m
  | ConnectionError m | ValueError m | TypeError m | OSError m
  | ZeroDivisionError m | OtherException m => m
  end.

(** [isinstance(e, requests.exceptions.ProxyError)] and its siblings.
    [ProxyError], [SSLError] and [ConnectTimeout] derive from
    [ConnectionError]; [ConnectTimeout] and [ReadTimeout] derive from
    [Timeout]. *)
Definition is_ProxyError (e : exn) : bool :=
  match e with ProxyError _ => true | _ => false end.
Definition is_Timeout (e : exn) : bool :=
  match e with ConnectTimeout _ | ReadTimeout _ => true | _ => false end.
Definition is_SSLError (e : exn) : bool :=
  match e with SSLError _ => true | _ => false end.
Definition is_ConnectionError (e : exn) : bool :=
  match e with
  | ProxyError _ | SSLError _ | ConnectTimeout _ | ConnectionError _ => true
  | _ => false
  end.
Definition is_ValueError (e : exn) : bool :=
  match e with ValueError _ => true | _ => false end.

Inductive Result (A : Type) : Type :=
| Ok (a : A)
| Raise (e : exn).
Arguments Ok {A} a.
Arguments Raise {A} e.

(** ** The [ipaddress] module, IPv4 part

    [ipaddress.ip_network(address, strict=False)] as CPython 3.9 and later
    implement it for IPv4 text: ["a.b.c.d"], ["a.b.c.d/len"],
    ["a.b.c.d/netmask"] and ["a.b.c.d/hostmask"].  IPv6 text is outside this
    model. *)
Module ipaddress.

Definition ALL_ONES : Z := 2 ^ 32 - 1.
Definition max_prefixlen : Z := 32.

Record IPv4Network : Type := {
  network_address : Z;
  prefixlen : Z
}.

(** [str.split(sep)] for a one-character separator. *)
Fixpoint split_on (sep : ascii) (s : string) : list string :=
  match s with
  | EmptyString => [EmptyString]
  | String c s' =>
      if Ascii.eqb c sep then EmptyString :: split_on sep s'
      else match split_on sep s' with
           | [] => [String c EmptyString]
           | w :: ws => String c w :: ws
           end
  end.

Definition is_digit (c : ascii) : bool :=
  (Nat.leb 48 (nat_of_ascii c) && Nat.leb (nat_of_ascii c) 57)%bool.

(** [s.isascii() and s.isdigit()]; false on the empty string. *)
Fixpoint all_digits (s : string) : bool :=
  match s with
  | EmptyString => true
  | String c s' => (is_digit c && all_digits s')%bool
  end.
Definition isdigit (s : string) : bool :=
  match s with
  | EmptyString => false
  | _ => all_digits s
  end.

Fixpoint int_digits (acc : Z) (s : string) : Z :=
  match s with
  | EmptyString => acc
  | String c s' => int_digits (10 * acc + (Z.of_nat (nat_of_ascii c) - 48)) s'
  end.
(** [int(s, 10)] on a string of decimal digits. *)
Definition int_of_digits (s : string) : Z := int_digits 0 s.

(** [_parse_octet]: [None] stands for the [ValueError] cases. *)
Definition parse_octet (octet_str : string) : option Z :=
  if negb (isdigit octet_str) then None
  else if Nat.ltb 3 (String.length octet_str) then None
  else if (negb (String.eqb octet_str "0") &&
           match octet_str with String c _ => Ascii.eqb c "0" | _ => false end)%bool
  then None
  else
    let octet_int := int_of_digits octet_str in
    if 255 <? octet_int then None else Some octet_int.

(** [_ip_int_from_string]: four octets, big endian. *)
Definition ip_int_from_string (ip_str : string) : option Z :=
  match split_on "." ip_str with
  | [a; b; c; d] =>
      match parse_octet a, parse_octet b, parse_octet c, parse_octet d with
      | Some a, Some b, Some c, Some d =>
          Some (Z.lor (Z.shiftl a 24) (Z.lor (Z.shiftl b 16) (Z.lor (Z.shiftl c 8) d)))
      | _, _, _, _ => None
      end
  | _ => None
  end.

(** [_prefix_from_prefix_string]. *)
Definition prefix_from_prefix_string (prefixlen_str : string) : option Z :=
  if negb (isdigit prefixlen_str) then None
  else
    let prefixlen := int_of_digits prefixlen_str in
    if (0 <=? prefixlen) && (prefixlen <=? max_prefixlen) then Some prefixlen
    else None.

(** [_count_righthand_zero_bits(number, bits)]. *)
Fixpoint count_zero_bits (fuel : nat) (number : Z) : Z :=
  match fuel with
  | O => 0
  | S fuel' =>
      if Z.testbit number 0 then 0
      else 1 + count_zero_bits fuel' (Z.shiftr number 1)
  end.
Definition count_righthand_zero_bits (number bits : Z) : Z :=
  if number =? 0 then bits
  else Z.min bits (count_zero_bits (Z.to_nat bits) number).

(** [_prefix_from_ip_int]: the mask must be ones followed by zeroes. *)
Definition prefix_from_ip_int (ip_int : Z) : option Z :=
  let trailing_zeroes := count_righthand_zero_bits ip_int max_prefixlen in
  let prefixlen := max_prefixlen - trailing_zeroes in
  let leading_ones := Z.shiftr ip_int trailing_zeroes in
  let all_ones := Z.shiftl 1 prefixlen - 1 in
  if leading_ones =? all_ones then Some prefixlen else None.

(** [_prefix_from_ip_string]: a dotted netmask, else a dotted hostmask. *)
Definition prefix_from_ip_string (ip_str : string) : option Z :=
  match ip_int_from_string ip_str with
  | None => None
  | Some ip_int =>
      match prefix_from_ip_int ip_int with
      | Some p => Some p
      | None => prefix_from_ip_int (Z.lxor ip_int ALL_ONES)
      end
  end.

(** [_make_netmask] on text: the prefix length it denotes. *)
Definition make_netmask (arg : string) : option Z :=
  match prefix_from_prefix_string arg with
  | Some p => Some p
  | None => prefix_from_ip_string arg
  end.

(** [_ip_int_from_prefix]. *)
Definition netmask_of (prefixlen : Z) : Z :=
  Z.lxor ALL_ONES (Z.shiftr ALL_ONES prefixlen).

Definition netmask (n : IPv4Network) : Z := netmask_of (prefixlen n).
Definition hostmask (n : IPv4Network) : Z := Z.lxor (netmask n) ALL_ONES.
Definition broadcast_address (n : IPv4Network) : Z :=
  Z.lor (network_address n) (hostmask n).

(** [IPv4Network(address, strict=False)]: host bits are masked off. *)
Definition IPv4Network_of_string (address : string) : option IPv4Network :=
  match split_on "/" address with
  | [addr] =>
      match ip_int_from_string addr with
      | Some packed => Some {| network_address := packed; prefixlen := max_prefixlen |}
      | None => None
      end
  | [addr; mask] =>
      match ip_int_from_string addr, make_netmask mask with
      | Some packed, Some p =>
          Some {| network_address := Z.land packed (netmask_of p); prefixlen := p |}
      | _, _ => None
      end
  | _ => None
  end.

(** [ip_network(address, strict=False)] on IPv4 notation.  The library also
    reads IPv6 notation, which always holds a colon; this model does not, so
    statements about creation carry the hypothesis that the text has none. *)
Definition ip_network (address : string) : Result IPv4Network :=
  match IPv4Network_of_string address with
  | Some n => Ok n
  | None =>
      Raise (ValueError ("'" +:+ address +:+
                         "' does not appear to be an IPv4 or IPv6 network"))
  end.

(** [num_addresses]: every address of the block, the network and the
    broadcast address included. *)
Definition num_addresses (n : IPv4Network) : Z :=
  broadcast_address n - network_address n + 1.

(** [range(lo, hi)]. *)
Definition py_range (lo hi : Z) : list Z :=
  map (fun i => lo + Z.of_nat i) (seq 0 (Z.to_nat (hi - lo))).

(** [hosts()]: the usable hosts.  A /31 yields both of its addresses and a
    /32 its single address; every shorter prefix leaves out the network and
    the broadcast address. *)
Definition hosts (n : IPv4Network) : list Z :=
  if prefixlen n =? max_prefixlen - 1
  then py_range (network_address n) (broadcast_address n + 1)
  else if prefixlen n =? max_prefixlen
  then [network_address n]
  else py_range (network_address n + 1) (broadcast_address n).

(** [str(IPv4Address(x))]. *)
Definition str_address (x : Z) : string :=
  pretty (Z.land (Z.shiftr x 24) 255) +:+ "." +:+
  pretty (Z.land (Z.shiftr x 16) 255) +:+ "." +:+
  pretty (Z.land (Z.shiftr x 8) 255) +:+ "." +:+
  pretty (Z.land x 255).

(** What the parser guarantees of the networks it returns. *)
Definition wf (n : IPv4Network) : Prop :=
  0 <= prefixlen n <= 32 /\
  Z.land (network_address n) (hostmask n) = 0.

End ipaddress.

(** ** Binary64 arithmetic

    The operations of Python floats that the program uses, on the
    specification of IEEE 754 binary64 of the standard library. *)
Module float64.

Definition prec : Z := 53.
Definition emax : Z := 1024.

(** [float(n)], and the operand conversion of [n / m] on integers below 2^53. *)
Definition of_int (n : Z) : spec_float := binary_normalize prec emax n 0 false.

Definition div : spec_float -> spec_float -> spec_float := SFdiv prec emax.
Definition mul : spec_float -> spec_float -> spec_float := SFmul prec emax.

(** [int(x)]: truncation toward zero. *)
Definition to_int (x : spec_float) : Z :=
  match x with
  | S754_finite s m e =>
      let v := if 0 <=? e then Z.pos m * 2 ^ e else Z.pos m / 2 ^ (- e) in
      if s then - v else v
  | _ => 0
  end.

End float64.

(** [int((scanned / total_hosts) * 100)] for a divisor other than zero. *)
Definition progress_float (scanned total_hosts : Z) : Z :=
  float64.to_int
    (float64.mul (float64.div (float64.of_int scanned) (float64.of_int total_hosts))
       (float64.of_int 100)).

(** [int((scanned / total_hosts) * 100)]. *)
Definition progress_percent (scanned total_hosts : Z) : Result Z :=
  if total_hosts =? 0 then Raise (ZeroDivisionError "division by zero")
  else Ok (progress_float scanned total_hosts).

(** ** Data *)

(** The [proxies] argument of [requests.get]. *)
Record Proxies : Type := {
  proxies_http : string;
  proxies_https : string
}.

(** One call of [requests.get]. *)
Record Request : Type := {
  req_url : string;
  req_proxies : Proxies;
  req_timeout : Z;
  req_verify : bool;
  req_allow_redirects : bool;
  req_user_agent : string
}.

(** The object [response.json()] returns on the geolocation service, seen
    through the five [geo_data.get(...)] calls of the source. *)
Record GeoData : Type := {
  geo_ip : option string;
  geo_country_name : option string;
  geo_country_code : option string;
  geo_city : option string;
  geo_region : option string
}.

(** What the program reads of a response.  [resp_json = None] stands for a
    body on which [response.json()] or the [get] calls raise. *)
Record Response : Type := {
  status_code : Z;
  resp_text : string;
  resp_json : option GeoData
}.

(** One entry of the dictionary built by [test_ai_model_availability]. *)
Record AiEntry : Type := {
  ai_available : bool;
  ai_status : string;
  ai_response_time : option Z
}.

(** The dictionary [proxy_info] of [test_proxy_quality]; field [pi_k] is key
    [k].  [pi_exit_region] is the key the geolocation branch adds. *)
Record ProxyInfo : Type := {
  pi_response_time : option Z;
  pi_is_working : bool;
  pi_http_code : option Z;
  pi_can_access_google : bool;
  pi_accessible_sites : list string;
  pi_quality_score : Z;
  pi_quality_level : string;
  pi_error : option string;
  pi_proxy_type : string;
  pi_exit_ip : option string;
  pi_exit_country : option string;
  pi_exit_country_code : option string;
  pi_exit_city : option string;
  pi_exit_region : option string;
  pi_ai_models : option (list (string * AiEntry))
}.

(** The dictionary [scan_port] returns for an open port.  The keys that
    [base_result.update] copies out of the quality report ([quality_score],
    [is_proxy_working], ...) are read through [r_proxy_quality]. *)
Record ScanResult : Type := {
  r_ip : string;
  r_port : Z;
  r_status : string;
  r_timestamp : Z;
  r_proxy_quality : option ProxyInfo
}.

(** [x.get('quality_score', 0)]. *)
Definition get_quality_score (x : ScanResult) : Z :=
  match r_proxy_quality x with
  | Some q => pi_quality_score q
  | None => 0
  end.

(** Class [ScanTask]. *)
Record ScanTask : Type := {
  task_id : string;
  network : string;
  port : Z;
  threads : Z;
  check_proxy_quality : bool;
  is_scanning : bool;
  progress : Z;
  total : Z;
  scanned : Z;
  results : list ScanResult;
  start_time : option Z;
  end_time : option Z;
  error : option string;
  created_at : Z
}.

(** [ScanTask.__init__]. *)
Definition ScanTask_init (task_id network : string) (port threads : Z)
    (check_proxy_quality : bool) (now : Z) : ScanTask :=
  {| task_id := task_id; network := network; port := port; threads := threads;
     check_proxy_quality := check_proxy_quality;
     is_scanning := false; progress := 0; total := 0; scanned := 0;
     results := []; start_time := None; end_time := None; error := None;
     created_at := now |}.

(** Attribute assignments [task.x = v]. *)
Definition set_is_scanning (v : bool) (t : ScanTask) : ScanTask :=
  {| task_id := task_id t; network := network t; port := port t; threads := threads t;
     check_proxy_quality := check_proxy_quality t;
     is_scanning := v; progress := progress t; total := total t; scanned := scanned t;
     results := results t; start_time := start_time t; end_time := end_time t;
     error := error t; created_at := created_at t |}.
Definition set_progress (v : Z) (t : ScanTask) : ScanTask :=
  {| task_id := task_id t; network := network t; port := port t; threads := threads t;
     check_proxy_quality := check_proxy_quality t;
     is_scanning := is_scanning t; progress := v; total := total t; scanned := scanned t;
     results := results t; start_time := start_time t; end_time := end_time t;
     error := error t; created_at := created_at t |}.
Definition set_total (v : Z) (t : ScanTask) : ScanTask :=
  {| task_id := task_id t; network := network t; port := port t; threads := threads t;
     check_proxy_quality := check_proxy_quality t;
     is_scanning := is_scanning t; progress := progress t; total := v; scanned := scanned t;
     results := results t; start_time := start_time t; end_time := end_time t;
     error := error t; created_at := created_at t |}.
Definition set_scanned (v : Z) (t : ScanTask) : ScanTask :=
  {| task_id := task_id t; network := network t; port := port t; threads := threads t;
     check_proxy_quality := check_proxy_quality t;
     is_scanning := is_scanning t; progress := progress t; total := total t; scanned := v;
     results := results t; start_time := start_time t; end_time := end_time t;
     error := error t; created_at := created_at t |}.
Definition set_results (v : list ScanResult) (t : ScanTask) : ScanTask :=
  {| task_id := task_id t; network := network t; port := port t; threads := threads t;
     check_proxy_quality := check_proxy_quality t;
     is_scanning := is_scanning t; progress := progress t; total := total t; scanned := scanned t;
     results := v; start_time := start_time t; end_time := end_time t;
     error := error t; created_at := created_at t |}.
Definition set_start_time (v : option Z) (t : ScanTask) : ScanTask :=
  {| task_id := task_id t; network := network t; port := port t; threads := threads t;
     check_proxy_quality := check_proxy_quality t;
     is_scanning := is_scanning t; progress := progress t; total := total t; scanned := scanned t;
     results := results t; start_time := v; end_time := end_time t;
     error := error t; created_at := created_at t |}.
Definition set_end_time (v : option Z) (t : ScanTask) : ScanTask :=
  {| task_id := task_id t; network := network t; port := port t; threads := threads t;
     check_proxy_quality := check_proxy_quality t;
     is_scanning := is_scanning t; progress := progress t; total := total t; scanned := scanned t;
     results := results t; start_time := start_time t; end_time := v;
     error := error t; created_at := created_at t |}.
Definition set_error (v : option string) (t : ScanTask) : ScanTask :=
  {| task_id := task_id t; network := network t; port := port t; threads := threads t;
     check_proxy_quality := check_proxy_quality t;
     is_scanning := is_scanning t; progress := progress t; total := total t; scanned := scanned t;
     results := results t; start_time := start_time t; end_time := end_time t;
     error := v; created_at := created_at t |}.

(** Assignments [proxy_info[k] = v]. *)
Definition set_pi_response_time (v : option Z) (q : ProxyInfo) : ProxyInfo :=
  {| pi_response_time := v; pi_is_working := pi_is_working q;
     pi_http_code := pi_http_code q;
     pi_can_access_google := pi_can_access_google q;
     pi_accessible_sites := pi_accessible_sites q;
     pi_quality_score := pi_quality_score q;
     pi_quality_level := pi_quality_level q; pi_error := pi_error q;
     pi_proxy_type := pi_proxy_type q; pi_exit_ip := pi_exit_ip q;
     pi_exit_country := pi_exit_country q;
     pi_exit_country_code := pi_exit_country_code q;
     pi_exit_city := pi_exit_city q; pi_exit_region := pi_exit_region q;
     pi_ai_models := pi_ai_models q |}.
Definition set_pi_is_working (v : bool) (q : ProxyInfo) : ProxyInfo :=
  {| pi_response_time := pi_response_time q; pi_is_working := v;
     pi_http_code := pi_http_code q;
     pi_can_access_google := pi_can_access_google q;
     pi_accessible_sites := pi_accessible_sites q;
     pi_quality_score := pi_quality_score q;
     pi_quality_level := pi_quality_level q; pi_error := pi_error q;
     pi_proxy_type := pi_proxy_type q; pi_exit_ip := pi_exit_ip q;
     pi_exit_country := pi_exit_country q;
     pi_exit_country_code := pi_exit_country_code q;
     pi_exit_city := pi_exit_city q; pi_exit_region := pi_exit_region q;
     pi_ai_models := pi_ai_models q |}.
Definition set_pi_http_code (v : option Z) (q : ProxyInfo) : ProxyInfo :=
  {| pi_response_time := pi_response_time q; pi_is_working := pi_is_working q;
     pi_http_code := v; pi_can_access_google := pi_can_access_google q;
     pi_accessible_sites := pi_accessible_sites q;
     pi_quality_score := pi_quality_score q;
     pi_quality_level := pi_quality_level q; pi_error := pi_error q;
     pi_proxy_type := pi_proxy_type q; pi_exit_ip := pi_exit_ip q;
     pi_exit_country := pi_exit_country q;
     pi_exit_country_code := pi_exit_country_code q;
     pi_exit_city := pi_exit_city q; pi_exit_region := pi_exit_region q;
     pi_ai_models := pi_ai_models q |}.
Definition set_pi_can_access_google (v : bool) (q : ProxyInfo) : ProxyInfo :=
  {| pi_response_time := pi_response_time q; pi_is_working := pi_is_working q;
     pi_http_code := pi_http_code q; pi_can_access_google := v;
     pi_accessible_sites := pi_accessible_sites q;
     pi_quality_score := pi_quality_score q;
     pi_quality_level := pi_quality_level q; pi_error := pi_error q;
     pi_proxy_type := pi_proxy_type q; pi_exit_ip := pi_exit_ip q;
     pi_exit_country := pi_exit_country q;
     pi_exit_country_code := pi_exit_country_code q;
     pi_exit_city := pi_exit_city q; pi_exit_region := pi_exit_region q;
     pi_ai_models := pi_ai_models q |}.
Definition set_pi_accessible_sites (v : list string) (q : ProxyInfo) : ProxyInfo :=
  {| pi_response_time := pi_response_time q; pi_is_working := pi_is_working q;
     pi_http_code := pi_http_code q;
     pi_can_access_google := pi_can_access_google q;
     pi_accessible_sites := v; pi_quality_score := pi_quality_score q;
     pi_quality_level := pi_quality_level q; pi_error := pi_error q;
     pi_proxy_type := pi_proxy_type q; pi_exit_ip := pi_exit_ip q;
     pi_exit_country := pi_exit_country q;
     pi_exit_country_code := pi_exit_country_code q;
     pi_exit_city := pi_exit_city q; pi_exit_region := pi_exit_region q;
     pi_ai_models := pi_ai_models q |}.
Definition set_pi_quality_score (v : Z) (q : ProxyInfo) : ProxyInfo :=
  {| pi_response_time := pi_response_time q; pi_is_working := pi_is_working q;
     pi_http_code := pi_http_code q;
     pi_can_access_google := pi_can_access_google q;
     pi_accessible_sites := pi_accessible_sites q; pi_quality_score := v;
     pi_quality_level := pi_quality_level q; pi_error := pi_error q;
     pi_proxy_type := pi_proxy_type q; pi_exit_ip := pi_exit_ip q;
     pi_exit_country := pi_exit_country q;
     pi_exit_country_code := pi_exit_country_code q;
     pi_exit_city := pi_exit_city q; pi_exit_region := pi_exit_region q;
     pi_ai_models := pi_ai_models q |}.
Definition set_pi_quality_level (v : string) (q : ProxyInfo) : ProxyInfo :=
  {| pi_response_time := pi_response_time q; pi_is_working := pi_is_working q;
     pi_http_code := pi_http_code q;
     pi_can_access_google := pi_can_access_google q;
     pi_accessible_sites := pi_accessible_sites q;
     pi_quality_score := pi_quality_score q; pi_quality_level := v;
     pi_error := pi_error q; pi_proxy_type := pi_proxy_type q;
     pi_exit_ip := pi_exit_ip q; pi_exit_country := pi_exit_country q;
     pi_exit_country_code := pi_exit_country_code q;
     pi_exit_city := pi_exit_city q; pi_exit_region := pi_exit_region q;
     pi_ai_models := pi_ai_models q |}.
Definition set_pi_error (v : option string) (q : ProxyInfo) : ProxyInfo :=
  {| pi_response_time := pi_response_time q; pi_is_working := pi_is_working q;
     pi_http_code := pi_http_code q;
     pi_can_access_google := pi_can_access_google q;
     pi_accessible_sites := pi_accessible_sites q;
     pi_quality_score := pi_quality_score q;
     pi_quality_level := pi_quality_level q; pi_error := v;
     pi_proxy_type := pi_proxy_type q; pi_exit_ip := pi_exit_ip q;
     pi_exit_country := pi_exit_country q;
     pi_exit_country_code := pi_exit_country_code q;
     pi_exit_city := pi_exit_city q; pi_exit_region := pi_exit_region q;
     pi_ai_models := pi_ai_models q |}.
Definition set_pi_proxy_type (v : string) (q : ProxyInfo) : ProxyInfo :=
  {| pi_response_time := pi_response_time q; pi_is_working := pi_is_working q;
     pi_http_code := pi_http_code q;
     pi_can_access_google := pi_can_access_google q;
     pi_accessible_sites := pi_accessible_sites q;
     pi_quality_score := pi_quality_score q;
     pi_quality_level := pi_quality_level q; pi_error := pi_error q;
     pi_proxy_type := v; pi_exit_ip := pi_exit_ip q;
     pi_exit_country := pi_exit_country q;
     pi_exit_country_code := pi_exit_country_code q;
     pi_exit_city := pi_exit_city q; pi_exit_region := pi_exit_region q;
     pi_ai_models := pi_ai_models q |}.
Definition set_pi_ai_models (v : option (list (string * AiEntry))) (q : ProxyInfo) : ProxyInfo :=
  {| pi_response_time := pi_response_time q; pi_is_working := pi_is_working q;
     pi_http_code := pi_http_code q;
     pi_can_access_google := pi_can_access_google q;
     pi_accessible_sites := pi_accessible_sites q;
     pi_quality_score := pi_quality_score q;
     pi_quality_level := pi_quality_level q; pi_error := pi_error q;
     pi_proxy_type := pi_proxy_type q; pi_exit_ip := pi_exit_ip q;
     pi_exit_country := pi_exit_country q;
     pi_exit_country_code := pi_exit_country_code q;
     pi_exit_city := pi_exit_city q; pi_exit_region := pi_exit_region q;
     pi_ai_models := v |}.
Definition set_pi_exit (g : GeoData) (q : ProxyInfo) : ProxyInfo :=
  {| pi_response_time := pi_response_time q; pi_is_working := pi_is_working q;
     pi_http_code := pi_http_code q;
     pi_can_access_google := pi_can_access_google q;
     pi_accessible_sites := pi_accessible_sites q;
     pi_quality_score := pi_quality_score q;
     pi_quality_level := pi_quality_level q; pi_error := pi_error q;
     pi_proxy_type := pi_proxy_type q; pi_exit_ip := geo_ip g;
     pi_exit_country := geo_country_name g;
     pi_exit_country_code := geo_country_code g;
     pi_exit_city := geo_city g; pi_exit_region := geo_region g;
     pi_ai_models := pi_ai_models q |}.

(** ** The environment and the program state *)

(** The outside world.  The first argument of every field is the logical
    clock at the time of the call. *)
Record Env : Type := {
  env_socket : nat -> option exn;
  env_settimeout : nat -> option exn;
  env_connect_ex : nat -> string -> Z -> Result Z;
  env_close : nat -> option exn;
  env_get : nat -> Request -> Result Response;
  env_time : nat -> Z;
  env_now : nat -> Z;
  env_uuid4 : nat -> string
}.

(** The interactions with the outside world, as they are recorded. *)
Inductive event : Type :=
| EvSocket (r : option exn)
| EvSetTimeout (timeout : Z) (r : option exn)
| EvConnectEx (ip : string) (port : Z) (r : Result Z)
| EvClose (r : option exn)
| EvGet (req : Request) (r : Result Response)
| EvTime (t : Z)
| EvNow (t : Z)
| EvUuid4 (u : string).

(** The state of the process.  [st_heap] holds the [ScanTask] objects and
    [scan_tasks] is the module-level dictionary of the source; a task object
    is reached through its reference, by the registry and by the worker that
    drives it alike.  [st_log] and [st_history] are observations: the
    interactions made so far, oldest first, and the value of a task object
    after each assignment to one of its attributes, oldest first. *)
Record State : Type := {
  st_clock : nat;
  st_log : list event;
  st_heap : list ScanTask;
  scan_tasks : gmap string nat;
  st_threads : list string;
  st_history : list (nat * ScanTask)
}.

Definition init_state : State :=
  {| st_clock := 0; st_log := []; st_heap := []; scan_tasks := ∅;
     st_threads := []; st_history := [] |}.

(** ** The monad *)

Definition M (A : Type) : Type := State -> Result A * State.

Definition ret {A : Type} (a : A) : M A := fun st => (Ok a, st).

Definition bind {A B : Type} (m : M A) (k : A -> M B) : M B :=
  fun st =>
    match m st with
    | (Ok a, st') => k a st'
    | (Raise e, st') => (Raise e, st')
    end.

Definition raise {A : Type} (e : exn) : M A := fun st => (Raise e, st).

(** [try: body except Exception as e: handler(e)]. *)
Definition try_except {A : Type} (body : M A) (handler : exn -> M A) : M A :=
  fun st =>
    match body st with
    | (Ok a, st') => (Ok a, st')
    | (Raise e, st') => handler e st'
    end.

(** [try: body finally: fin]. *)
Definition try_finally {A : Type} (body : M A) (fin : M unit) : M A :=
  fun st =>
    match body st with
    | (r, st') =>
        match fin st' with
        | (Ok _, st'') => (r, st'')
        | (Raise e, st'') => (Raise e, st'')
        end
    end.

Definition lift {A : Type} (r : Result A) : M A := fun st => (r, st).

Declare Scope monad_scope.
Delimit Scope monad_scope with monad.
Notation "x <- c1 ;; c2" := (bind c1 (fun x => c2))
  (at level 100, c1 at next level, right associativity) : monad_scope.
Notation "c1 ;; c2" := (bind c1 (fun _ => c2))
  (at level 100, right associativity) : monad_scope.
Local Open Scope monad_scope.

(** [for x in l: body(x)]. *)
Fixpoint for_each {A : Type} (l : list A) (body : A -> M unit) : M unit :=
  match l with
  | [] => ret tt
  | x :: l' => body x ;; for_each l' body
  end.

(** A loop that threads its local variables [s] through the iterations. *)
Fixpoint for_fold {A S : Type} (l : list A) (body : A -> S -> M S) (s : S) : M S :=
  match l with
  | [] => ret s
  | x :: l' => s' <- body x s ;; for_fold l' body s'
  end.

(** [[f(x) for x in l]]. *)
Fixpoint map_M {A B : Type} (f : A -> M B) (l : list A) : M (list B) :=
  match l with
  | [] => ret []
  | x :: l' => y <- f x ;; ys <- map_M f l' ;; ret (y :: ys)
  end.

(** The state after one more interaction [ev]. *)
Definition tick (ev : event) (st : State) : State :=
  {| st_clock := S (st_clock st); st_log := st_log st ++ [ev];
     st_heap := st_heap st; scan_tasks := scan_tasks st;
     st_threads := st_threads st; st_history := st_history st |}.

Definition of_option (o : option exn) : Result unit :=
  match o with
  | None => Ok tt
  | Some e => Raise e
  end.

(** ** Pure helpers *)

(** [s.lower()] on ASCII text. *)
Definition lower_ascii (c : ascii) : ascii :=
  let n := nat_of_ascii c in
  if (Nat.leb 65 n && Nat.leb n 90)%bool then ascii_of_nat (n + 32) else c.
Fixpoint lower (s : string) : string :=
  match s with
  | EmptyString => EmptyString
  | String c s' => String (lower_ascii c) (lower s')
  end.

(** [needle in hay] on strings. *)
Fixpoint contains (needle hay : string) : bool :=
  (String.prefix needle hay ||
   match hay with
   | EmptyString => false
   | String _ hay' => contains needle hay'
   end)%bool.

(** [x in l] on lists of strings and of integers. *)
Definition mem_string (x : string) (l : list string) : bool :=
  existsb (String.eqb x) l.
Definition mem_Z (x : Z) (l : list Z) : bool :=
  existsb (Z.eqb x) l.

(** [sorted(l, key=key, reverse=reverse)] and [l.sort(...)]: a stable sort,
    ascending by key, or descending when [reverse] is set; elements with equal
    keys keep their order in both directions. *)
Fixpoint py_insert {A : Type} (key : A -> Z) (reverse : bool) (x : A) (l : list A)
    : list A :=
  match l with
  | [] => [x]
  | y :: l' =>
      if (if reverse then key x <? key y else key y <? key x)
      then y :: py_insert key reverse x l'
      else x :: y :: l'
  end.
Definition py_sorted {A : Type} (key : A -> Z) (reverse : bool) (l : list A) : list A :=
  foldr (py_insert key reverse) [] l.

(** The reference sites of [test_proxy_quality]. *)
Record TestSite : Type := {
  site_url : string;
  site_name : string;
  site_key : string;
  site_priority : Z
}.

Definition ip_check_site : TestSite :=
  {| site_url := "https://ipapi.co/json/"; site_name := "IP Check";
     site_key := "ip_check"; site_priority := 1 |}.
Definition google_site : TestSite :=
  {| site_url := "https://www.google.com/generate_204"; site_name := "Google";
     site_key := "can_access_google"; site_priority := 2 |}.
Definition youtube_site : TestSite :=
  {| site_url := "https://www.youtube.com"; site_name := "YouTube";
     site_key := "can_access_youtube"; site_priority := 3 |}.

Definition test_sites : list TestSite :=
  [ip_check_site; google_site; youtube_site].

(** The proxy protocols of [test_proxy_quality]. *)
Record ProxyConfig : Type := {
  cfg_type : string;
  cfg_proxies : Proxies
}.

Definition http_config (ip : string) (port : Z) : ProxyConfig :=
  {| cfg_type := "http";
     cfg_proxies := {| proxies_http := "http://" +:+ ip +:+ ":" +:+ pretty port;
                       proxies_https := "http://" +:+ ip +:+ ":" +:+ pretty port |} |}.
Definition socks5_config (ip : string) (port : Z) : ProxyConfig :=
  {| cfg_type := "socks5";
     cfg_proxies := {| proxies_http := "socks5://" +:+ ip +:+ ":" +:+ pretty port;
                       proxies_https := "socks5://" +:+ ip +:+ ":" +:+ pretty port |} |}.

Definition proxy_configs (ip : string) (port : Z) : list ProxyConfig :=
  [http_config ip port; socks5_config ip port].

(** The named endpoints of [test_ai_model_availability]. *)
Record AiEndpoint : Type := {
  ep_name : string;
  ep_url : string;
  ep_display_name : string;
  ep_check_text : string
}.

Definition ai_endpoints : list AiEndpoint :=
  [ {| ep_name := "chatgpt"; ep_url := "https://chat.openai.com";
       ep_display_name := "ChatGPT"; ep_check_text := "openai" |};
    {| ep_name := "claude"; ep_url := "https://claude.ai";
       ep_display_name := "Claude"; ep_check_text := "claude" |};
    {| ep_name := "gemini"; ep_url := "https://gemini.google.com";
       ep_display_name := "Gemini"; ep_check_text := "google" |};
    {| ep_name := "copilot"; ep_url := "https://copilot.microsoft.com";
       ep_display_name := "Copilot"; ep_check_text := "microsoft" |} ].

Definition blocked_keywords : list string :=
  [ "not available in your country"; "not available in your region";
    "service is not available"; "access denied"; "region restricted";
    "geographic restriction"; "geoblocked"; "vpn detected"; "proxy detected" ].

Definition ai_unknown : AiEntry :=
  {| ai_available := false; ai_status := "unknown"; ai_response_time := None |}.

(** The initial value of [ai_availability]. *)
Definition ai_availability_init : list (string * AiEntry) :=
  [ ("chatgpt", ai_unknown); ("claude", ai_unknown);
    ("gemini", ai_unknown); ("copilot", ai_unknown) ].

(** [d[name] = f(d[name])] on a dictionary kept in insertion order. *)
Definition dict_alter (name : string) (f : AiEntry -> AiEntry)
    (d : list (string * AiEntry)) : list (string * AiEntry) :=
  map (fun kv => if String.eqb (fst kv) name then (fst kv, f (snd kv)) else kv) d.

Definition ai_set_available (v : bool) (a : AiEntry) : AiEntry :=
  {| ai_available := v; ai_status := ai_status a; ai_response_time := ai_response_time a |}.
Definition ai_set_status (v : string) (a : AiEntry) : AiEntry :=
  {| ai_available := ai_available a; ai_status := v; ai_response_time := ai_response_time a |}.
Definition ai_set_response_time (v : option Z) (a : AiEntry) : AiEntry :=
  {| ai_available := ai_available a; ai_status := ai_status a; ai_response_time := v |}.

Definition user_agent_long : string :=
  "Mozilla/5.0 (Windows NT 10.0; Win64; x64) AppleWebKit/537.36 (KHTML, like Gecko) Chrome/120.0.0.0 Safari/537.36".
Definition user_agent_short : string :=
  "Mozilla/5.0 (Windows NT 10.0; Win64; x64) AppleWebKit/537.36".

(** The body of the [try] of [test_ai_model_availability] once the response
    is in: how one endpoint's entry is filled. *)
Definition ai_on_response (endpoint : AiEndpoint) (response : Response) (elapsed : Z)
    (ai_availability : list (string * AiEntry)) : list (string * AiEntry) :=
  let name := ep_name endpoint in
  if mem_Z (status_code response) [200; 301; 302] then
    let content_lower := lower (resp_text response) in
    let is_blocked := existsb (fun keyword => contains keyword content_lower) blocked_keywords in
    if is_blocked then
      dict_alter name (ai_set_status "blocked")
        (dict_alter name (ai_set_available false) ai_availability)
    else if (contains (ep_check_text endpoint) content_lower ||
             (status_code response =? 200))%bool then
      dict_alter name (ai_set_response_time (Some elapsed))
        (dict_alter name (ai_set_status "available")
           (dict_alter name (ai_set_available true) ai_availability))
    else
      dict_alter name (ai_set_status "uncertain") ai_availability
  else if status_code response =? 403 then
    dict_alter name (ai_set_status "blocked")
      (dict_alter name (ai_set_available false) ai_availability)
  else
    dict_alter name (ai_set_status ("http_" +:+ pretty (status_code response)))
      ai_availability.

(** The [except] clauses of [test_ai_model_availability], in their order. *)
Definition ai_on_exception (endpoint : AiEndpoint) (e : exn)
    (ai_availability : list (string * AiEntry)) : list (string * AiEntry) :=
  let name := ep_name endpoint in
  if is_Timeout e then dict_alter name (ai_set_status "timeout") ai_availability
  else if is_ConnectionError e then
    dict_alter name (ai_set_status "connection_error") ai_availability
  else dict_alter name (ai_set_status "error") ai_availability.

(** The local variables of [test_proxy_quality]. *)
Record Locals : Type := {
  proxy_info : ProxyInfo;
  best_time : option Z;
  successful_config : option string;
  working_proxies : option Proxies
}.

Definition proxy_info_init : ProxyInfo :=
  {| pi_response_time := None; pi_is_working := false; pi_http_code := None;
     pi_can_access_google := false; pi_accessible_sites := [];
     pi_quality_score := 0; pi_quality_level := "unknown"; pi_error := None;
     pi_proxy_type := "unknown"; pi_exit_ip := None; pi_exit_country := None;
     pi_exit_country_code := None; pi_exit_city := None; pi_exit_region := None;
     pi_ai_models := None |}.

Definition locals_init : Locals :=
  {| proxy_info := proxy_info_init; best_time := None;
     successful_config := None; working_proxies := None |}.

Definition with_proxy_info (f : ProxyInfo -> ProxyInfo) (l : Locals) : Locals :=
  {| proxy_info := f (proxy_info l); best_time := best_time l;
     successful_config := successful_config l; working_proxies := working_proxies l |}.

(** The statuses that count as a completed round trip. *)
Definition success_codes : list Z := [200; 204; 301; 302; 403].

(** The body of the [try] of the reference-site loop once the response is in
    (source lines 239 to 274).  Of the three site keys only
    [can_access_google] is a key of [proxy_info], so
    [if site['key'] in proxy_info] holds for that site alone. *)
Definition on_response (config : ProxyConfig) (site : TestSite) (response : Response)
    (elapsed : Z) (l : Locals) : Locals :=
  if mem_Z (status_code response) success_codes then
    let l := with_proxy_info
               (fun q => set_pi_proxy_type (cfg_type config)
                           (set_pi_http_code (Some (status_code response))
                              (set_pi_is_working true q))) l in
    let l := {| proxy_info := proxy_info l; best_time := best_time l;
                successful_config := successful_config l;
                working_proxies := Some (cfg_proxies config) |} in
    let l := match successful_config l with
             | None => {| proxy_info := proxy_info l; best_time := best_time l;
                          successful_config := Some (cfg_type config);
                          working_proxies := working_proxies l |}
             | Some _ => l
             end in
    let l := if (String.eqb (site_key site) "ip_check" &&
                 (status_code response =? 200))%bool
             then match resp_json response with
                  | Some geo_data => with_proxy_info (set_pi_exit geo_data) l
                  | None => l
                  end
             else l in
    let l := if (negb (mem_string (site_name site) (pi_accessible_sites (proxy_info l))) &&
                 negb (String.eqb (site_name site) "IP Check"))%bool
             then with_proxy_info
                    (fun q => set_pi_accessible_sites
                                (pi_accessible_sites q ++ [site_name site]) q) l
             else l in
    let l := if String.eqb (site_key site) "can_access_google"
             then with_proxy_info (set_pi_can_access_google true) l
             else l in
    if match best_time l with
       | None => true
       | Some b => elapsed <? b
       end
    then {| proxy_info := set_pi_response_time (Some elapsed) (proxy_info l);
            best_time := Some elapsed;
            successful_config := successful_config l;
            working_proxies := working_proxies l |}
    else l
  else l.

(** The category an exception is recorded under: the [except] clauses of the
    reference-site loop, in their order. *)
Definition error_category (e : exn) : string :=
  if is_ProxyError e then "Proxy connection failed"
  else if is_Timeout e then "Request timeout"
  else if is_SSLError e then "SSL error"
  else if is_ConnectionError e then "Connection error"
  else str_exn e.

Definition on_exception (e : exn) (l : Locals) : Locals :=
  with_proxy_info (set_pi_error (Some (error_category e))) l.

(** [len(...)] of the available entries of an availability dictionary. *)
Definition count_available (d : list (string * AiEntry)) : Z :=
  Z.of_nat (length (filter (fun kv => ai_available (snd kv) = true) d)).

(** The score of a working proxy (source lines 303 to 339). *)
Definition quality_score_of (q : ProxyInfo) : Z :=
  let score := 30 in
  let accessible_count := Z.of_nat (length (pi_accessible_sites q)) in
  let score :=
    if 3 <=? accessible_count then score + 30
    else if 2 <=? accessible_count then score + 25
    else if 1 <=? accessible_count then score + 20
    else score in
  let score :=
    match pi_response_time q with
    | Some response_time =>
        if response_time <? 300 then score + 30
        else if response_time <? 600 then score + 25
        else if response_time <? 1000 then score + 20
        else if response_time <? 2000 then score + 15
        else if response_time <? 3000 then score + 10
        else if response_time <? 5000 then score + 5
        else score
    | None => score
    end in
  let score :=
    match pi_ai_models q with
    | Some ((_ :: _) as ai_models) =>
        let available_models_count := count_available ai_models in
        if 4 <=? available_models_count then score + 10
        else if 3 <=? available_models_count then score + 8
        else if 2 <=? available_models_count then score + 6
        else if 1 <=? available_models_count then score + 4
        else score
    | _ => score
    end in
  score.

(** The level of a score (source lines 344 to 353). *)
Definition quality_level_of (score : Z) : string :=
  if 85 <=? score then "excellent"
  else if 70 <=? score then "good"
  else if 55 <=? score then "fair"
  else if 40 <=? score then "poor"
  else "bad".

(** The scoring stage (source lines 301 to 355). *)
Definition score_stage (q : ProxyInfo) : ProxyInfo :=
  if pi_is_working q then
    let score := quality_score_of q in
    set_pi_quality_level (quality_level_of score) (set_pi_quality_score score q)
  else set_pi_quality_level "unavailable" q.

(** ** The API boundary *)

(** The JSON body of [POST /api/scan], with every key at the type the
    handler expects; [None] is an absent key. *)
Record ScanRequest : Type := {
  rq_network : option string;
  rq_port : option Z;
  rq_threads : option Z;
  rq_check_proxy_quality : option bool
}.

(** What a handler answers: the HTTP status and the keys of the JSON body. *)
Record ApiResponse : Type := {
  http_status : Z;
  api_status : string;
  api_message : string;
  api_task_id : option string;
  api_data : option ScanTask
}.

Definition api_error (code : Z) (message : string) : ApiResponse :=
  {| http_status := code; api_status := "error"; api_message := message;
     api_task_id := None; api_data := None |}.

Section Program.

Variable env : Env.

(** *** Interactions *)

Definition socket_socket : M unit :=
  fun st =>
    let r := env_socket env (st_clock st) in
    (of_option r, tick (EvSocket r) st).

Definition sock_settimeout (timeout : Z) : M unit :=
  fun st =>
    let r := env_settimeout env (st_clock st) in
    (of_option r, tick (EvSetTimeout timeout r) st).

Definition sock_connect_ex (ip : string) (port : Z) : M Z :=
  fun st =>
    let r := env_connect_ex env (st_clock st) ip port in
    (r, tick (EvConnectEx ip port r) st).

Definition sock_close : M unit :=
  fun st =>
    let r := env_close env (st_clock st) in
    (of_option r, tick (EvClose r) st).

Definition requests_get (req : Request) : M Response :=
  fun st =>
    let r := env_get env (st_clock st) req in
    (r, tick (EvGet req r) st).

(** [time.time()], in milliseconds. *)
Definition time_time : M Z :=
  fun st =>
    let t := env_time env (st_clock st) in
    (Ok t, tick (EvTime t) st).

(** [datetime.now()], in seconds. *)
Definition datetime_now : M Z :=
  fun st =>
    let t := env_now env (st_clock st) in
    (Ok t, tick (EvNow t) st).

(** [str(uuid.uuid4())]. *)
Definition uuid4 : M string :=
  fun st =>
    let u := env_uuid4 env (st_clock st) in
    (Ok u, tick (EvUuid4 u) st).


(** *** [test_ai_model_availability] *)

Definition ai_request (endpoint : AiEndpoint) (proxies : Proxies) (timeout : Z)
    : Request :=
  {| req_url := ep_url endpoint; req_proxies := proxies; req_timeout := timeout;
     req_verify := false; req_allow_redirects := true;
     req_user_agent := user_agent_long |}.

(** One iteration of [for endpoint in ai_endpoints]. *)
Definition check_endpoint (proxies : Proxies) (timeout : Z) (endpoint : AiEndpoint)
    (ai_availability : list (string * AiEntry)) : M (list (string * AiEntry)) :=
  try_except
    (start_time <- time_time ;;
     response <- requests_get (ai_request endpoint proxies timeout) ;;
     now <- time_time ;;
     let elapsed := now - start_time in
     ret (ai_on_response endpoint response elapsed ai_availability))
    (fun e => ret (ai_on_exception endpoint e ai_availability)).

Definition test_ai_model_availability (proxies : Proxies) (timeout : Z)
    : M (list (string * AiEntry)) :=
  for_fold ai_endpoints (check_endpoint proxies timeout) ai_availability_init.

(** *** [test_proxy_quality] *)

Definition site_request (config : ProxyConfig) (site : TestSite) (timeout : Z)
    : Request :=
  {| req_url := site_url site; req_proxies := cfg_proxies config;
     req_timeout := timeout; req_verify := false; req_allow_redirects := false;
     req_user_agent := user_agent_short |}.

(** One iteration of [for site in sorted(test_sites, ...)]. *)
Definition probe_site (timeout : Z) (config : ProxyConfig) (site : TestSite)
    (l : Locals) : M Locals :=
  try_except
    (start_time <- time_time ;;
     response <- requests_get (site_request config site timeout) ;;
     now <- time_time ;;
     let elapsed := now - start_time in
     ret (on_response config site response elapsed l))
    (fun e => ret (on_exception e l)).

(** [for config in proxy_configs: ...; if proxy_info['is_working']: break]. *)
Fixpoint for_configs (timeout : Z) (configs : list ProxyConfig) (l : Locals)
    : M Locals :=
  match configs with
  | [] => ret l
  | config :: configs' =>
      l <- for_fold (py_sorted site_priority false test_sites)
             (probe_site timeout config) l ;;
      if pi_is_working (proxy_info l) then ret l
      else for_configs timeout configs' l
  end.

Definition test_proxy_quality (ip : string) (port : Z) (timeout : Z)
    (check_ai_models : bool) : M ProxyInfo :=
  l <- for_configs timeout (proxy_configs ip port) locals_init ;;
  proxy_info <-
    match working_proxies l with
    | Some proxies =>
        if (pi_is_working (proxy_info l) && check_ai_models)%bool then
          ai_models <- test_ai_model_availability proxies timeout ;;
          ret (set_pi_ai_models (Some ai_models) (proxy_info l))
        else ret (proxy_info l)
    | None => ret (proxy_info l)
    end ;;
  ret (score_stage proxy_info).

(** *** [scan_port] *)

(** Source lines 363 to 366: one connection attempt. *)
Definition connect_attempt (ip : string) (port : Z) (timeout : Z) : M Z :=
  socket_socket ;;
  sock_settimeout timeout ;;
  result <- sock_connect_ex ip port ;;
  sock_close ;;
  ret result.

(** [scan_port(ip, port, check_quality, timeout)]; [ip] is the address as
    an integer and [str(ip)] its dotted form.  The quality check runs with
    the defaults [timeout=8] and [check_ai_models=True]. *)
Definition scan_port (ip : Z) (port : Z) (check_quality : bool) (timeout : Z)
    : M (option ScanResult) :=
  try_except
    (result <- connect_attempt (ipaddress.str_address ip) port timeout ;;
     if result =? 0 then
       timestamp <- datetime_now ;;
       if check_quality then
         proxy_quality <- test_proxy_quality (ipaddress.str_address ip) port 8 true ;;
         ret (Some {| r_ip := ipaddress.str_address ip; r_port := port;
                      r_status := "open"; r_timestamp := timestamp;
                      r_proxy_quality := Some proxy_quality |})
       else
         ret (Some {| r_ip := ipaddress.str_address ip; r_port := port;
                      r_status := "open"; r_timestamp := timestamp;
                      r_proxy_quality := None |})
     else ret None)
    (fun _ => ret None).

(** *** Task objects *)

Definition get_state : M State := fun st => (Ok st, st).

(** Reading the object behind a reference.  References are only ever
    obtained from [alloc], and objects are never freed, so the second case
    does not arise in a state the program has built. *)
Definition load (ref : nat) : M ScanTask :=
  fun st =>
    match st_heap st !! ref with
    | Some t => (Ok t, st)
    | None => (Raise (OtherException "invalid reference"), st)
    end.

(** One attribute assignment on the object behind a reference; the new
    value of the object is appended to the history. *)
Definition store (ref : nat) (f : ScanTask -> ScanTask) : M unit :=
  fun st =>
    match st_heap st !! ref with
    | Some t =>
        (Ok tt,
         {| st_clock := st_clock st; st_log := st_log st;
            st_heap := <[ref := f t]> (st_heap st);
            scan_tasks := scan_tasks st; st_threads := st_threads st;
            st_history := st_history st ++ [(ref, f t)] |})
    | None => (Raise (OtherException "invalid reference"), st)
    end.

(** A new object. *)
Definition alloc (t : ScanTask) : M nat :=
  fun st =>
    (Ok (length (st_heap st)),
     {| st_clock := st_clock st; st_log := st_log st;
        st_heap := st_heap st ++ [t];
        scan_tasks := scan_tasks st; st_threads := st_threads st;
        st_history := st_history st ++ [(length (st_heap st), t)] |}).

(** [scan_tasks[task_id] = task]. *)
Definition registry_insert (task_id : string) (ref : nat) : M unit :=
  fun st =>
    (Ok tt,
     {| st_clock := st_clock st; st_log := st_log st; st_heap := st_heap st;
        scan_tasks := <[task_id := ref]> (scan_tasks st);
        st_threads := st_threads st; st_history := st_history st |}).

(** [del scan_tasks[task_id]]. *)
Definition registry_delete (task_id : string) : M unit :=
  fun st =>
    (Ok tt,
     {| st_clock := st_clock st; st_log := st_log st; st_heap := st_heap st;
        scan_tasks := delete task_id (scan_tasks st);
        st_threads := st_threads st; st_history := st_history st |}).

(** [threading.Thread(target=scan_network_thread, args=(task_id,)).start()]:
    the worker is recorded as started; [scan_network_thread] is what it
    runs, from this point on and alongside the handler.  What the worker
    has done by the time a handler reads the task is not fixed by the
    handler: see [worker_progress]. *)
Definition thread_start (task_id : string) : M unit :=
  fun st =>
    (Ok tt,
     {| st_clock := st_clock st; st_log := st_log st; st_heap := st_heap st;
        scan_tasks := scan_tasks st;
        st_threads := st_threads st ++ [task_id]; st_history := st_history st |}).

(** [ThreadPoolExecutor(max_workers=...)]. *)
Definition ThreadPoolExecutor (max_workers : Z) : M unit :=
  if max_workers <=? 0
  then raise (ValueError "max_workers must be greater than 0")
  else ret tt.

(** *** [scan_network_thread] *)

(** The body of [for future in futures] for one result. *)
Definition collect (task : nat) (total_hosts : Z) (result : option ScanResult)
    : M unit :=
  store task (fun t => set_scanned (scanned t + 1) t) ;;
  t <- load task ;;
  progress <- lift (progress_percent (scanned t) total_hosts) ;;
  store task (set_progress progress) ;;
  match result with
  | Some r => store task (fun t => set_results (results t ++ [r]) t)
  | None => ret tt
  end.

(** The [try] block.  The probe units are run one after the other in
    submission order, ahead of the loop that collects their results in that
    same order.  A unit never touches a task object, so where its
    interactions fall among the worker's assignments changes neither the
    task nor its history. *)
Definition scan_body (task : nat) : M unit :=
  t <- load task ;;
  network_obj <- lift (ipaddress.ip_network (network t)) ;;
  let total_hosts := ipaddress.num_addresses network_obj in
  store task (set_total total_hosts) ;;
  t <- load task ;;
  ThreadPoolExecutor (threads t) ;;
  futures <- map_M (fun ip => scan_port ip (port t) (check_proxy_quality t) 1)
               (ipaddress.hosts network_obj) ;;
  for_each futures (collect task total_hosts).

(** The [finally] block. *)
Definition scan_finally (task : nat) : M unit :=
  store task (set_is_scanning false) ;;
  now <- datetime_now ;;
  store task (set_end_time (Some now)) ;;
  t <- load task ;;
  if (check_proxy_quality t && negb (Nat.eqb (length (results t)) 0))%bool
  then store task (fun t => set_results (py_sorted get_quality_score true (results t)) t)
  else ret tt.

Definition scan_network_thread (task_id : string) : M unit :=
  st <- get_state ;;
  match scan_tasks st !! task_id with
  | None => ret tt
  | Some task =>
      store task (set_is_scanning true) ;;
      now <- datetime_now ;;
      store task (set_start_time (Some now)) ;;
      try_finally
        (try_except
           (scan_body task)
           (fun e => store task (set_error (Some (str_exn e)))))
        (scan_finally task)
  end.

(** *** The API *)

Definition start_scan (data : ScanRequest) : M ApiResponse :=
  try_except
    (let network := default "10.16.65.0/24" (rq_network data) in
     let port := default 7890 (rq_port data) in
     let threads := default 50 (rq_threads data) in
     let check_proxy_quality := default false (rq_check_proxy_quality data) in
     lift (ipaddress.ip_network network) ;;
     if negb ((1 <=? port) && (port <=? 65535))
     then ret (api_error 400 "端口号必须在1-65535之间")
     else
       task_id <- uuid4 ;;
       now <- datetime_now ;;
       task <- alloc (ScanTask_init task_id network port threads
                        check_proxy_quality now) ;;
       registry_insert task_id task ;;
       thread_start task_id ;;
       t <- load task ;;
       ret {| http_status := 200; api_status := "success";
              api_message :=
                "扫描任务已创建" +:+
                (if check_proxy_quality then " (含代理质量检测)" else "");
              api_task_id := Some task_id; api_data := Some t |})
    (fun e =>
       if is_ValueError e
       then ret (api_error 400 ("参数错误: " +:+ str_exn e))
       else ret (api_error 500 ("创建任务失败: " +:+ str_exn e))).

Definition get_task_status (task_id : string) : M ApiResponse :=
  st <- get_state ;;
  match scan_tasks st !! task_id with
  | None => ret (api_error 404 "任务不存在或已过期")
  | Some task =>
      t <- load task ;;
      ret {| http_status := 200; api_status := "success"; api_message := "";
             api_task_id := None; api_data := Some t |}
  end.

Definition delete_task (task_id : string) : M ApiResponse :=
  st <- get_state ;;
  match scan_tasks st !! task_id with
  | None => ret (api_error 404 "任务不存在")
  | Some task =>
      t <- load task ;;
      if is_scanning t
      then ret (api_error 400 "任务正在扫描中，无法删除")
      else
        registry_delete task_id ;;
        ret {| http_status := 200; api_status := "success";
               api_message := "任务已删除";
               api_task_id := None; api_data := None |}
  end.

End Program.

(** ** The specification's scoring rules

    These definitions follow the words of the specification (section 4.6);
    [score_stage] above follows the source. *)
Module Spec.

Definition site_bonus (sites : nat) : Z :=
  match sites with
  | O => 0
  | 1%nat => 20
  | 2%nat => 25
  | _ => 30
  end.

Definition latency_bonus (ms : Z) : Z :=
  if ms <? 300 then 30
  else if ms <? 600 then 25
  else if ms <? 1000 then 20
  else if ms <? 2000 then 15
  else if ms <? 3000 then 10
  else if ms <? 5000 then 5
  else 0.

Definition endpoint_bonus (available : Z) : Z :=
  if 4 <=? available then 10
  else if 3 <=? available then 8
  else if 2 <=? available then 6
  else if 1 <=? available then 4
  else 0.

Definition score (sites : nat) (ms : Z) (available : Z) : Z :=
  30 + site_bonus sites + latency_bonus ms + endpoint_bonus available.

Definition band (score : Z) : string :=
  if 85 <=? score then "excellent"
  else if 70 <=? score then "good"
  else if 55 <=? score then "fair"
  else if 40 <=? score then "poor"
  else "bad".

End Spec.

(** The number of named endpoints a report found available; zero when the
    endpoint check did not run. *)
Definition endpoints_available (q : ProxyInfo) : Z :=
  match pi_ai_models q with
  | Some d => count_available d
  | None => 0
  end.

(** The same number as the specification words it: how many entries of the
    report's availability dictionary are marked available.  It is counted on
    the entries themselves and owes nothing to [count_available], the count
    the scorer makes. *)
Fixpoint available_entries (d : list (string * AiEntry)) : Z :=
  match d with
  | [] => 0
  | kv :: d' => (if ai_available (snd kv) then 1 else 0) + available_entries d'
  end.

Definition available_endpoints (q : ProxyInfo) : Z :=
  match pi_ai_models q with
  | Some d => available_entries d
  | None => 0
  end.

(** ** Observations on the log *)

(** The state after the interactions [evs]. *)
Definition advance (st : State) (evs : list event) : State :=
  foldl (fun s ev => tick ev s) st evs.

(** Whether an answer to a reference-site probe counts as a success. *)
Definition probe_success (r : Result Response) : bool :=
  match r with
  | Ok response => mem_Z (status_code response) success_codes
  | Raise _ => false
  end.

(** The reference-site probes among some interactions, each with its
    success flag.  They are the requests made without following redirects;
    the endpoint checker's requests follow them. *)
Definition reference_probe (ev : event) : list (Request * bool) :=
  match ev with
  | EvGet req r =>
      if req_allow_redirects req then [] else [(req, probe_success r)]
  | _ => []
  end.
Definition reference_probes (evs : list event) : list (Request * bool) :=
  flat_map reference_probe evs.

(** The error category the reference-site probes among [evs] leave behind,
    starting from [init]: that of the last one that raised. *)
Definition last_error_step (acc : option string) (ev : event) : option string :=
  match ev with
  | EvGet req (Raise e) =>
      if req_allow_redirects req then acc else Some (error_category e)
  | _ => acc
  end.
Definition last_error (init : option string) (evs : list event) : option string :=
  foldl last_error_step init evs.

(** The connection attempts among some interactions. *)
Definition connect_events (evs : list event) : list event :=
  List.filter (fun ev => match ev with EvConnectEx _ _ _ => true | _ => false end) evs.

(** The reference sites in the order they are probed. *)
Definition sorted_sites : list TestSite := py_sorted site_priority false test_sites.

(** What the probing loop maintains of its local variables. *)
Definition locals_inv (l : Locals) : Prop :=
  pi_response_time (proxy_info l) = best_time l /\
  (pi_is_working (proxy_info l) = true -> best_time l <> None) /\
  (pi_is_working (proxy_info l) = true -> working_proxies l <> None) /\
  pi_ai_models (proxy_info l) = None.

(** ** Scenarios

    Concrete environments and requests, used to run the program. *)
Module Scenario.

(** An environment in which sockets never fail, [connect_ex] is answered
    by [connect], requests by [get], every request takes 250 ms and the
    wall clock advances by a second per interaction. *)
Definition make_env (connect : string -> Z -> Result Z)
    (get : Request -> Result Response) : Env :=
  {| env_socket := fun _ => None;
     env_settimeout := fun _ => None;
     env_connect_ex := fun _ => connect;
     env_close := fun _ => None;
     env_get := fun _ => get;
     env_time := fun n => 125 * Z.of_nat n;
     env_now := fun n => 1700000000 + Z.of_nat n;
     env_uuid4 := fun _ => "task-1" |}.

Definition ECONNREFUSED : Z := 111.

(** No host accepts connections. *)
Definition closed_env : Env :=
  make_env (fun _ _ => Ok ECONNREFUSED)
           (fun _ => Raise (ConnectionError "unreachable")).

Definition geo_response : Response :=
  {| status_code := 200; resp_text := "{...}";
     resp_json := Some {| geo_ip := Some "203.0.113.7";
                          geo_country_name := Some "Iceland";
                          geo_country_code := Some "IS";
                          geo_city := Some "Reykjavik";
                          geo_region := Some "Capital Region" |} |}.

Definition beacon_response : Response :=
  {| status_code := 204; resp_text := ""; resp_json := None |}.

(** Through the candidate, the geolocation service answers 200 and the
    beacon 204, the media site times out and no named endpoint can be
    reached. *)
Definition partial_get (req : Request) : Result Response :=
  if String.eqb (req_url req) "https://ipapi.co/json/" then Ok geo_response
  else if String.eqb (req_url req) "https://www.google.com/generate_204"
  then Ok beacon_response
  else if String.eqb (req_url req) "https://www.youtube.com"
  then Raise (ReadTimeout "read timed out")
  else Raise (ConnectionError "connection reset").

Definition partial_env : Env := make_env (fun _ _ => Ok 0) partial_get.

(** Both hosts of a /30 are open; only the second one, 10.0.0.2, relays
    requests. *)
Definition second_host_get (req : Request) : Result Response :=
  if String.eqb (proxies_http (req_proxies req)) "http://10.0.0.2:8080"
  then partial_get req
  else Raise (ProxyError "cannot connect to proxy").

Definition two_hosts_env : Env := make_env (fun _ _ => Ok 0) second_host_get.

(** The body of the request of the specification's first scenario. *)
Definition closed_request : ScanRequest :=
  {| rq_network := Some "10.0.0.0/30"; rq_port := Some 22;
     rq_threads := Some 2; rq_check_proxy_quality := Some false |}.

Definition quality_request : ScanRequest :=
  {| rq_network := Some "10.0.0.0/30"; rq_port := Some 8080;
     rq_threads := Some 2; rq_check_proxy_quality := Some true |}.

Definition no_workers_request : ScanRequest :=
  {| rq_network := Some "10.0.0.0/30"; rq_port := Some 22;
     rq_threads := Some 0; rq_check_proxy_quality := Some false |}.

(** A task is created and its worker runs to the end. *)
Definition create_and_run (env : Env) (data : ScanRequest) : M ApiResponse :=
  response <- start_scan env data ;;
  match api_task_id response with
  | Some task_id => scan_network_thread env task_id ;; ret response
  | None => ret response
  end.

(** The block 10.0.0.0/30 and the task the first scenario creates. *)
Definition slash30 : ipaddress.IPv4Network :=
  {| ipaddress.network_address := 167772160; ipaddress.prefixlen := 30 |}.

Definition closed_task : ScanTask :=
  ScanTask_init "task-1" "10.0.0.0/30" 22 2 false 1700000001.

(** The state once the first scenario's task is created, before its
    worker has run. *)
Definition created_state : State :=
  snd (start_scan closed_env closed_request init_state).

(** The same state after the worker's first assignment: the task is
    scanning. *)
Definition running_state : State :=
  snd (store 0 (set_is_scanning true) created_state).

Definition running_task : ScanTask := set_is_scanning true closed_task.

(** The state once the worker has run to the end. *)
Definition finished_state : State :=
  snd (create_and_run closed_env closed_request init_state).

Definition finished_task : ScanTask :=
  {| task_id := "task-1"; network := "10.0.0.0/30"; port := 22; threads := 2;
     check_proxy_quality := false; is_scanning := false; progress := 50;
     total := 4; scanned := 2; results := [];
     start_time := Some 1700000002; end_time := Some 1700000011;
     error := None; created_at := 1700000001 |}.



End Scenario.

(** ** Notions used by the properties *)

(** The answer of [delete_task] on a task that is still scanning. *)
Definition is_conflict (r : ApiResponse) : Prop :=
  http_status r = 400 /\ api_status r = "error" /\
  api_message r = "任务正在扫描中，无法删除".

(** The answer of [get_task_status] on an unknown identifier. *)
Definition is_not_found (r : ApiResponse) : Prop :=
  http_status r = 404 /\ api_status r = "error".

Definition is_success (r : ApiResponse) : Prop :=
  http_status r = 200 /\ api_status r = "success".

(** [m] keeps the state inside [J]. *)
Definition preserves {A : Type} (J : State -> Prop) (m : M A) : Prop :=
  forall st, J st -> J (snd (m st)).

(** An assignment the worker makes to a task: it leaves the identity and the
    parameters of the task alone and never lowers [scanned]. *)
Definition worker_update (f : ScanTask -> ScanTask) : Prop :=
  forall t,
    task_id (f t) = task_id t /\ network (f t) = network t /\
    port (f t) = port t /\ threads (f t) = threads t /\
    check_proxy_quality (f t) = check_proxy_quality t /\
    created_at (f t) = created_at t /\
    scanned t <= scanned (f t).







(** The state after the assignment [f] to the object [t] behind [ref]. *)
Definition stored (ref : nat) (f : ScanTask -> ScanTask) (t : ScanTask) (st : State)
    : State :=
  {| st_clock := st_clock st; st_log := st_log st;
     st_heap := <[ref := f t]> (st_heap st);
     scan_tasks := scan_tasks st; st_threads := st_threads st;
     st_history := st_history st ++ [(ref, f t)] |}.

(** The fields the collecting loop leaves alone. *)
Definition same_run (t t' : ScanTask) : Prop :=
  total t' = total t /\ is_scanning t' = is_scanning t /\
  error t' = error t /\ end_time t' = end_time t /\ start_time t' = start_time t /\
  check_proxy_quality t' = check_proxy_quality t.

(** [scanned] never decreases along the history, and the current value of a
    task is at least every earlier one. *)
Definition history_monotone (st : State) : Prop :=
  (forall (i j : nat) ref t t',
     (i <= j)%nat ->
     st_history st !! i = Some (ref, t) ->
     st_history st !! j = Some (ref, t') ->
     scanned t <= scanned t') /\
  (forall (i : nat) ref t t',
     st_history st !! i = Some (ref, t) ->
     st_heap st !! ref = Some t' ->
     scanned t <= scanned t').

(** Whether a snapshot shows a finished task: no longer scanning and the end
    time recorded. *)
Definition terminal (t : ScanTask) : Prop :=
  is_scanning t = false /\ is_Some (end_time t).

(** ** The remaining endpoints and the sweeper *)

(** An answer of the API whose payload has type [A]. *)
Record Reply (A : Type) : Type := {
  reply_code : Z;
  reply_status : string;
  reply_message : string;
  reply_data : option A
}.
Arguments reply_code {A} _.
Arguments reply_status {A} _.
Arguments reply_message {A} _.
Arguments reply_data {A} _.

(** The payload of [get_task_results]; [tr_total] is [len(task.results)]. *)
Record TaskResults : Type := {
  tr_task_id : string;
  tr_results : list ScanResult;
  tr_total : Z;
  tr_is_scanning : bool;
  tr_check_proxy_quality : bool
}.

Definition get_task_results (task_id : string) : M (Reply TaskResults) :=
  st <- get_state ;;
  match scan_tasks st !! task_id with
  | None =>
      ret {| reply_code := 404; reply_status := "error";
             reply_message := "任务不存在"; reply_data := None |}
  | Some task =>
      t <- load task ;;
      ret {| reply_code := 200; reply_status := "success"; reply_message := "";
             reply_data :=
               Some {| tr_task_id := task_id; tr_results := results t;
                       tr_total := Z.of_nat (length (results t));
                       tr_is_scanning := is_scanning t;
                       tr_check_proxy_quality := check_proxy_quality t |} |}
  end.

(** The payload of [get_stats]. *)
Record Stats : Type := {
  total_tasks : Z;
  active_tasks : Z;
  completed_tasks : Z;
  stats_timestamp : Z
}.

(** [task.end_time] as a condition: [None] is false, a formatted time is a
    non-empty string and so true. *)
Definition truthy {A : Type} (o : option A) : bool :=
  match o with Some _ => true | None => false end.

(** What the workers do to the task objects while [get_stats] is between
    two of its reads.  The handler holds [tasks_lock], which keeps the
    registry as it is, but the workers assign to their tasks without the
    lock.  [before_active k] happens before the first sum looks at its
    [k]-th task, [before_completed k] before the second sum does, and
    [before_end_time k] between the two attributes the second sum reads of
    that task. *)
Record Interleaving : Type := {
  before_active : nat -> State -> State;
  before_completed : nat -> State -> State;
  before_end_time : nat -> State -> State
}.

(** No worker assigns during the call. *)
Definition quiet : Interleaving :=
  {| before_active := fun _ st => st;
     before_completed := fun _ st => st;
     before_end_time := fun _ st => st |}.

Definition meanwhile (others : State -> State) : M unit :=
  fun st => (Ok tt, others st).

(** [sum(1 for task in scan_tasks.values() if task.is_scanning)] over the
    task references [tasks], from the [k]-th on, added to [n]. *)
Fixpoint count_active (others : nat -> State -> State) (k : nat) (tasks : list nat)
    (n : Z) : M Z :=
  match tasks with
  | [] => ret n
  | task :: tasks' =>
      meanwhile (others k) ;;
      t <- load task ;;
      count_active others (S k) tasks' (if is_scanning t then n + 1 else n)
  end.

(** [sum(1 for task in scan_tasks.values()
         if not task.is_scanning and task.end_time)]:
    [task.end_time] is read only when [task.is_scanning] was false, and
    after it. *)
Fixpoint count_completed (others others' : nat -> State -> State) (k : nat)
    (tasks : list nat) (n : Z) : M Z :=
  match tasks with
  | [] => ret n
  | task :: tasks' =>
      meanwhile (others k) ;;
      t <- load task ;;
      if is_scanning t
      then count_completed others others' (S k) tasks' n
      else
        meanwhile (others' k) ;;
        t' <- load task ;;
        count_completed others others' (S k) tasks'
          (if truthy (end_time t') then n + 1 else n)
  end.

(** [get_stats].  The registry is a dictionary and is enumerated in
    insertion order; the counts do not depend on the order, and the finite
    map of the model is enumerated in its own. *)
Definition get_stats (env : Env) (others : Interleaving) : M (Reply Stats) :=
  st <- get_state ;;
  let values := map snd (map_to_list (scan_tasks st)) in
  let total_tasks := Z.of_nat (size (scan_tasks st)) in
  active_tasks <- count_active (before_active others) 0 values 0 ;;
  completed_tasks <-
    count_completed (before_completed others) (before_end_time others) 0 values 0 ;;
  now <- datetime_now env ;;
  ret {| reply_code := 200; reply_status := "success"; reply_message := "";
         reply_data :=
           Some {| total_tasks := total_tasks; active_tasks := active_tasks;
                   completed_tasks := completed_tasks; stats_timestamp := now |} |}.

(** Lines 409 to 441 of [scan_network_thread]: what the worker does once it
    holds its task object, after the lookup under the lock. *)
Definition scan_task (env : Env) (task : nat) : M unit :=
  store task (set_is_scanning true) ;;
  now <- datetime_now env ;;
  store task (set_start_time (Some now)) ;;
  try_finally
    (try_except
       (scan_body env task)
       (fun e => store task (set_error (Some (str_exn e)))))
    (scan_finally env task).

(** Whether the sweeper removes a task at [current_time]: it is not
    scanning and [(current_time - task.created_at).total_seconds() > 3600].
    Times are counted in whole seconds. *)
Definition expired (current_time : Z) (task : ScanTask) : bool :=
  negb (is_scanning task) && (3600 <? current_time - created_at task).

(** One round of the loop of [cleanup_old_tasks], after its
    [time.sleep(300)]: the body of [with tasks_lock].  The message printed
    for each removed task is not modelled, and so neither is the order in
    which the registry is enumerated, which only shows in the messages. *)
Definition cleanup_old_tasks_round (env : Env) : M unit :=
  current_time <- datetime_now env ;;
  st <- get_state ;;
  tasks_to_remove <-
    for_fold (map_to_list (scan_tasks st))
      (fun item tasks_to_remove =>
         task <- load (snd item) ;;
         if negb (is_scanning task)
         then
           let age := current_time - created_at task in
           if 3600 <? age
           then ret (tasks_to_remove ++ [fst item])
           else ret tasks_to_remove
         else ret tasks_to_remove)
      [] ;;
  for_each tasks_to_remove registry_delete.

(** [cleanup_old_tasks] for [rounds] rounds of its endless loop. *)
Fixpoint cleanup_old_tasks (env : Env) (rounds : nat) : M unit :=
  match rounds with
  | O => ret tt
  | S rounds' => cleanup_old_tasks_round env ;; cleanup_old_tasks env rounds'
  end.

(** ** Notions used by the further properties *)

(** The order [sorted] and [list.sort] establish. *)
Definition in_order {A : Type} (key : A -> Z) (reverse : bool) (a b : A) : Prop :=
  if reverse then key b <= key a else key a <= key b.

(** What [scan_port] may return for the address [ip]: nothing, or an [open]
    record for that address and port, with a quality report exactly when
    one was asked for. *)
Definition probe_of (port : Z) (check_quality : bool) (ip : Z)
    (future : option ScanResult) : Prop :=
  match future with
  | None => True
  | Some r =>
      r_ip r = ipaddress.str_address ip /\ r_port r = port /\
      r_status r = "open" /\
      match r_proxy_quality r with
      | Some _ => check_quality = true
      | None => check_quality = false
      end
  end.

(** The attributes of a task that the collecting loop and the [finally]
    block never assign. *)
Definition same_identity (t t' : ScanTask) : Prop :=
  task_id t' = task_id t /\ network t' = network t /\ port t' = port t /\
  threads t' = threads t /\ check_proxy_quality t' = check_proxy_quality t /\
  created_at t' = created_at t.

(** An assignment made inside the [try] block of the worker or by its
    [except] clause: besides what every worker assignment keeps, it leaves
    the scanning flag and the start and end times alone. *)
Definition body_update (f : ScanTask -> ScanTask) : Prop :=
  forall t,
    same_identity t (f t) /\ scanned t <= scanned (f t) /\
    is_scanning (f t) = is_scanning t /\ start_time (f t) = start_time t /\
    end_time (f t) = end_time t.

(** What a worker may change between two states: it interacts with the
    outside world through [evs] and assigns to the object behind [task];
    the registry, the started workers and every other object stay as they
    are. *)
Definition worker_frame (task : nat) (evs : list event) (st st' : State) : Prop :=
  st_log st' = st_log st ++ evs /\
  scan_tasks st' = scan_tasks st /\
  st_threads st' = st_threads st /\
  forall ref, ref <> task -> st_heap st' !! ref = st_heap st !! ref.

(** The addresses and ports of the connection attempts among some
    interactions. *)
Definition connect_targets (evs : list event) : list (string * Z) :=
  omap (fun ev => match ev with EvConnectEx ip port _ => Some (ip, port) | _ => None end)
    evs.

(** The address and port a probe of [ip] connects to. *)
Definition target_of (port : Z) (ip : Z) : string * Z :=
  (ipaddress.str_address ip, port).

(** Every registered reference leads to an object. *)
Definition registry_bound (st : State) : Prop :=
  forall tid task, scan_tasks st !! tid = Some task -> is_Some (st_heap st !! task).

(** The first loop of a round: the identifiers it selects. *)
Definition selected (current_time : Z) (st : State) (items : list (string * nat))
    : list string :=
  omap (fun item : string * nat =>
          match st_heap st !! snd item with
          | Some task => if expired current_time task then Some (fst item) else None
          | None => None
          end) items.

(** What is assumed of the workers while a handler holds the registry lock:
    they leave the registry as it is and free no object. *)
Definition keeps_registry (others : State -> State) : Prop :=
  forall st,
    scan_tasks (others st) = scan_tasks st /\
    forall ref, is_Some (st_heap st !! ref) -> is_Some (st_heap (others st) !! ref).

Definition workers_only (others : Interleaving) : Prop :=
  forall k,
    keeps_registry (before_active others k) /\
    keeps_registry (before_completed others k) /\
    keeps_registry (before_end_time others k).

(** What the workers may have done between two moments: any number of
    interactions and of assignments of the kind they make. *)
Inductive worker_progress : State -> State -> Prop :=
| progress_none st : worker_progress st st
| progress_tick ev st st' :
    worker_progress (tick ev st) st' -> worker_progress st st'
| progress_store ref f t st st' :
    worker_update f -> st_heap st !! ref = Some t ->
    worker_progress (stored ref f t st) st' -> worker_progress st st'.

(** How many of the references [tasks] lead to a task satisfying [cond]. *)
Definition count_where (cond : ScanTask -> bool) (st : State) (tasks : list nat) : Z :=
  Z.of_nat
    (length
       (List.filter
          (fun task =>
             match st_heap st !! task with Some t => cond t | None => false end)
          tasks)).

(** The requests among some interactions. *)
Definition requests_of (evs : list event) : list Request :=
  omap (fun ev => match ev with EvGet req _ => Some req | _ => None end) evs.

(** A request relayed by the candidate [ip]:[port], over either protocol,
    with the given timeout and without certificate verification. *)
Definition through_candidate (ip : string) (port : Z) (timeout : Z) (req : Request)
    : Prop :=
  (req_proxies req = cfg_proxies (http_config ip port) \/
   req_proxies req = cfg_proxies (socks5_config ip port)) /\
  req_timeout req = timeout /\ req_verify req = false.

(** An entry of the availability dictionary once its endpoint has been
    checked. *)
Definition entry_settled (a : AiEntry) : Prop :=
  ai_status a <> "unknown" /\
  (ai_available a = true <-> ai_status a = "available") /\
  (ai_available a = true <-> is_Some (ai_response_time a)).

(** What the probing loops maintain of the sites and of the score. *)
Definition sites_inv (l : Locals) : Prop :=
  NoDup (pi_accessible_sites (proxy_info l)) /\
  (forall name, name ∈ pi_accessible_sites (proxy_info l) ->
     name = "Google" \/ name = "YouTube") /\
  (pi_can_access_google (proxy_info l) = true <->
   "Google" ∈ pi_accessible_sites (proxy_info l)) /\
  pi_quality_score (proxy_info l) = 0 /\
  pi_ai_models (proxy_info l) = None.

(** As long as no probe succeeds the report only holds an error. *)
Definition blank_inv (l : Locals) : Prop :=
  pi_is_working (proxy_info l) = false ->
  proxy_info l = set_pi_error (pi_error (proxy_info l)) proxy_info_init /\
  working_proxies l = None.

(** The proxies of the last successful probe are those of a protocol of
    the candidate. *)
Definition proxies_inv (ip : string) (port : Z) (l : Locals) : Prop :=
  forall proxies, working_proxies l = Some proxies ->
    proxies = cfg_proxies (http_config ip port) \/
    proxies = cfg_proxies (socks5_config ip port).

(** ** Further scenarios *)

Module Cases.

(** The candidate relays everything: every connection is accepted and every
    request is answered 200. *)
Definition relay_env : Env :=
  Scenario.make_env (fun _ _ => Ok 0) (fun _ => Ok Scenario.geo_response).

(** The task of the request that asks for no worker, and the state once it
    is created. *)
Definition no_workers_task : ScanTask :=
  ScanTask_init "task-1" "10.0.0.0/30" 22 0 false 1700000001.

Definition no_workers_state : State :=
  snd (start_scan Scenario.closed_env Scenario.no_workers_request init_state).

(** The task of the request with the quality check, and the state once it
    is created. *)
Definition quality_task : ScanTask :=
  ScanTask_init "task-1" "10.0.0.0/30" 8080 2 true 1700000001.

Definition quality_state : State :=
  snd (start_scan Scenario.two_hosts_env Scenario.quality_request init_state).

(** No host accepts connections, and more than an hour passes between any
    two readings of the wall clock. *)
Definition slow_env : Env :=
  {| env_socket := fun _ => None;
     env_settimeout := fun _ => None;
     env_connect_ex := fun _ _ _ => Ok Scenario.ECONNREFUSED;
     env_close := fun _ => None;
     env_get := fun _ _ => Raise (ConnectionError "unreachable");
     env_time := fun n => 125 * Z.of_nat n;
     env_now := fun n => 1700000000 + 4000 * Z.of_nat n;
     env_uuid4 := fun _ => "task-1" |}.

Definition slow_task : ScanTask :=
  ScanTask_init "task-1" "10.0.0.0/30" 22 2 false 1700004000.

Definition slow_state : State :=
  snd (start_scan slow_env Scenario.closed_request init_state).

(** Two results, the one without a score found first. *)
Definition unscored_result : ScanResult :=
  {| r_ip := "10.0.0.1"; r_port := 8080; r_status := "open";
     r_timestamp := 1700000005; r_proxy_quality := None |}.

Definition scored_result : ScanResult :=
  {| r_ip := "10.0.0.2"; r_port := 8080; r_status := "open";
     r_timestamp := 1700000009;
     r_proxy_quality :=
       Some (set_pi_quality_level "good" (set_pi_quality_score 80 proxy_info_init)) |}.

Definition unsorted_task : ScanTask :=
  set_results [unscored_result; scored_result] quality_task.

Definition unsorted_state : State :=
  snd (store 0 (set_results [unscored_result; scored_result]) quality_state).

(** The worker of the first task runs its [finally] block after the first
    sum of [get_stats] and before the second. *)
Definition finishing : Interleaving :=
  {| before_active := fun _ st => st;
     before_completed :=
       fun k st =>
         match k with
         | O => snd (scan_finally Scenario.closed_env 0 st)
         | S _ => st
         end;
     before_end_time := fun _ st => st |}.

End Cases.

(** ** Checks of the address parser *)

Example ip_network_slash30 :
  ipaddress.ip_network "10.0.0.0/30" = Ok Scenario.slash30.
Proof. reflexivity. Qed.

Example ip_network_masks_host_bits :
  ipaddress.ip_network "10.0.0.7/255.255.255.0" =
  Ok {| ipaddress.network_address := 167772160; ipaddress.prefixlen := 24 |}.
Proof. reflexivity. Qed.

Example ip_network_hostmask :
  ipaddress.ip_network "10.0.0.7/0.0.0.255" =
  Ok {| ipaddress.network_address := 167772160; ipaddress.prefixlen := 24 |}.
Proof. reflexivity. Qed.

Example ip_network_rejects_long_prefix :
  ipaddress.IPv4Network_of_string "10.0.0.0/33" = None.
Proof. reflexivity. Qed.

Example ip_network_rejects_leading_zero :
  ipaddress.IPv4Network_of_string "10.0.0.01/30" = None.
Proof. reflexivity. Qed.

Example hosts_slash30 :
  map ipaddress.str_address (ipaddress.hosts Scenario.slash30) = ["10.0.0.1"; "10.0.0.2"].
Proof. vm_compute. reflexivity. Qed.

Example hosts_slash31 :
  option_map ipaddress.hosts (ipaddress.IPv4Network_of_string "10.0.0.0/31") =
  Some [167772160; 167772161].
Proof. reflexivity. Qed.

Example hosts_slash32 :
  option_map ipaddress.hosts (ipaddress.IPv4Network_of_string "10.0.0.5") =
  Some [167772165].
Proof. reflexivity. Qed.

(** ** Facts about networks *)

Module ipaddress_facts.
Import ipaddress.

Lemma count_zero_bits_nonneg fuel number : 0 <= count_zero_bits fuel number.
Proof.
  revert number. induction fuel as [|fuel IH]; intros number;
    cbn [count_zero_bits]; [lia|].
  destruct (Z.testbit number 0); [lia|]. specialize (IH (Z.shiftr number 1)). lia.
Qed.

Lemma prefix_from_ip_int_range ip_int p :
  prefix_from_ip_int ip_int = Some p -> 0 <= p <= 32.
Proof.
  unfold prefix_from_ip_int, count_righthand_zero_bits, max_prefixlen.
  intros H. case_match; [|discriminate]. simplify_eq.
  destruct (ip_int =? 0); [lia|].
  pose proof (count_zero_bits_nonneg (Z.to_nat 32) ip_int). lia.
Qed.

Lemma make_netmask_range arg p : make_netmask arg = Some p -> 0 <= p <= 32.
Proof.
  unfold make_netmask, prefix_from_prefix_string, prefix_from_ip_string, max_prefixlen.
  intros H. repeat case_match; simplify_eq; try lia;
    eauto using prefix_from_ip_int_range.
Qed.

(** A property of prefix lengths that holds for each of the 33 of them. *)
Lemma for_each_prefixlen (check : Z -> bool) :
  forallb (fun i => check (Z.of_nat i)) (seq 0 33) = true ->
  forall p, 0 <= p <= 32 -> check p = true.
Proof.
  intros Hall p Hp. rewrite forallb_forall in Hall.
  specialize (Hall (Z.to_nat p)). rewrite Z2Nat.id in Hall by lia.
  apply Hall. apply in_seq. lia.
Qed.

Lemma hostmask_value p :
  0 <= p <= 32 -> Z.lxor (netmask_of p) ALL_ONES = 2 ^ (32 - p) - 1.
Proof.
  intros Hp. apply Z.eqb_eq.
  apply (for_each_prefixlen
           (fun p => Z.lxor (netmask_of p) ALL_ONES =? 2 ^ (32 - p) - 1)); [|exact Hp].
  vm_compute. reflexivity.
Qed.

Lemma netmask_hostmask_disjoint p :
  0 <= p <= 32 -> Z.land (netmask_of p) (Z.lxor (netmask_of p) ALL_ONES) = 0.
Proof.
  intros Hp. apply Z.eqb_eq.
  apply (for_each_prefixlen
           (fun p => Z.land (netmask_of p) (Z.lxor (netmask_of p) ALL_ONES) =? 0));
    [|exact Hp].
  vm_compute. reflexivity.
Qed.

(** Every network the parser returns is well formed. *)
Lemma ip_network_wf address n : ip_network address = Ok n -> wf n.
Proof.
  unfold ip_network, IPv4Network_of_string. intros H.
  repeat case_match; simplify_eq; unfold wf, hostmask, netmask; simpl.
  - split; [unfold max_prefixlen; lia|].
    change (Z.lxor (netmask_of max_prefixlen) ALL_ONES) with 0. apply Z.land_0_r.
  - match goal with H : make_netmask _ = Some _ |- _ =>
      apply make_netmask_range in H end.
    split; [assumption|].
    rewrite <- Z.land_assoc, netmask_hostmask_disjoint by assumption.
    apply Z.land_0_r.
Qed.

Lemma num_addresses_value n :
  wf n -> num_addresses n = 2 ^ (32 - prefixlen n).
Proof.
  intros (Hp & Hdisj). unfold num_addresses, broadcast_address.
  rewrite <- Z.lxor_lor by exact Hdisj.
  rewrite <- Z.add_nocarry_lxor by exact Hdisj.
  unfold hostmask, netmask. rewrite hostmask_value by exact Hp. lia.
Qed.

Lemma length_py_range lo hi : length (py_range lo hi) = Z.to_nat (hi - lo).
Proof. unfold py_range. by rewrite length_map, length_seq. Qed.

(** Below /31, [hosts] leaves two addresses of the block out. *)
Lemma num_addresses_hosts n :
  wf n -> prefixlen n <= 30 ->
  num_addresses n = Z.of_nat (length (hosts n)) + 2.
Proof.
  intros Hwf Hp. pose proof (num_addresses_value n Hwf) as Hnum.
  destruct Hwf as (Hrange & Hdisj).
  assert (4 <= 2 ^ (32 - prefixlen n)).
  { change 4 with (2 ^ 2). apply Z.pow_le_mono_r; lia. }
  unfold hosts, max_prefixlen.
  rewrite (proj2 (Z.eqb_neq _ _)) by lia.
  rewrite (proj2 (Z.eqb_neq _ _)) by lia.
  rewrite length_py_range. unfold num_addresses in *. lia.
Qed.

(** A /31 and a /32 are enumerated in full. *)
Lemma num_addresses_hosts_31_32 n :
  wf n -> 31 <= prefixlen n ->
  num_addresses n = Z.of_nat (length (hosts n)).
Proof.
  intros Hwf Hp. pose proof (num_addresses_value n Hwf) as Hnum.
  destruct Hwf as (Hrange & Hdisj).
  assert (prefixlen n = 31 \/ prefixlen n = 32) as [H31|H32] by lia.
  - unfold hosts, max_prefixlen. rewrite H31 in *. simpl.
    rewrite length_py_range. unfold num_addresses in *.
    change (2 ^ (32 - 31)) with 2 in Hnum. lia.
  - unfold hosts, max_prefixlen. rewrite H32 in *. simpl.
    change (2 ^ (32 - 32)) with 1 in Hnum. lia.
Qed.

End ipaddress_facts.

(** On a block of addresses the binary64 computation of the progress is the
    integer quotient: checked for every block of up to 4096 addresses at
    every count of scanned addresses, and for every prefix length at the
    counts from the number of hosts up to the number of addresses. *)
Lemma progress_float_exact :
  forallb (fun k =>
    forallb (fun scanned => progress_float scanned (2 ^ k) =? scanned * 100 / 2 ^ k)
      (ipaddress.py_range 0 (2 ^ k + 1)))
    (ipaddress.py_range 0 13) = true /\
  forallb (fun k =>
    forallb (fun scanned => progress_float scanned (2 ^ k) =? scanned * 100 / 2 ^ k)
      (ipaddress.py_range (Z.max 0 (2 ^ k - 2)) (2 ^ k + 1)))
    (ipaddress.py_range 0 33) = true.
Proof. split; vm_compute; reflexivity. Qed.

(** Away from powers of two the two differ: [int((29 / 100) * 100)] is 28. *)
Example progress_float_inexact : progress_float 29 100 = 28.
Proof. vm_compute. reflexivity. Qed.


(** ** Lemmas: the log *)

Lemma advance_app st a b : advance st (a ++ b) = advance (advance st a) b.
Proof. unfold advance. apply foldl_app. Qed.

Lemma advance_nil st : advance st [] = st.
Proof. reflexivity. Qed.

Lemma advance_log st evs : st_log (advance st evs) = st_log st ++ evs.
Proof.
  revert st. induction evs as [|ev evs IH]; intros st; simpl.
  - by rewrite app_nil_r.
  - rewrite IH. simpl. by rewrite <- app_assoc.
Qed.

Lemma advance_clock st evs : st_clock (advance st evs) = (length evs + st_clock st)%nat.
Proof.
  revert st. induction evs as [|ev evs IH]; intros st; simpl; [done|].
  rewrite IH. simpl. lia.
Qed.

Lemma advance_heap st evs : st_heap (advance st evs) = st_heap st.
Proof. revert st. induction evs as [|ev evs IH]; intros st; simpl; [done|]. by rewrite IH. Qed.

Lemma advance_tasks st evs : scan_tasks (advance st evs) = scan_tasks st.
Proof. revert st. induction evs as [|ev evs IH]; intros st; simpl; [done|]. by rewrite IH. Qed.

Lemma advance_threads st evs : st_threads (advance st evs) = st_threads st.
Proof. revert st. induction evs as [|ev evs IH]; intros st; simpl; [done|]. by rewrite IH. Qed.

Lemma advance_history st evs : st_history (advance st evs) = st_history st.
Proof. revert st. induction evs as [|ev evs IH]; intros st; simpl; [done|]. by rewrite IH. Qed.

Lemma reference_probes_app a b :
  reference_probes (a ++ b) = reference_probes a ++ reference_probes b.
Proof. unfold reference_probes. apply flat_map_app. Qed.

Lemma last_error_app init a b :
  last_error init (a ++ b) = last_error (last_error init a) b.
Proof. unfold last_error. apply foldl_app. Qed.

Lemma connect_events_app a b :
  connect_events (a ++ b) = connect_events a ++ connect_events b.
Proof. unfold connect_events. apply List.filter_app. Qed.

Lemma proxy_configs_eq ip port :
  proxy_configs ip port = [http_config ip port; socks5_config ip port].
Proof. reflexivity. Qed.

Lemma sorted_sites_priorities : map site_priority sorted_sites = [1; 2; 3].
Proof. reflexivity. Qed.

(** ** Lemmas: one reference-site probe *)

Lemma on_response_working config site response elapsed l :
  pi_is_working (proxy_info (on_response config site response elapsed l)) =
  (pi_is_working (proxy_info l) || mem_Z (status_code response) success_codes)%bool.
Proof.
  unfold on_response.
  destruct (mem_Z (status_code response) success_codes); [|by rewrite orb_false_r].
  rewrite orb_true_r.
  repeat (case_match; simpl); reflexivity.
Qed.

Lemma on_response_error config site response elapsed l :
  pi_error (proxy_info (on_response config site response elapsed l)) =
  pi_error (proxy_info l).
Proof.
  unfold on_response.
  repeat (case_match; simpl); reflexivity.
Qed.

Lemma on_response_inv config site response elapsed l :
  locals_inv l -> locals_inv (on_response config site response elapsed l).
Proof.
  intros (Hrt & Hbt & Hwp & Hai). unfold on_response.
  destruct (mem_Z (status_code response) success_codes); [|done].
  unfold locals_inv.
  repeat (case_match; simpl in *; subst); repeat split; simpl; try done; congruence.
Qed.

Lemma probe_site_run env timeout config site l st :
  probe_site env timeout config site l st =
  match env_get env (S (st_clock st)) (site_request config site timeout) with
  | Ok response =>
      (Ok (on_response config site response
             (env_time env (S (S (st_clock st))) - env_time env (st_clock st)) l),
       advance st [EvTime (env_time env (st_clock st));
                   EvGet (site_request config site timeout) (Ok response);
                   EvTime (env_time env (S (S (st_clock st))))])
  | Raise e =>
      (Ok (on_exception e l),
       advance st [EvTime (env_time env (st_clock st));
                   EvGet (site_request config site timeout) (Raise e)])
  end.
Proof.
  unfold probe_site, try_except, bind, time_time, requests_get, ret. simpl.
  destruct (env_get env (S (st_clock st)) (site_request config site timeout));
    reflexivity.
Qed.

(** What one probe does, seen from outside. *)
Lemma probe_site_step env timeout config site l st :
  exists l' evs succ,
    probe_site env timeout config site l st = (Ok l', advance st evs) /\
    reference_probes evs = [(site_request config site timeout, succ)] /\
    pi_is_working (proxy_info l') = (pi_is_working (proxy_info l) || succ)%bool /\
    pi_error (proxy_info l') = last_error (pi_error (proxy_info l)) evs /\
    connect_events evs = [] /\
    (locals_inv l -> locals_inv l').
Proof.
  rewrite probe_site_run.
  destruct (env_get env (S (st_clock st)) (site_request config site timeout))
    as [response|e].
  - eexists _, _, (probe_success (Ok response)). split; [reflexivity|].
    split; [reflexivity|]. split; [apply on_response_working|].
    split; [apply on_response_error|]. split; [reflexivity|]. apply on_response_inv.
  - eexists _, _, false. split; [reflexivity|].
    split; [reflexivity|]. split; [by rewrite orb_false_r|].
    split; [reflexivity|]. split; [reflexivity|].
    intros (Hrt & Hbt & Hwp & Hai). repeat split; simpl; assumption.
Qed.

(** ** Lemmas: loops *)

Lemma for_fold_ind {A S : Type} (body : A -> S -> M S)
    (P : list A -> S -> State -> Prop) :
  (forall done x s st, P done s st ->
     exists s' st', body x s st = (Ok s', st') /\ P (done ++ [x]) s' st') ->
  forall l done s st, P done s st ->
    exists s' st', for_fold l body s st = (Ok s', st') /\ P (done ++ l) s' st'.
Proof.
  intros Hbody. induction l as [|x l IH]; intros done s st HP; simpl.
  - exists s, st. split; [reflexivity|]. by rewrite app_nil_r.
  - destruct (Hbody done x s st HP) as (s1 & st1 & Hrun & HP1).
    unfold bind. rewrite Hrun.
    destruct (IH (done ++ [x]) s1 st1 HP1) as (s2 & st2 & Hrun2 & HP2).
    exists s2, st2. split; [exact Hrun2|]. by rewrite <- app_assoc in HP2.
Qed.

(** The reference-site loop under one protocol. *)
Lemma sites_loop env timeout config l st :
  exists l' evs,
    for_fold sorted_sites (probe_site env timeout config) l st = (Ok l', advance st evs) /\
    map fst (reference_probes evs) =
      map (fun site => site_request config site timeout) sorted_sites /\
    pi_is_working (proxy_info l') =
      (pi_is_working (proxy_info l) || existsb snd (reference_probes evs))%bool /\
    pi_error (proxy_info l') = last_error (pi_error (proxy_info l)) evs /\
    connect_events evs = [] /\
    (locals_inv l -> locals_inv l').
Proof.
  pose (P := fun (done : list TestSite) (l' : Locals) (st' : State) =>
    exists evs, st' = advance st evs /\
      map fst (reference_probes evs) =
        map (fun site => site_request config site timeout) done /\
      pi_is_working (proxy_info l') =
        (pi_is_working (proxy_info l) || existsb snd (reference_probes evs))%bool /\
      pi_error (proxy_info l') = last_error (pi_error (proxy_info l)) evs /\
      connect_events evs = [] /\
      (locals_inv l -> locals_inv l')).
  destruct (for_fold_ind (probe_site env timeout config) P) with
    (l := sorted_sites) (done := @nil TestSite) (s := l) (st := st)
    as (l' & st' & Hrun & evs & -> & Hfacts).
  - intros done x s st1 (evs & -> & Hreq & Hw & He & Hc & Hinv).
    destruct (probe_site_step env timeout config x s (advance st evs))
      as (s' & evs' & succ & Hrun & Hp & Hw' & He' & Hc' & Hinv').
    exists s', (advance (advance st evs) evs'). split; [exact Hrun|].
    exists (evs ++ evs'). split; [by rewrite advance_app|].
    rewrite reference_probes_app, Hp, !map_app, Hreq. split; [reflexivity|].
    split.
    { rewrite Hw', Hw, existsb_app. simpl. by rewrite orb_false_r, orb_assoc. }
    split; [by rewrite last_error_app, He', He|].
    split; [by rewrite connect_events_app, Hc, Hc'|].
    auto.
  - exists []. unfold locals_inv. rewrite orb_false_r. simpl. auto 10.
  - exists l', evs. auto.
Qed.

(** The protocol loop: HTTP first, SOCKS5 only when no HTTP probe succeeded. *)
Lemma for_configs_run env ip port timeout st :
  exists l evs,
    for_configs env timeout (proxy_configs ip port) locals_init st =
      (Ok l, advance st evs) /\
    map fst (reference_probes evs) =
      map (fun site => site_request (http_config ip port) site timeout) sorted_sites ++
      (if existsb snd (firstn 3 (reference_probes evs)) then []
       else map (fun site => site_request (socks5_config ip port) site timeout)
              sorted_sites) /\
    pi_is_working (proxy_info l) = existsb snd (reference_probes evs) /\
    pi_error (proxy_info l) = last_error None evs /\
    connect_events evs = [] /\
    locals_inv l.
Proof.
  rewrite proxy_configs_eq. cbn [for_configs]. unfold bind.
  destruct (sites_loop env timeout (http_config ip port) locals_init st)
    as (l1 & evs1 & Hrun1 & Hreq1 & Hw1 & He1 & Hc1 & Hinv1).
  fold sorted_sites. rewrite Hrun1.
  assert (Hinit : locals_inv locals_init) by (unfold locals_inv; simpl; auto).
  assert (Hlen1 : length (reference_probes evs1) = 3%nat).
  { rewrite <- (length_map fst), Hreq1. reflexivity. }
  simpl in Hw1, He1.
  destruct (pi_is_working (proxy_info l1)) eqn:Hwork.
  - exists l1, evs1. split; [reflexivity|].
    rewrite firstn_all2 by lia. rewrite <- Hw1, app_nil_r. auto 10.
  - destruct (sites_loop env timeout (socks5_config ip port) l1 (advance st evs1))
      as (l2 & evs2 & Hrun2 & Hreq2 & Hw2 & He2 & Hc2 & Hinv2).
    rewrite Hrun2. rewrite Hwork in Hw2. simpl in Hw2.
    exists l2, (evs1 ++ evs2).
    split.
    { rewrite advance_app. by destruct (pi_is_working (proxy_info l2)). }
    rewrite reference_probes_app, map_app, Hreq1, Hreq2.
    rewrite firstn_app, Hlen1, firstn_all2 by lia. simpl. rewrite app_nil_r.
    rewrite <- Hw1. split; [reflexivity|].
    rewrite existsb_app, <- Hw1. simpl. split; [exact Hw2|].
    split; [by rewrite last_error_app, <- He1|].
    split; [by rewrite connect_events_app, Hc1, Hc2|]. auto.
Qed.


(** The endpoint checker makes no reference-site probe and never raises. *)
Lemma check_endpoint_step env proxies timeout endpoint d st :
  exists d' evs,
    check_endpoint env proxies timeout endpoint d st = (Ok d', advance st evs) /\
    reference_probes evs = [] /\
    (forall init, last_error init evs = init) /\
    connect_events evs = [].
Proof.
  unfold check_endpoint, try_except, bind, time_time, requests_get, ret. simpl.
  destruct (env_get env (S (st_clock st)) (ai_request endpoint proxies timeout))
    as [response|e].
  - eexists _, [_; _; _]. split; [reflexivity|]. auto.
  - eexists _, [_; _]. split; [reflexivity|]. auto.
Qed.

Lemma test_ai_model_availability_run env proxies timeout st :
  exists d evs,
    test_ai_model_availability env proxies timeout st = (Ok d, advance st evs) /\
    reference_probes evs = [] /\
    (forall init, last_error init evs = init) /\
    connect_events evs = [].
Proof.
  pose (P := fun (done : list AiEndpoint) (d : list (string * AiEntry)) (st' : State) =>
    exists evs, st' = advance st evs /\
      reference_probes evs = [] /\
      (forall init, last_error init evs = init) /\
      connect_events evs = []).
  destruct (for_fold_ind (check_endpoint env proxies timeout) P) with
    (l := ai_endpoints) (done := @nil AiEndpoint) (s := ai_availability_init) (st := st)
    as (d & st' & Hrun & evs & -> & Hfacts).
  - intros done x s st1 (evs & -> & Hp & He & Hc).
    destruct (check_endpoint_step env proxies timeout x s (advance st evs))
      as (d' & evs' & Hrun & Hp' & He' & Hc').
    exists d', (advance (advance st evs) evs'). split; [exact Hrun|].
    exists (evs ++ evs'). split; [by rewrite advance_app|].
    split; [by rewrite reference_probes_app, Hp, Hp'|].
    split; [intros init; by rewrite last_error_app, He, He'|].
    by rewrite connect_events_app, Hc, Hc'.
  - exists []. auto.
  - exists d, evs. auto.
Qed.

(** ** Lemmas: scoring *)

Lemma score_stage_keeps q :
  pi_is_working (score_stage q) = pi_is_working q /\
  pi_error (score_stage q) = pi_error q /\
  pi_response_time (score_stage q) = pi_response_time q /\
  pi_accessible_sites (score_stage q) = pi_accessible_sites q /\
  pi_ai_models (score_stage q) = pi_ai_models q.
Proof. unfold score_stage. destruct (pi_is_working q) eqn:Hw; simpl; auto. Qed.

Lemma spec_score_range sites ms available :
  30 <= Spec.score sites ms available <= 100.
Proof.
  unfold Spec.score, Spec.site_bonus, Spec.latency_bonus, Spec.endpoint_bonus.
  repeat case_match; lia.
Qed.

Lemma site_bonus_code s n :
  (if 3 <=? Z.of_nat n then s + 30
   else if 2 <=? Z.of_nat n then s + 25
   else if 1 <=? Z.of_nat n then s + 20
   else s) = s + Spec.site_bonus n.
Proof.
  destruct n as [|[|[|n]]]; [simpl; lia..|].
  rewrite (proj2 (Z.leb_le 3 _)) by lia. reflexivity.
Qed.

Lemma latency_bonus_code s t :
  (if t <? 300 then s + 30
   else if t <? 600 then s + 25
   else if t <? 1000 then s + 20
   else if t <? 2000 then s + 15
   else if t <? 3000 then s + 10
   else if t <? 5000 then s + 5
   else s) = s + Spec.latency_bonus t.
Proof. unfold Spec.latency_bonus. repeat case_match; reflexivity || lia. Qed.

Lemma endpoint_bonus_code s k :
  (if 4 <=? k then s + 10
   else if 3 <=? k then s + 8
   else if 2 <=? k then s + 6
   else if 1 <=? k then s + 4
   else s) = s + Spec.endpoint_bonus k.
Proof. unfold Spec.endpoint_bonus. repeat case_match; reflexivity || lia. Qed.

Lemma quality_score_of_spec q t :
  pi_response_time q = Some t ->
  quality_score_of q =
    Spec.score (length (pi_accessible_sites q)) t (endpoints_available q).
Proof.
  intros Ht. unfold quality_score_of, endpoints_available, Spec.score.
  rewrite Ht. cbv zeta. rewrite site_bonus_code, latency_bonus_code.
  destruct (pi_ai_models q) as [[|kv d]|].
  - replace (Spec.endpoint_bonus (count_available [])) with 0 by reflexivity. lia.
  - by rewrite endpoint_bonus_code.
  - replace (Spec.endpoint_bonus 0) with 0 by reflexivity. lia.
Qed.

Lemma quality_level_of_spec score : quality_level_of score = Spec.band score.
Proof. reflexivity. Qed.

Lemma score_stage_working q t :
  pi_is_working q = true ->
  pi_response_time q = Some t ->
  pi_quality_score (score_stage q) =
    Spec.score (length (pi_accessible_sites q)) t (endpoints_available q) /\
  pi_quality_level (score_stage q) = Spec.band (pi_quality_score (score_stage q)).
Proof.
  intros Hw Ht. unfold score_stage. rewrite Hw. simpl.
  by rewrite (quality_score_of_spec q t Ht).
Qed.

Lemma score_stage_unavailable q :
  pi_is_working q = false ->
  pi_quality_level (score_stage q) = "unavailable".
Proof. intros Hw. unfold score_stage. by rewrite Hw. Qed.

(** ** Lemmas: [test_proxy_quality] as a whole *)

Lemma test_proxy_quality_run env ip port timeout check_ai_models st :
  exists q evs,
    test_proxy_quality env ip port timeout check_ai_models st =
      (Ok (score_stage q), advance st evs) /\
    map fst (reference_probes evs) =
      map (fun site => site_request (http_config ip port) site timeout) sorted_sites ++
      (if existsb snd (firstn 3 (reference_probes evs)) then []
       else map (fun site => site_request (socks5_config ip port) site timeout)
              sorted_sites) /\
    pi_is_working q = existsb snd (reference_probes evs) /\
    pi_error q = last_error None evs /\
    connect_events evs = [] /\
    (pi_is_working q = true -> exists t, pi_response_time q = Some t).
Proof.
  unfold test_proxy_quality, bind.
  destruct (for_configs_run env ip port timeout st)
    as (l & evs & Hrun & Hreq & Hw & He & Hc & Hrt & Hbt & Hwp & Hai).
  rewrite Hrun.
  assert (Htime : pi_is_working (proxy_info l) = true ->
                  exists t, pi_response_time (proxy_info l) = Some t).
  { intros H. rewrite Hrt. destruct (best_time l) as [t|]; [eauto|].
    by destruct (Hbt H). }
  destruct (working_proxies l) as [proxies|];
    [destruct (pi_is_working (proxy_info l) && check_ai_models)%bool|].
  - destruct (test_ai_model_availability_run env proxies timeout (advance st evs))
      as (d & evs' & Hrun' & Hp' & He' & Hc').
    rewrite Hrun'. unfold ret.
    exists (set_pi_ai_models (Some d) (proxy_info l)), (evs ++ evs').
    rewrite advance_app, reference_probes_app, Hp', app_nil_r.
    rewrite last_error_app, He', connect_events_app, Hc, Hc'. simpl. auto 10.
  - exists (proxy_info l), evs. unfold ret. auto 10.
  - exists (proxy_info l), evs. unfold ret. auto 10.
Qed.

(** ** Properties of the proxy quality prober and scorer *)

(** The scorer counts the available endpoints as the specification does. *)
Lemma count_available_entries d : count_available d = available_entries d.
Proof.
  unfold count_available. induction d as [|kv d IH]; [reflexivity|].
  cbn [available_entries]. rewrite <- IH, filter_cons.
  destruct (ai_available (snd kv)) eqn:Ha.
  - rewrite decide_True by done. cbn [length]. lia.
  - rewrite decide_False by congruence. lia.
Qed.

(** C4.  The quality scorer.  Every report [test_proxy_quality] produces for
    a working proxy has a best latency [t], and its score is the
    specification's function of the number of accessible sites, [t] and the
    number of entries of its availability dictionary that are marked
    available: 30, plus the site bonus, plus the first matching latency
    bucket, plus the endpoint bonus.  The score lies between 30 and 100 and
    the level is the band of the score.  A report for a proxy that is not
    working has level [unavailable]. *)
Theorem quality_score_is_spec_score env ip port timeout check_ai_models st :
  exists report st',
    test_proxy_quality env ip port timeout check_ai_models st = (Ok report, st') /\
    (pi_is_working report = true ->
       exists t,
         pi_response_time report = Some t /\
         pi_quality_score report =
           Spec.score (length (pi_accessible_sites report)) t
             (available_endpoints report) /\
         30 <= pi_quality_score report <= 100 /\
         pi_quality_level report = Spec.band (pi_quality_score report)) /\
    (pi_is_working report = false -> pi_quality_level report = "unavailable").
Proof.
  destruct (test_proxy_quality_run env ip port timeout check_ai_models st)
    as (q & evs & Hrun & _ & _ & _ & _ & Htime).
  exists (score_stage q), (advance st evs). split; [exact Hrun|].
  destruct (score_stage_keeps q) as (Hw & _ & Hrt & Hsites & Hai).
  assert (Hcount : available_endpoints (score_stage q) = endpoints_available q).
  { unfold available_endpoints, endpoints_available. rewrite Hai.
    destruct (pi_ai_models q) as [d|]; [|reflexivity].
    symmetry. apply count_available_entries. }
  rewrite Hw, Hrt, Hsites, Hcount.
  split.
  - intros Hworking. destruct (Htime Hworking) as (t & Ht).
    destruct (score_stage_working q t Hworking Ht) as (Hscore & Hlevel).
    exists t. split; [exact Ht|]. split; [exact Hscore|].
    split; [rewrite Hscore; apply spec_score_range|exact Hlevel].
  - apply score_stage_unavailable.
Qed.

(** C5.  Protocol order.  The reference-site probes of one run are the three
    sites in ascending priority under the HTTP configuration, followed by the
    same three under SOCKS5 exactly when no HTTP probe succeeded.  Hence no
    probe that follows a successful one uses another protocol, while the
    sites after a successful one are still probed under the same protocol. *)
Theorem protocol_fallback_stops_at_first_working env ip port timeout check_ai_models st :
  exists report evs,
    test_proxy_quality env ip port timeout check_ai_models st =
      (Ok report, advance st evs) /\
    map site_priority sorted_sites = [1; 2; 3] /\
    map fst (reference_probes evs) =
      map (fun site => site_request (http_config ip port) site timeout) sorted_sites ++
      (if existsb snd (firstn 3 (reference_probes evs)) then []
       else map (fun site => site_request (socks5_config ip port) site timeout)
              sorted_sites) /\
    (forall (i j : nat) p q,
       (i < j)%nat ->
       reference_probes evs !! i = Some p ->
       reference_probes evs !! j = Some q ->
       snd p = true ->
       req_proxies (fst q) = req_proxies (fst p)).
Proof.
  destruct (test_proxy_quality_run env ip port timeout check_ai_models st)
    as (q & evs & Hrun & Hreq & _).
  exists (score_stage q), evs. split; [exact Hrun|].
  split; [reflexivity|]. split; [exact Hreq|].
  intros i j p p' Hij Hi Hj Hp.
  destruct (existsb snd (firstn 3 (reference_probes evs))) eqn:Hany.
  - rewrite app_nil_r in Hreq.
    destruct (reference_probes evs) as [|p0 [|p1 [|p2 [|p3 ps]]]]; try discriminate.
    injection Hreq as H0 H1 H2.
    destruct i as [|[|[|i]]], j as [|[|[|j]]]; simpl in Hi, Hj;
      try discriminate; try lia; simplify_eq; by rewrite ?H0, ?H1, ?H2.
  - destruct (reference_probes evs) as [|p0 [|p1 [|p2 [|p3 [|p4 [|p5 [|p6 ps]]]]]]];
      try discriminate.
    injection Hreq as H0 H1 H2 H3 H4 H5.
    simpl in Hany. rewrite orb_false_r in Hany.
    apply orb_false_elim in Hany as [Hs0 Hany].
    apply orb_false_elim in Hany as [Hs1 Hs2].
    destruct i as [|[|[|[|[|[|i]]]]]], j as [|[|[|[|[|[|j]]]]]]; simpl in Hi, Hj;
      try discriminate; try lia; simplify_eq; try congruence;
      by rewrite ?H3, ?H4, ?H5.
Qed.

(** C10.  The single [error] field.  A reference-site attempt that raises
    overwrites [error] with its category and leaves the working flag alone; an
    attempt that returns a response leaves [error] alone, whatever it held;
    so the report carries the category of the last attempt that raised, and a
    working report can carry one: there is a run whose report is working and
    has error [Request timeout]. *)
Theorem error_outlives_success :
  (forall env timeout config site l st e,
     env_get env (S (st_clock st)) (site_request config site timeout) = Raise e ->
     exists l' st',
       probe_site env timeout config site l st = (Ok l', st') /\
       pi_error (proxy_info l') = Some (error_category e) /\
       pi_is_working (proxy_info l') = pi_is_working (proxy_info l)) /\
  (forall env timeout config site l st response,
     env_get env (S (st_clock st)) (site_request config site timeout) = Ok response ->
     exists l' st',
       probe_site env timeout config site l st = (Ok l', st') /\
       pi_error (proxy_info l') = pi_error (proxy_info l)) /\
  (forall env ip port timeout check_ai_models st,
     exists report evs,
       test_proxy_quality env ip port timeout check_ai_models st =
         (Ok report, advance st evs) /\
       pi_error report = last_error None evs) /\
  (exists report st',
     test_proxy_quality Scenario.partial_env "10.0.0.2" 8080 8 true init_state =
       (Ok report, st') /\
     pi_is_working report = true /\
     pi_error report = Some "Request timeout").
Proof.
  split; [|split; [|split]].
  - intros env timeout config site l st e Hget.
    rewrite probe_site_run, Hget. eexists _, _. split; [reflexivity|]. auto.
  - intros env timeout config site l st response Hget.
    rewrite probe_site_run, Hget. eexists _, _. split; [reflexivity|].
    apply on_response_error.
  - intros env ip port timeout check_ai_models st.
    destruct (test_proxy_quality_run env ip port timeout check_ai_models st)
      as (q & evs & Hrun & _ & _ & He & _).
    exists (score_stage q), evs. split; [exact Hrun|].
    destruct (score_stage_keeps q) as (_ & Herr & _). by rewrite Herr.
  - eexists _, _. split; [vm_compute; reflexivity|]. split; reflexivity.
Qed.

(** ** Properties of the port probe *)

Lemma connect_attempt_run env ip port timeout st :
  exists r evs,
    connect_attempt env ip port timeout st = (r, advance st evs) /\
    (length (connect_events evs) <= 1)%nat.
Proof.
  unfold connect_attempt, bind, socket_socket, sock_settimeout, sock_connect_ex,
    sock_close, ret. simpl.
  destruct (env_socket env (st_clock st)); simpl.
  { eexists _, [_]. split; [reflexivity|]. simpl. lia. }
  destruct (env_settimeout env (S (st_clock st))); simpl.
  { eexists _, [_; _]. split; [reflexivity|]. simpl. lia. }
  destruct (env_connect_ex env (S (S (st_clock st))) ip port); simpl.
  2:{ eexists _, [_; _; _]. split; [reflexivity|]. simpl. lia. }
  destruct (env_close env (S (S (S (st_clock st))))); simpl.
  { eexists _, [_; _; _; _]. split; [reflexivity|]. simpl. lia. }
  eexists _, [_; _; _; _]. split; [reflexivity|]. simpl. lia.
Qed.

(** A probe unit only interacts with the outside world, and returns. *)
Lemma scan_port_advances env ip port check_quality timeout st :
  exists v evs,
    scan_port env ip port check_quality timeout st = (Ok v, advance st evs).
Proof.
  unfold scan_port, try_except, bind.
  destruct (connect_attempt_run env (ipaddress.str_address ip) port timeout st)
    as (r & evs & Hrun & _).
  rewrite Hrun. destruct r as [result|e]; [|by exists None, evs].
  destruct (result =? 0); [|by exists None, evs].
  unfold datetime_now. simpl. destruct check_quality.
  - destruct (test_proxy_quality_run env (ipaddress.str_address ip) port 8 true
                (tick (EvNow (env_now env (st_clock (advance st evs)))) (advance st evs)))
      as (q & evs' & Hrun' & _).
    rewrite Hrun'. unfold ret.
    eexists _, (evs ++ [EvNow (env_now env (st_clock (advance st evs)))] ++ evs').
    by rewrite !advance_app.
  - unfold ret.
    eexists _, (evs ++ [EvNow (env_now env (st_clock (advance st evs)))]).
    by rewrite advance_app.
Qed.


(** ** Properties of the registry *)

(** C8.  Deletion.  Deleting a registered task that is scanning answers with
    the conflict error and changes nothing: the state after the call is the
    state before it.  Deleting a registered task that is not scanning
    succeeds and removes it, and a later [get_task_status] of the same
    identifier answers not-found. *)
Theorem delete_refused_while_scanning id task t st :
  scan_tasks st !! id = Some task ->
  st_heap st !! task = Some t ->
  (is_scanning t = true ->
     exists r, delete_task id st = (Ok r, st) /\ is_conflict r) /\
  (is_scanning t = false ->
     exists r st',
       delete_task id st = (Ok r, st') /\ is_success r /\
       scan_tasks st' = delete id (scan_tasks st) /\
       st_heap st' = st_heap st /\
       exists r', get_task_status id st' = (Ok r', st') /\ is_not_found r').
Proof.
  intros Hid Hheap. unfold delete_task, bind, get_state, load. simpl.
  rewrite Hid, Hheap. split; intros Hs; rewrite Hs.
  - eexists. split; [reflexivity|]. repeat split.
  - eexists _, _. split; [reflexivity|]. split; [repeat split|].
    split; [reflexivity|]. split; [reflexivity|].
    unfold get_task_status, bind, get_state. simpl.
    rewrite lookup_delete_eq. eexists. split; [reflexivity|]. repeat split.
Qed.

(** ** The partial-reachability scenario *)

Lemma sorted_sites_eq : sorted_sites = [ip_check_site; google_site; youtube_site].
Proof. reflexivity. Qed.

Lemma on_response_failure config site response elapsed l :
  mem_Z (status_code response) success_codes = false ->
  on_response config site response elapsed l = l.
Proof. intros H. unfold on_response. by rewrite H. Qed.

Lemma on_response_sites config site response elapsed l :
  pi_accessible_sites (proxy_info (on_response config site response elapsed l)) =
  if (mem_Z (status_code response) success_codes &&
      negb (mem_string (site_name site) (pi_accessible_sites (proxy_info l))) &&
      negb (String.eqb (site_name site) "IP Check"))%bool
  then pi_accessible_sites (proxy_info l) ++ [site_name site]
  else pi_accessible_sites (proxy_info l).
Proof.
  unfold on_response.
  destruct (mem_Z (status_code response) success_codes); [|reflexivity].
  repeat (case_match; simpl in *); try reflexivity; congruence.
Qed.

Lemma on_response_time config site response elapsed l :
  locals_inv l ->
  mem_Z (status_code response) success_codes = true ->
  exists t,
    pi_response_time (proxy_info (on_response config site response elapsed l)) = Some t /\
    t <= elapsed /\
    (forall t0, pi_response_time (proxy_info l) = Some t0 -> t <= t0).
Proof.
  intros (Hrt & _) Hs. unfold on_response. rewrite Hs.
  destruct (best_time l) as [b|] eqn:Hb.
  - repeat (case_match; cbn in *; simplify_eq);
      rewrite ?Hrt;
      try (exists elapsed; split; [reflexivity|]; split; [lia|];
           intros t0 Ht0; simplify_eq; lia);
      try (exists b; split; [reflexivity|]; split; [lia|];
           intros t0 Ht0; simplify_eq; lia).
  - repeat (case_match; cbn in *; simplify_eq);
      (exists elapsed; split; [reflexivity|]; split; [lia|];
       intros t0 Ht0; congruence).
Qed.

(** C3, as the code has it.  When, under the HTTP configuration, the
    geolocation probe is answered 200 within 250 ms and the beacon probe is
    answered 204 while the media-site probe fails (an exception or a status
    that does not count), the report is working, its accessible sites are
    the beacon alone (the geolocation probe is left out of the tally and the
    media site was not reached), and its score is 30 + 20 + 30 = 80 plus the
    endpoint bonus; with no endpoint available the score is 80 and the level
    [good]. *)
Theorem partial_reachability_scores_good
    env ip port timeout check_ai_models st r1 r2 :
  env_get env (1 + st_clock st)%nat
    (site_request (http_config ip port) ip_check_site timeout) = Ok r1 ->
  status_code r1 = 200 ->
  env_time env (2 + st_clock st)%nat - env_time env (st_clock st) = 250 ->
  env_get env (4 + st_clock st)%nat
    (site_request (http_config ip port) google_site timeout) = Ok r2 ->
  status_code r2 = 204 ->
  probe_success
    (env_get env (7 + st_clock st)%nat
       (site_request (http_config ip port) youtube_site timeout)) = false ->
  exists report st',
    test_proxy_quality env ip port timeout check_ai_models st = (Ok report, st') /\
    pi_is_working report = true /\
    pi_accessible_sites report = ["Google"] /\
    pi_quality_score report =
      80 + Spec.endpoint_bonus (endpoints_available report) /\
    pi_quality_level report = Spec.band (pi_quality_score report) /\
    (endpoints_available report = 0 ->
       pi_quality_score report = 80 /\ pi_quality_level report = "good").
Proof.
  intros Hgeo Hs1 Htime Hbeacon Hs2 Hmedia. simpl in Hgeo, Htime, Hbeacon, Hmedia.
  (* the three probes under HTTP *)
  assert (Hinit : locals_inv locals_init) by (unfold locals_inv; simpl; auto).
  set (l1 := on_response (http_config ip port) ip_check_site r1 250 locals_init).
  set (e2 := env_time env (S (S (S (S (S (st_clock st)))))) -
             env_time env (S (S (S (st_clock st))))).
  set (l2 := on_response (http_config ip port) google_site r2 e2 l1).
  assert (Hok1 : mem_Z (status_code r1) success_codes = true) by (by rewrite Hs1).
  assert (Hok2 : mem_Z (status_code r2) success_codes = true) by (by rewrite Hs2).
  assert (Hinv1 : locals_inv l1) by (by apply on_response_inv).
  assert (Hinv2 : locals_inv l2) by (by apply on_response_inv).
  assert (Hw2 : pi_is_working (proxy_info l2) = true).
  { unfold l2. by rewrite on_response_working, Hok2, orb_true_r. }
  assert (Hsites2 : pi_accessible_sites (proxy_info l2) = ["Google"]).
  { unfold l2. rewrite on_response_sites, Hok2. unfold l1.
    rewrite on_response_sites, Hok1. reflexivity. }
  assert (Ht2 : exists t, pi_response_time (proxy_info l2) = Some t /\ t <= 250).
  { destruct (on_response_time (http_config ip port) ip_check_site r1 250
                locals_init Hinit Hok1) as (t1 & Ht1 & Hle1 & _).
    destruct (on_response_time (http_config ip port) google_site r2 e2
                l1 Hinv1 Hok2) as (t2 & Ht2 & _ & Hle2).
    exists t2. split; [exact Ht2|]. specialize (Hle2 t1 Ht1). lia. }
  assert (Hloop : exists l3 st3,
    for_configs env timeout (proxy_configs ip port) locals_init st = (Ok l3, st3) /\
    locals_inv l3 /\ pi_is_working (proxy_info l3) = true /\
    pi_accessible_sites (proxy_info l3) = ["Google"] /\
    pi_response_time (proxy_info l3) = pi_response_time (proxy_info l2)).
  { rewrite proxy_configs_eq. cbn [for_configs]. fold sorted_sites. rewrite sorted_sites_eq.
    cbn [for_fold]. unfold bind.
    rewrite probe_site_run, Hgeo, Htime. fold l1.
    rewrite probe_site_run. simpl st_clock. rewrite Hbeacon. fold e2. fold l2.
    rewrite probe_site_run. simpl st_clock.
    destruct (env_get env (S (S (S (S (S (S (S (st_clock st))))))))
                (site_request (http_config ip port) youtube_site timeout))
      as [r3|e3]; simpl in Hmedia.
    - rewrite (on_response_failure _ _ r3 _ l2 Hmedia). unfold ret.
      rewrite Hw2. eexists _, _. split; [reflexivity|]. auto.
    - unfold ret.
      assert (Hw3 : pi_is_working (proxy_info (on_exception e3 l2)) = true) by exact Hw2.
      rewrite Hw3. eexists _, _. split; [reflexivity|].
      split; [|auto].
      destruct Hinv2 as (? & ? & ? & ?). repeat split; assumption. }
  destruct Hloop as (l3 & st3 & Hrun & Hinv3 & Hw3 & Hsites3 & Hrt3).
  destruct Ht2 as (t & Ht & Hle). rewrite Ht in Hrt3.
  (* the endpoint check and the score *)
  assert (Hfinal : exists q st',
    test_proxy_quality env ip port timeout check_ai_models st =
      (Ok (score_stage q), st') /\
    pi_is_working q = true /\ pi_accessible_sites q = ["Google"] /\
    pi_response_time q = Some t).
  { unfold test_proxy_quality, bind. rewrite Hrun.
    destruct (working_proxies l3) as [proxies|];
      [destruct (pi_is_working (proxy_info l3) && check_ai_models)%bool|].
    - destruct (test_ai_model_availability_run env proxies timeout st3)
        as (d & evs' & Hrun' & _).
      rewrite Hrun'. unfold ret. eexists _, _. split; [reflexivity|]. auto.
    - unfold ret. eexists _, _. split; [reflexivity|]. auto.
    - unfold ret. eexists _, _. split; [reflexivity|]. auto. }
  destruct Hfinal as (q & st' & Hrun' & Hw & Hsites & Hrt).
  exists (score_stage q), st'. split; [exact Hrun'|].
  destruct (score_stage_keeps q) as (Hw' & _ & _ & Hsites' & Hai').
  destruct (score_stage_working q t Hw Hrt) as (Hscore & Hlevel).
  assert (Hlat : Spec.latency_bonus t = 30).
  { unfold Spec.latency_bonus. rewrite (proj2 (Z.ltb_lt t 300)) by lia. reflexivity. }
  assert (Hav : endpoints_available (score_stage q) = endpoints_available q).
  { unfold endpoints_available. by rewrite Hai'. }
  assert (Hscore' : pi_quality_score (score_stage q) =
                    80 + Spec.endpoint_bonus (endpoints_available (score_stage q))).
  { rewrite Hscore, Hav, Hsites. unfold Spec.score. rewrite Hlat. simpl. lia. }
  rewrite Hw', Hsites'. split; [exact Hw|]. split; [exact Hsites|].
  split; [exact Hscore'|]. split; [exact Hlevel|].
  intros Hzero. rewrite Hlevel, Hscore', Hzero. split; reflexivity.
Qed.

(** ** Invariants of computations *)

Section Preserves.

Variable J : State -> Prop.

Lemma preserves_ret {A : Type} (a : A) : preserves J (ret a).
Proof. intros st H. exact H. Qed.

Lemma preserves_raise {A : Type} (e : exn) : preserves J (@raise A e).
Proof. intros st H. exact H. Qed.

Lemma preserves_lift {A : Type} (r : Result A) : preserves J (lift r).
Proof. intros st H. exact H. Qed.

Lemma preserves_get_state : preserves J get_state.
Proof. intros st H. exact H. Qed.

Lemma preserves_load ref : preserves J (load ref).
Proof. intros st H. unfold load. by destruct (st_heap st !! ref). Qed.

Lemma preserves_bind {A B : Type} (m : M A) (k : A -> M B) :
  preserves J m -> (forall a, preserves J (k a)) -> preserves J (bind m k).
Proof.
  intros Hm Hk st H. unfold bind. specialize (Hm st H).
  destruct (m st) as [[a|e] st']; simpl in *; [by apply Hk|done].
Qed.

Lemma preserves_try_except {A : Type} (body : M A) (handler : exn -> M A) :
  preserves J body -> (forall e, preserves J (handler e)) ->
  preserves J (try_except body handler).
Proof.
  intros Hm Hk st H. unfold try_except. specialize (Hm st H).
  destruct (body st) as [[a|e] st']; simpl in *; [done|by apply Hk].
Qed.

Lemma preserves_try_finally {A : Type} (body : M A) (fin : M unit) :
  preserves J body -> preserves J fin -> preserves J (try_finally body fin).
Proof.
  intros Hm Hf st H. unfold try_finally. specialize (Hm st H).
  destruct (body st) as [r st']; simpl in *. specialize (Hf st' Hm).
  by destruct (fin st') as [[a|e] st''].
Qed.

Lemma preserves_for_each {A : Type} (l : list A) (body : A -> M unit) :
  (forall x, preserves J (body x)) -> preserves J (for_each l body).
Proof.
  intros Hbody. induction l as [|x l IH]; simpl.
  - apply preserves_ret.
  - apply preserves_bind; auto.
Qed.

Lemma preserves_map_M {A B : Type} (f : A -> M B) (l : list A) :
  (forall x, preserves J (f x)) -> preserves J (map_M f l).
Proof.
  intros Hf. induction l as [|x l IH]; simpl.
  - apply preserves_ret.
  - apply preserves_bind; [auto|]. intros y.
    apply preserves_bind; [auto|]. intros ys. apply preserves_ret.
Qed.

Lemma preserves_ThreadPoolExecutor max_workers :
  preserves J (ThreadPoolExecutor max_workers).
Proof. intros st H. unfold ThreadPoolExecutor. by destruct (max_workers <=? 0). Qed.

Hypothesis J_tick : forall ev st, J st -> J (tick ev st).

Lemma J_advance st evs : J st -> J (advance st evs).
Proof.
  revert st. induction evs as [|ev evs IH]; intros st H; simpl; [done|].
  apply IH, J_tick, H.
Qed.

Lemma preserves_datetime_now env : preserves J (datetime_now env).
Proof. intros st H. apply J_tick, H. Qed.

Lemma preserves_scan_port env ip port check_quality timeout :
  preserves J (scan_port env ip port check_quality timeout).
Proof.
  intros st H.
  destruct (scan_port_advances env ip port check_quality timeout st)
    as (v & evs & Hrun).
  rewrite Hrun. by apply J_advance.
Qed.

Hypothesis J_store : forall ref f st t,
  worker_update f -> st_heap st !! ref = Some t -> J st -> J (snd (store ref f st)).

Lemma preserves_store ref f : worker_update f -> preserves J (store ref f).
Proof.
  intros Hf st H. destruct (st_heap st !! ref) as [t|] eqn:Hlook.
  - by apply (J_store ref f st t).
  - unfold store. by rewrite Hlook.
Qed.

Lemma preserves_collect task total_hosts result :
  preserves J (collect task total_hosts result).
Proof.
  unfold collect.
  apply preserves_bind; [apply preserves_store; intros t; simpl; repeat split; lia|].
  intros _.
  apply preserves_bind; [apply preserves_load|]. intros t0.
  apply preserves_bind; [apply preserves_lift|]. intros progress.
  apply preserves_bind; [apply preserves_store; intros t'; simpl; repeat split; lia|].
  intros _. destruct result as [r|]; [|apply preserves_ret].
  apply preserves_store. intros t. simpl. repeat split; lia.
Qed.

Lemma preserves_scan_body env task : preserves J (scan_body env task).
Proof.
  unfold scan_body.
  apply preserves_bind; [apply preserves_load|]. intros t.
  apply preserves_bind; [apply preserves_lift|]. intros network_obj.
  apply preserves_bind; [apply preserves_store; intros t'; simpl; repeat split; lia|].
  intros _.
  apply preserves_bind; [apply preserves_load|]. intros t'.
  apply preserves_bind; [apply preserves_ThreadPoolExecutor|]. intros _.
  apply preserves_bind;
    [apply preserves_map_M; intros ip; apply preserves_scan_port|].
  intros futures. apply preserves_for_each. intros result.
  apply preserves_collect.
Qed.

Lemma preserves_scan_finally env task : preserves J (scan_finally env task).
Proof.
  unfold scan_finally.
  apply preserves_bind; [apply preserves_store; intros t'; simpl; repeat split; lia|].
  intros _.
  apply preserves_bind; [apply preserves_datetime_now|]. intros now.
  apply preserves_bind; [apply preserves_store; intros t'; simpl; repeat split; lia|].
  intros _.
  apply preserves_bind; [apply preserves_load|]. intros t.
  case_match; [|apply preserves_ret].
  apply preserves_store. intros t'. simpl. repeat split; lia.
Qed.

Lemma preserves_scan_network_thread env task_id :
  preserves J (scan_network_thread env task_id).
Proof.
  unfold scan_network_thread.
  apply preserves_bind; [apply preserves_get_state|]. intros st0.
  destruct (scan_tasks st0 !! task_id) as [task|]; [|apply preserves_ret].
  apply preserves_bind; [apply preserves_store; intros t'; simpl; repeat split; lia|].
  intros _.
  apply preserves_bind; [apply preserves_datetime_now|]. intros now.
  apply preserves_bind; [apply preserves_store; intros t'; simpl; repeat split; lia|].
  intros _.
  apply preserves_try_finally; [|apply preserves_scan_finally].
  apply preserves_try_except; [apply preserves_scan_body|].
  intros e. apply preserves_store. intros t'. simpl. repeat split; lia.
Qed.

End Preserves.

(** ** The registry only holds validated tasks *)











(** ** What a worker leaves behind *)

Lemma load_run ref t st : st_heap st !! ref = Some t -> load ref st = (Ok t, st).
Proof. intros H. unfold load. by rewrite H. Qed.

Lemma store_run ref f t st :
  st_heap st !! ref = Some t -> store ref f st = (Ok tt, stored ref f t st).
Proof. intros H. unfold store. by rewrite H. Qed.

Lemma stored_lookup ref f t st :
  st_heap st !! ref = Some t -> st_heap (stored ref f t st) !! ref = Some (f t).
Proof. intros H. simpl. apply list_lookup_insert_eq. by eapply lookup_lt_Some. Qed.

Lemma bind_run {A B : Type} (m : M A) (k : A -> M B) st a st1 :
  m st = (Ok a, st1) -> bind m k st = k a st1.
Proof. intros H. unfold bind. by rewrite H. Qed.

Lemma map_M_scan_port env port check_quality timeout ips st :
  exists futures evs,
    map_M (fun ip => scan_port env ip port check_quality timeout) ips st =
      (Ok futures, advance st evs) /\
    length futures = length ips.
Proof.
  revert st. induction ips as [|ip ips IH]; intros st; simpl.
  - exists [], []. auto.
  - destruct (scan_port_advances env ip port check_quality timeout st)
      as (v & evs & Hrun).
    destruct (IH (advance st evs)) as (futures & evs' & Hrun' & Hlen).
    exists (v :: futures), (evs ++ evs').
    rewrite (bind_run _ _ _ _ _ Hrun), (bind_run _ _ _ _ _ Hrun').
    unfold ret. rewrite advance_app. simpl. auto.
Qed.

Lemma collect_run task total_hosts result t st :
  total_hosts <> 0 ->
  st_heap st !! task = Some t ->
  exists st' t',
    collect task total_hosts result st = (Ok tt, st') /\
    st_heap st' !! task = Some t' /\
    scanned t' = scanned t + 1 /\
    progress t' = progress_float (scanned t') total_hosts /\
    same_run t t'.
Proof.
  intros Hnz H0. unfold collect.
  set (f1 := fun t : ScanTask => set_scanned (scanned t + 1) t).
  rewrite (bind_run _ _ _ _ _ (store_run task f1 t st H0)).
  pose proof (stored_lookup task f1 t st H0) as H1.
  rewrite (bind_run _ _ _ _ _ (load_run task _ _ H1)).
  unfold progress_percent. rewrite (proj2 (Z.eqb_neq _ _) Hnz).
  rewrite (bind_run (lift (Ok _)) _ _ _ _ eq_refl).
  set (f2 := set_progress (progress_float (scanned (f1 t)) total_hosts)).
  rewrite (bind_run _ _ _ _ _ (store_run task f2 _ _ H1)).
  pose proof (stored_lookup task f2 _ _ H1) as H2.
  destruct result as [r|].
  - set (f3 := fun t : ScanTask => set_results (results t ++ [r]) t).
    rewrite (store_run task f3 _ _ H2).
    eexists _, _. split; [reflexivity|].
    split; [by apply stored_lookup|]. unfold same_run. simpl. auto 10.
  - eexists _, _. split; [reflexivity|].
    split; [exact H2|]. unfold same_run. simpl. auto 10.
Qed.

Lemma for_each_collect task total_hosts futures t st :
  total_hosts <> 0 ->
  st_heap st !! task = Some t ->
  exists st' t',
    for_each futures (collect task total_hosts) st = (Ok tt, st') /\
    st_heap st' !! task = Some t' /\
    scanned t' = scanned t + Z.of_nat (length futures) /\
    (futures <> [] -> progress t' = progress_float (scanned t') total_hosts) /\
    same_run t t'.
Proof.
  intros Hnz. revert t st.
  induction futures as [|result futures IH]; intros t st H0.
  - exists st, t. simpl. split; [reflexivity|]. split; [exact H0|].
    split; [lia|]. split; [done|]. unfold same_run. auto 10.
  - destruct (collect_run task total_hosts result t st Hnz H0)
      as (st1 & t1 & Hrun1 & H1 & Hs1 & Hp1 & Hsame1).
    destruct (IH t1 st1 H1) as (st2 & t2 & Hrun2 & H2 & Hs2 & Hp2 & Hsame2).
    exists st2, t2. cbn [for_each]. rewrite (bind_run _ _ _ _ _ Hrun1).
    split; [exact Hrun2|]. split; [exact H2|].
    split; [rewrite Hs2, Hs1; cbn [length]; lia|].
    split.
    { intros _. destruct futures as [|r' futures'].
      - simpl in Hrun2. unfold ret in Hrun2. simplify_eq. exact Hp1.
      - by apply Hp2. }
    unfold same_run in *. destruct Hsame1 as (?&?&?&?&?&?), Hsame2 as (?&?&?&?&?&?).
    repeat split; congruence.
Qed.

(** A worker that finds its task, a network that parses and a positive
    worker count runs to the end: the task ends with [total] the number of
    addresses of the block, [scanned] advanced by the number of hosts probed,
    [is_scanning] cleared, the end time set and no error recorded anew. *)
Lemma scan_network_thread_run env id task t n st :
  scan_tasks st !! id = Some task ->
  st_heap st !! task = Some t ->
  ipaddress.ip_network (network t) = Ok n ->
  0 < threads t ->
  exists st' t',
    scan_network_thread env id st = (Ok tt, st') /\
    st_heap st' !! task = Some t' /\
    total t' = ipaddress.num_addresses n /\
    scanned t' = scanned t + Z.of_nat (length (ipaddress.hosts n)) /\
    (ipaddress.hosts n <> [] ->
       progress t' = progress_float (scanned t') (total t')) /\
    is_scanning t' = false /\
    is_Some (end_time t') /\
    error t' = error t.
Proof.
  intros Hid H0 Hnet Hthreads. unfold scan_network_thread.
  assert (Hnz : ipaddress.num_addresses n <> 0).
  { rewrite (ipaddress_facts.num_addresses_value n
               (ipaddress_facts.ip_network_wf _ _ Hnet)).
    apply Z.pow_nonzero; [lia|].
    destruct (ipaddress_facts.ip_network_wf _ _ Hnet) as (Hrange & _). lia. }
  rewrite (bind_run get_state _ st st st eq_refl). rewrite Hid.
  erewrite bind_run by (by apply store_run).
  pose proof (stored_lookup task (set_is_scanning true) t st H0) as H1.
  unfold datetime_now at 1. cbn [bind].
  set (st1 := tick _ (stored task (set_is_scanning true) t st)).
  change (st_heap st1 !! task = Some (set_is_scanning true t)) in H1.
  erewrite bind_run by (by apply store_run).
  pose proof (stored_lookup task (set_start_time (Some (env_now env (st_clock (stored task (set_is_scanning true) t st))))) _ st1 H1) as H2.
  set (t2 := set_start_time _ _) in H2. set (st2 := stored _ _ _ st1) in *.
  (* the try block *)
  assert (Hbody : exists st3 t3,
    scan_body env task st2 = (Ok tt, st3) /\
    st_heap st3 !! task = Some t3 /\
    total t3 = ipaddress.num_addresses n /\
    scanned t3 = scanned t + Z.of_nat (length (ipaddress.hosts n)) /\
    (ipaddress.hosts n <> [] ->
       progress t3 = progress_float (scanned t3) (total t3)) /\
    error t3 = error t /\ check_proxy_quality t3 = check_proxy_quality t).
  { unfold scan_body.
    rewrite (bind_run _ _ _ _ _ (load_run task t2 st2 H2)).
    change (network t2) with (network t). rewrite Hnet.
    rewrite (bind_run (lift (Ok n)) _ st2 n st2 eq_refl).
    erewrite bind_run by (by apply store_run).
    pose proof (stored_lookup task (set_total (ipaddress.num_addresses n)) t2 st2 H2) as H3.
    set (st3 := stored _ _ _ st2) in *.
    rewrite (bind_run _ _ _ _ _ (load_run task _ st3 H3)).
    unfold ThreadPoolExecutor. change (threads (set_total _ t2)) with (threads t).
    rewrite (proj2 (Z.leb_gt _ _) Hthreads).
    rewrite (bind_run (ret tt) _ st3 tt st3 eq_refl).
    destruct (map_M_scan_port env (port (set_total (ipaddress.num_addresses n) t2))
                (check_proxy_quality (set_total (ipaddress.num_addresses n) t2)) 1
                (ipaddress.hosts n) st3) as (futures & evs & Hrun & Hlen).
    rewrite (bind_run _ _ _ _ _ Hrun).
    assert (H4 : st_heap (advance st3 evs) !! task =
                 Some (set_total (ipaddress.num_addresses n) t2))
      by (by rewrite advance_heap).
    destruct (for_each_collect task (ipaddress.num_addresses n) futures _ _ Hnz H4)
      as (st5 & t5 & Hrun5 & H5 & Hs5 & Hp5 & Htot & _ & Herr & _ & _ & Hcheck).
    exists st5, t5. split; [exact Hrun5|]. split; [exact H5|].
    split; [exact Htot|]. split; [by rewrite Hs5, Hlen|].
    split; [|auto].
    intros Hne. rewrite Htot. apply Hp5. intros ->.
    destruct (ipaddress.hosts n); [done|discriminate]. }
  destruct Hbody as (st3 & t3 & Hrun3 & H3 & Htot & Hsc & Hprog & Herr & Hcheck).
  unfold try_finally, try_except. rewrite Hrun3.
  (* the finally block *)
  unfold scan_finally.
  erewrite bind_run by (by apply store_run).
  pose proof (stored_lookup task (set_is_scanning false) t3 st3 H3) as H4.
  unfold datetime_now at 1. cbn [bind].
  set (st4 := tick _ (stored task (set_is_scanning false) t3 st3)).
  change (st_heap st4 !! task = Some (set_is_scanning false t3)) in H4.
  erewrite bind_run by (by apply store_run).
  pose proof (stored_lookup task (set_end_time (Some (env_now env (st_clock (stored task (set_is_scanning false) t3 st3))))) _ st4 H4) as H5.
  set (t5 := set_end_time _ _) in H5. set (st5 := stored _ _ _ st4) in *.
  rewrite (bind_run _ _ _ _ _ (load_run task t5 st5 H5)).
  destruct (check_proxy_quality t5 && negb (length (results t5) =? 0)%nat).
  - erewrite store_run by exact H5.
    eexists _, _. split; [reflexivity|]. split; [by apply stored_lookup|].
    simpl. auto 10.
  - eexists _, _. split; [reflexivity|]. split; [exact H5|]. simpl. auto 10.
Qed.

(** ** Properties of the scan orchestrator *)

(** C1, as the code has it.  A worker sets [total] to the number of
    addresses of the block, not to the number of hosts it enumerates: for a
    prefix of 30 bits or fewer [total] exceeds the number of enumerated hosts
    by two (the network and the broadcast address are counted although they
    are not probed); only for a /31 and a /32 do the two agree. *)
Theorem total_counts_every_address env id task t n st :
  scan_tasks st !! id = Some task ->
  st_heap st !! task = Some t ->
  ipaddress.ip_network (network t) = Ok n ->
  0 < threads t ->
  exists st' t',
    scan_network_thread env id st = (Ok tt, st') /\
    st_heap st' !! task = Some t' /\
    total t' = ipaddress.num_addresses n /\
    (ipaddress.prefixlen n <= 30 ->
       total t' = Z.of_nat (length (ipaddress.hosts n)) + 2) /\
    (31 <= ipaddress.prefixlen n ->
       total t' = Z.of_nat (length (ipaddress.hosts n))).
Proof.
  intros Hid H0 Hnet Hthreads.
  destruct (scan_network_thread_run env id task t n st Hid H0 Hnet Hthreads)
    as (st' & t' & Hrun & H' & Htot & _).
  exists st', t'. split; [exact Hrun|]. split; [exact H'|]. split; [exact Htot|].
  pose proof (ipaddress_facts.ip_network_wf _ _ Hnet) as Hwf.
  rewrite Htot. split; intros Hp.
  - by apply ipaddress_facts.num_addresses_hosts.
  - by apply ipaddress_facts.num_addresses_hosts_31_32.
Qed.

(** C2, as the code has it.  A worker on a fresh task whose block has a
    prefix of 30 bits or fewer terminates (no longer scanning, end time
    recorded) with [scanned] equal to the number of hosts, which is two short
    of [total]; [progress] is [int((scanned / total) * 100)] at those
    values. *)
Theorem scanned_ends_two_short_of_total env id task t n st :
  scan_tasks st !! id = Some task ->
  st_heap st !! task = Some t ->
  ipaddress.ip_network (network t) = Ok n ->
  0 < threads t ->
  scanned t = 0 ->
  ipaddress.prefixlen n <= 30 ->
  exists st' t',
    scan_network_thread env id st = (Ok tt, st') /\
    st_heap st' !! task = Some t' /\
    is_scanning t' = false /\ is_Some (end_time t') /\
    scanned t' = Z.of_nat (length (ipaddress.hosts n)) /\
    scanned t' = total t' - 2 /\
    progress t' = progress_float (scanned t') (total t').
Proof.
  intros Hid H0 Hnet Hthreads Hfresh Hp.
  destruct (scan_network_thread_run env id task t n st Hid H0 Hnet Hthreads)
    as (st' & t' & Hrun & H' & Htot & Hsc & Hprog & Hscan & Hend & _).
  pose proof (ipaddress_facts.ip_network_wf _ _ Hnet) as Hwf.
  pose proof (ipaddress_facts.num_addresses_hosts n Hwf Hp) as Hnum.
  assert (Hne : ipaddress.hosts n <> []).
  { intros Hnil. rewrite Hnil in Hnum. simpl in Hnum.
    pose proof (ipaddress_facts.num_addresses_value n Hwf) as Hval.
    destruct Hwf as (Hrange & _).
    assert (2 ^ 2 <= 2 ^ (32 - ipaddress.prefixlen n))
      by (apply Z.pow_le_mono_r; lia).
    lia. }
  exists st', t'. split; [exact Hrun|]. split; [exact H'|].
  split; [exact Hscan|]. split; [exact Hend|].
  split; [lia|]. split; [lia|]. exact (Hprog Hne).
Qed.

Lemma history_monotone_tick ev st : history_monotone st -> history_monotone (tick ev st).
Proof. intros H. exact H. Qed.

Lemma history_monotone_store ref f st t :
  worker_update f -> st_heap st !! ref = Some t ->
  history_monotone st -> history_monotone (snd (store ref f st)).
Proof.
  intros Hf Hlook (Hhist & Hcur). rewrite (store_run ref f t st Hlook).
  unfold stored. simpl.
  destruct (Hf t) as (_ & _ & _ & _ & _ & _ & Hle).
  assert (Hnew : forall (i : nat) r s,
            (st_history st ++ [(ref, f t)]) !! i = Some (r, s) ->
            (st_history st !! i = Some (r, s) /\ (i < length (st_history st))%nat) \/
            (i = length (st_history st) /\ r = ref /\ s = f t)).
  { intros i r s Hi. apply lookup_app_Some in Hi as [Hi|[Hge Hi]].
    - left. split; [exact Hi|]. by eapply lookup_lt_Some.
    - right. destruct (i - length (st_history st))%nat as [|k] eqn:Hk;
        simpl in Hi; [|by rewrite lookup_nil in Hi].
      simplify_eq. split; [lia|done]. }
  split.
  - intros i j r s s' Hij Hi Hj. simpl in Hi, Hj.
    apply Hnew in Hi as [[Hi Hilt]|(-> & -> & ->)];
      apply Hnew in Hj as [[Hj Hjlt]|(-> & Hr & ->)]; subst.
    + eapply (Hhist i j); eauto.
    + specialize (Hcur i ref s t Hi Hlook). lia.
    + lia.
    + lia.
  - intros i r s s' Hi Hr. simpl in Hi, Hr.
    destruct (decide (r = ref)) as [->|Hne].
    + rewrite list_lookup_insert_eq in Hr by (by eapply lookup_lt_Some).
      simplify_eq. apply Hnew in Hi as [[Hi _]|(_ & _ & ->)]; [|lia].
      specialize (Hcur i ref s t Hi Hlook). lia.
    + rewrite list_lookup_insert_ne in Hr by done.
      apply Hnew in Hi as [[Hi _]|(_ & -> & _)]; [|done].
      eapply Hcur; eauto.
Qed.

(** Along a worker's run [scanned] only grows, assignment by assignment. *)
Lemma scanned_monotone env id st :
  history_monotone st -> history_monotone (snd (scan_network_thread env id st)).
Proof.
  apply (preserves_scan_network_thread history_monotone
           history_monotone_tick history_monotone_store).
Qed.

(** The API calls leave every existing task object as it is. *)
Lemma api_calls_keep_tasks env st ref t :
  st_heap st !! ref = Some t ->
  (forall data, st_heap (snd (start_scan env data st)) !! ref = Some t) /\
  (forall id, st_heap (snd (get_task_status id st)) !! ref = Some t) /\
  (forall id, st_heap (snd (delete_task id st)) !! ref = Some t).
Proof.
  intros H. split; [|split].
  - intros data. unfold start_scan, try_except, bind, lift.
    destruct (ipaddress.ip_network (default "10.16.65.0/24" (rq_network data)))
      as [n|e].
    2:{ by destruct (is_ValueError e). }
    destruct ((1 <=? default 7890 (rq_port data)) &&
              (default 7890 (rq_port data) <=? 65535)); simpl; [|exact H].
    unfold load. simpl. rewrite lookup_app_r by done. rewrite Nat.sub_diag. simpl.
    by apply lookup_app_l_Some.
  - intros id. unfold get_task_status, bind, get_state, load. simpl.
    destruct (scan_tasks st !! id) as [task|]; [|exact H].
    by destruct (st_heap st !! task).
  - intros id. unfold delete_task, bind, get_state, load. simpl.
    destruct (scan_tasks st !! id) as [task|]; [|exact H].
    destruct (st_heap st !! task) as [t'|]; [|exact H].
    by destruct (is_scanning t').
Qed.

(** Within one iteration of the collecting loop [scanned] is assigned before
    [progress]: in between, the task shows the new count with the old
    percentage. *)
Example progress_follows_scanned :
  exists s s',
    st_history Scenario.finished_state !! 4%nat = Some (0%nat, s) /\
    st_history Scenario.finished_state !! 5%nat = Some (0%nat, s') /\
    (scanned s, total s, progress s) = (1, 4, 0) /\
    (scanned s', total s', progress s') = (1, 4, 25).
Proof.
  eexists _, _.
  split; [vm_compute; reflexivity|]. split; [vm_compute; reflexivity|].
  split; reflexivity.
Qed.

(** The [finally] block marks the task finished first and sorts afterwards:
    with quality checking on and some result collected, its three assignments
    show the task finished with the results as collected, and then sorted. *)
Lemma scan_finally_history env task t st :
  st_heap st !! task = Some t ->
  check_proxy_quality t = true ->
  results t <> [] ->
  exists st' s s',
    scan_finally env task st = (Ok tt, st') /\
    st_history st' =
      st_history st ++ [(task, set_is_scanning false t); (task, s); (task, s')] /\
    terminal s /\ results s = results t /\
    terminal s' /\ results s' = py_sorted get_quality_score true (results t).
Proof.
  intros H0 Hcheck Hres. unfold scan_finally.
  rewrite (bind_run _ _ _ _ _ (store_run task (set_is_scanning false) t st H0)).
  pose proof (stored_lookup task (set_is_scanning false) t st H0) as H1.
  unfold datetime_now at 1. cbn [bind].
  set (st1 := tick _ (stored task (set_is_scanning false) t st)).
  set (now := env_now env (st_clock (stored task (set_is_scanning false) t st))).
  change (st_heap st1 !! task = Some (set_is_scanning false t)) in H1.
  rewrite (bind_run _ _ _ _ _ (store_run task (set_end_time (Some now)) _ st1 H1)).
  pose proof (stored_lookup task (set_end_time (Some now)) _ st1 H1) as H2.
  rewrite (bind_run _ _ _ _ _ (load_run task _ _ H2)).
  change (check_proxy_quality (set_end_time (Some now) (set_is_scanning false t)))
    with (check_proxy_quality t).
  change (results (set_end_time (Some now) (set_is_scanning false t)))
    with (results t).
  rewrite Hcheck. destruct (results t) as [|r rs] eqn:Hr; [done|]. cbn [length Nat.eqb negb andb].
  set (f := fun t0 : ScanTask =>
              set_results (py_sorted get_quality_score true (results t0)) t0).
  rewrite (store_run task f _ _ H2).
  eexists _, _, _. split; [reflexivity|].
  split; [simpl; by rewrite <- !app_assoc|].
  split; [split; [reflexivity|by eexists]|].
  split; [exact Hr|].
  split; [split; [reflexivity|by eexists]|].
  simpl. by rewrite Hr.
Qed.

(** C6, as the code has it.  With quality checking on and both hosts of
    10.0.0.0/30 open, of which only the second relays requests, the task is
    seen finished (no longer scanning, end time recorded) with its results in
    collection order, and the very next assignment reorders them by score:
    the sort runs after the task has been marked finished. *)
Theorem results_resorted_after_terminal :
  let st := snd (Scenario.create_and_run Scenario.two_hosts_env
                   Scenario.quality_request init_state) in
  exists s s',
    st_history st !! 11%nat = Some (0%nat, s) /\
    st_history st !! 12%nat = Some (0%nat, s') /\
    terminal s /\ terminal s' /\
    map r_ip (results s) = ["10.0.0.1"; "10.0.0.2"] /\
    map get_quality_score (results s) = [0; 80] /\
    map r_ip (results s') = ["10.0.0.2"; "10.0.0.1"] /\
    results s' <> results s.
Proof.
  eexists _, _.
  split; [vm_compute; reflexivity|].
  split; [vm_compute; reflexivity|].
  split; [split; [reflexivity|by eexists]|].
  split; [split; [reflexivity|by eexists]|].
  split; [reflexivity|]. split; [reflexivity|]. split; [reflexivity|].
  discriminate.
Qed.

(** ** The properties at concrete inputs *)

(** On 10.0.0.0/30 with no host accepting connections: [total] is 4 while two
    hosts are enumerated, and the results are empty. *)
Lemma total_counts_every_address_witness :
  (scan_tasks Scenario.created_state !! "task-1" = Some 0%nat /\
   st_heap Scenario.created_state !! 0%nat = Some Scenario.closed_task /\
   ipaddress.ip_network (network Scenario.closed_task) = Ok Scenario.slash30 /\
   0 < threads Scenario.closed_task) /\
  exists st' t',
    scan_network_thread Scenario.closed_env "task-1" Scenario.created_state =
      (Ok tt, st') /\
    st_heap st' !! 0%nat = Some t' /\
    total t' = 4 /\
    length (ipaddress.hosts Scenario.slash30) = 2%nat /\
    results t' = [].
Proof.
  assert (H1 : scan_tasks Scenario.created_state !! "task-1" = Some 0%nat)
    by (vm_compute; reflexivity).
  assert (H2 : st_heap Scenario.created_state !! 0%nat = Some Scenario.closed_task)
    by (vm_compute; reflexivity).
  assert (H3 : ipaddress.ip_network (network Scenario.closed_task) = Ok Scenario.slash30)
    by (vm_compute; reflexivity).
  assert (H4 : 0 < threads Scenario.closed_task) by (simpl; lia).
  split; [auto|].
  destruct (total_counts_every_address Scenario.closed_env "task-1" 0%nat
              Scenario.closed_task Scenario.slash30 Scenario.created_state
              H1 H2 H3 H4) as (st' & t' & Hrun & Hlook & Htot & _).
  exists st', t'. split; [exact Hrun|]. split; [exact Hlook|].
  split; [exact Htot|]. split; [reflexivity|].
  vm_compute in Hrun. injection Hrun as <-.
  vm_compute in Hlook. injection Hlook as <-. reflexivity.
Defined.

(** On the same input the worker ends with [scanned] 2, [total] 4 and
    [progress] 50. *)
Lemma scanned_ends_two_short_of_total_witness :
  (scan_tasks Scenario.created_state !! "task-1" = Some 0%nat /\
   st_heap Scenario.created_state !! 0%nat = Some Scenario.closed_task /\
   ipaddress.ip_network (network Scenario.closed_task) = Ok Scenario.slash30 /\
   0 < threads Scenario.closed_task /\
   scanned Scenario.closed_task = 0 /\
   ipaddress.prefixlen Scenario.slash30 <= 30) /\
  exists st' t',
    scan_network_thread Scenario.closed_env "task-1" Scenario.created_state =
      (Ok tt, st') /\
    st_heap st' !! 0%nat = Some t' /\
    is_scanning t' = false /\ is_Some (end_time t') /\
    scanned t' = 2 /\ total t' = 4 /\ progress t' = 50.
Proof.
  assert (H1 : scan_tasks Scenario.created_state !! "task-1" = Some 0%nat)
    by (vm_compute; reflexivity).
  assert (H2 : st_heap Scenario.created_state !! 0%nat = Some Scenario.closed_task)
    by (vm_compute; reflexivity).
  assert (H3 : ipaddress.ip_network (network Scenario.closed_task) = Ok Scenario.slash30)
    by (vm_compute; reflexivity).
  assert (H4 : 0 < threads Scenario.closed_task) by (simpl; lia).
  assert (H5 : scanned Scenario.closed_task = 0) by reflexivity.
  assert (H6 : ipaddress.prefixlen Scenario.slash30 <= 30) by (simpl; lia).
  split; [auto 10|].
  destruct (scanned_ends_two_short_of_total Scenario.closed_env "task-1" 0%nat
              Scenario.closed_task Scenario.slash30 Scenario.created_state
              H1 H2 H3 H4 H5 H6)
    as (st' & t' & Hrun & Hlook & Hscan & Hend & Hsc & Hshort & Hprog).
  exists st', t'. split; [exact Hrun|]. split; [exact Hlook|].
  split; [exact Hscan|]. split; [exact Hend|].
  change (length (ipaddress.hosts Scenario.slash30)) with 2%nat in Hsc.
  split; [exact Hsc|]. split; [lia|].
  rewrite Hprog. replace (total t') with 4 by lia. rewrite Hsc.
  vm_compute. reflexivity.
Defined.

(** C3 as stated fails.  In the scenario (geolocation 200 within 250 ms,
    beacon 204, media site unreachable, no endpoint available) the report
    does not have two accessible sites, score 85 and level [excellent]. *)
Lemma partial_reachability_is_not_excellent :
  exists report st',
    env_get Scenario.partial_env 1
      (site_request (http_config "10.0.0.2" 8080) ip_check_site 8) =
      Ok Scenario.geo_response /\
    status_code Scenario.geo_response = 200 /\
    env_time Scenario.partial_env 2 - env_time Scenario.partial_env 0 = 250 /\
    env_get Scenario.partial_env 4
      (site_request (http_config "10.0.0.2" 8080) google_site 8) =
      Ok Scenario.beacon_response /\
    status_code Scenario.beacon_response = 204 /\
    probe_success
      (env_get Scenario.partial_env 7
         (site_request (http_config "10.0.0.2" 8080) youtube_site 8)) = false /\
    test_proxy_quality Scenario.partial_env "10.0.0.2" 8080 8 true init_state =
      (Ok report, st') /\
    endpoints_available report = 0 /\
    ~ (length (pi_accessible_sites report) = 2%nat /\
       pi_quality_score report = 85 /\
       pi_quality_level report = "excellent").
Proof.
  eexists _, _.
  split; [reflexivity|]. split; [reflexivity|]. split; [reflexivity|].
  split; [reflexivity|]. split; [reflexivity|]. split; [reflexivity|].
  split; [vm_compute; reflexivity|]. split; [reflexivity|].
  intros (Hlen & _). vm_compute in Hlen. discriminate.
Qed.

(** In the scenario the report has one accessible site, score 80 and level
    [good]. *)
Lemma partial_reachability_scores_good_witness :
  (env_get Scenario.partial_env (1 + st_clock init_state)%nat
     (site_request (http_config "10.0.0.2" 8080) ip_check_site 8) =
     Ok Scenario.geo_response /\
   status_code Scenario.geo_response = 200 /\
   env_time Scenario.partial_env (2 + st_clock init_state)%nat -
     env_time Scenario.partial_env (st_clock init_state) = 250 /\
   env_get Scenario.partial_env (4 + st_clock init_state)%nat
     (site_request (http_config "10.0.0.2" 8080) google_site 8) =
     Ok Scenario.beacon_response /\
   status_code Scenario.beacon_response = 204 /\
   probe_success
     (env_get Scenario.partial_env (7 + st_clock init_state)%nat
        (site_request (http_config "10.0.0.2" 8080) youtube_site 8)) = false) /\
  exists report st',
    test_proxy_quality Scenario.partial_env "10.0.0.2" 8080 8 true init_state =
      (Ok report, st') /\
    pi_is_working report = true /\
    pi_accessible_sites report = ["Google"] /\
    pi_quality_score report = 80 /\
    pi_quality_level report = "good".
Proof.
  assert (H1 : env_get Scenario.partial_env (1 + st_clock init_state)%nat
                 (site_request (http_config "10.0.0.2" 8080) ip_check_site 8) =
               Ok Scenario.geo_response) by reflexivity.
  assert (H2 : status_code Scenario.geo_response = 200) by reflexivity.
  assert (H3 : env_time Scenario.partial_env (2 + st_clock init_state)%nat -
               env_time Scenario.partial_env (st_clock init_state) = 250)
    by reflexivity.
  assert (H4 : env_get Scenario.partial_env (4 + st_clock init_state)%nat
                 (site_request (http_config "10.0.0.2" 8080) google_site 8) =
               Ok Scenario.beacon_response) by reflexivity.
  assert (H5 : status_code Scenario.beacon_response = 204) by reflexivity.
  assert (H6 : probe_success
                 (env_get Scenario.partial_env (7 + st_clock init_state)%nat
                    (site_request (http_config "10.0.0.2" 8080) youtube_site 8)) =
               false) by reflexivity.
  split; [auto 10|].
  destruct (partial_reachability_scores_good Scenario.partial_env "10.0.0.2" 8080 8
              true init_state Scenario.geo_response Scenario.beacon_response
              H1 H2 H3 H4 H5 H6)
    as (report & st' & Hrun & Hw & Hsites & _ & _ & Hzero).
  exists report, st'. split; [exact Hrun|]. split; [exact Hw|].
  split; [exact Hsites|]. apply Hzero.
  vm_compute in Hrun. injection Hrun as <- _. reflexivity.
Defined.

(** Through a candidate that relays everything, every site and every named
    endpoint answers 200 within 250 ms: the report is working, lists two
    sites, finds the four endpoints available, and is scored by the
    specification's function: 30 + 25 + 30 + 10 = 95, [excellent]. *)
Lemma quality_score_is_spec_score_witness :
  exists report st',
    test_proxy_quality Cases.relay_env "10.0.0.2" 8080 8 true init_state =
      (Ok report, st') /\
    pi_is_working report = true /\
    length (pi_accessible_sites report) = 2%nat /\
    available_endpoints report = 4 /\
    pi_quality_score report = 95 /\
    pi_quality_level report = "excellent" /\
    exists t,
      pi_response_time report = Some t /\
      pi_quality_score report =
        Spec.score (length (pi_accessible_sites report)) t (available_endpoints report) /\
      30 <= pi_quality_score report <= 100 /\
      pi_quality_level report = Spec.band (pi_quality_score report).
Proof.
  destruct (quality_score_is_spec_score Cases.relay_env "10.0.0.2" 8080 8 true
              init_state) as (report & st' & Hrun & Hworking & _).
  exists report, st'. split; [exact Hrun|].
  assert (Hfacts : pi_is_working report = true /\
                   length (pi_accessible_sites report) = 2%nat /\
                   available_endpoints report = 4 /\
                   pi_quality_score report = 95 /\
                   pi_quality_level report = "excellent").
  { vm_compute in Hrun. injection Hrun as <- _. vm_compute. auto. }
  destruct Hfacts as (Hw & Hsites & Hav & Hscore & Hlevel).
  split; [exact Hw|]. split; [exact Hsites|]. split; [exact Hav|].
  split; [exact Hscore|]. split; [exact Hlevel|]. exact (Hworking Hw).
Defined.

(** In the scenario the geolocation probe succeeds first; the beacon probe
    that follows uses the same proxies, and only three probes are made. *)
Lemma protocol_fallback_stops_at_first_working_witness :
  let evs := st_log (snd (test_proxy_quality Scenario.partial_env "10.0.0.2" 8080 8
                            true init_state)) in
  exists p q,
    (0 < 1)%nat /\
    reference_probes evs !! 0%nat = Some p /\
    reference_probes evs !! 1%nat = Some q /\
    snd p = true /\
    req_proxies (fst q) = req_proxies (fst p) /\
    length (reference_probes evs) = 3%nat.
Proof.
  destruct (protocol_fallback_stops_at_first_working Scenario.partial_env "10.0.0.2"
              8080 8 true init_state) as (report & evs & Hrun & _ & _ & Hsame).
  assert (Hlog : st_log (snd (test_proxy_quality Scenario.partial_env "10.0.0.2" 8080 8
                                true init_state)) = evs).
  { rewrite Hrun. simpl. by rewrite advance_log. }
  rewrite Hlog. simpl.
  assert (Hevs : evs = st_log (snd (test_proxy_quality Scenario.partial_env "10.0.0.2"
                                      8080 8 true init_state))) by (by rewrite Hlog).
  vm_compute in Hevs.
  assert (H0 : exists p, reference_probes evs !! 0%nat = Some p /\ snd p = true).
  { rewrite Hevs. eexists. split; [vm_compute; reflexivity|reflexivity]. }
  assert (H1 : exists q, reference_probes evs !! 1%nat = Some q).
  { rewrite Hevs. eexists. vm_compute. reflexivity. }
  destruct H0 as (p & Hp & Hpt), H1 as (q & Hq).
  exists p, q. split; [lia|]. split; [exact Hp|]. split; [exact Hq|]. split; [exact Hpt|].
  split; [exact (Hsame 0%nat 1%nat p q (Nat.lt_0_1) Hp Hq Hpt)|].
  rewrite Hevs. reflexivity.
Defined.

(** Deleting the scenario's task while it scans is refused; once its worker
    has finished, deletion succeeds and the task is no longer found. *)
Lemma delete_refused_while_scanning_witness :
  (scan_tasks Scenario.running_state !! "task-1" = Some 0%nat /\
   st_heap Scenario.running_state !! 0%nat = Some Scenario.running_task /\
   is_scanning Scenario.running_task = true /\
   exists r,
     delete_task "task-1" Scenario.running_state = (Ok r, Scenario.running_state) /\
     is_conflict r) /\
  (scan_tasks Scenario.finished_state !! "task-1" = Some 0%nat /\
   st_heap Scenario.finished_state !! 0%nat = Some Scenario.finished_task /\
   is_scanning Scenario.finished_task = false /\
   exists r st',
     delete_task "task-1" Scenario.finished_state = (Ok r, st') /\
     is_success r /\
     exists r', get_task_status "task-1" st' = (Ok r', st') /\ is_not_found r').
Proof.
  assert (H1 : scan_tasks Scenario.running_state !! "task-1" = Some 0%nat)
    by (vm_compute; reflexivity).
  assert (H2 : st_heap Scenario.running_state !! 0%nat = Some Scenario.running_task)
    by (vm_compute; reflexivity).
  assert (H3 : scan_tasks Scenario.finished_state !! "task-1" = Some 0%nat)
    by (vm_compute; reflexivity).
  assert (H4 : st_heap Scenario.finished_state !! 0%nat = Some Scenario.finished_task)
    by (vm_compute; reflexivity).
  split.
  - split; [exact H1|]. split; [exact H2|]. split; [reflexivity|].
    exact (proj1 (delete_refused_while_scanning "task-1" 0%nat Scenario.running_task
                    Scenario.running_state H1 H2) eq_refl).
  - split; [exact H3|]. split; [exact H4|]. split; [reflexivity|].
    destruct (proj2 (delete_refused_while_scanning "task-1" 0%nat
                       Scenario.finished_task Scenario.finished_state H3 H4) eq_refl)
      as (r & st' & Hrun & Hok & _ & _ & Hget).
    exists r, st'. auto.
Defined.


(** In the scenario the media-site probe times out and sets the error; a
    beacon probe that succeeds afterwards leaves it in place. *)
Lemma error_outlives_success_witness :
  env_get Scenario.partial_env (S (st_clock init_state))
    (site_request (http_config "10.0.0.2" 8080) youtube_site 8) =
    Raise (ReadTimeout "read timed out") /\
  (exists l' st',
     probe_site Scenario.partial_env 8 (http_config "10.0.0.2" 8080) youtube_site
       locals_init init_state = (Ok l', st') /\
     pi_error (proxy_info l') = Some "Request timeout") /\
  env_get Scenario.partial_env (S (st_clock init_state))
    (site_request (http_config "10.0.0.2" 8080) google_site 8) =
    Ok Scenario.beacon_response /\
  (exists l' st',
     probe_site Scenario.partial_env 8 (http_config "10.0.0.2" 8080) google_site
       (on_exception (ReadTimeout "read timed out") locals_init) init_state =
       (Ok l', st') /\
     pi_error (proxy_info l') = Some "Request timeout").
Proof.
  destruct error_outlives_success as (Hraise & Hkeep & _).
  assert (H1 : env_get Scenario.partial_env (S (st_clock init_state))
                 (site_request (http_config "10.0.0.2" 8080) youtube_site 8) =
               Raise (ReadTimeout "read timed out")) by reflexivity.
  assert (H2 : env_get Scenario.partial_env (S (st_clock init_state))
                 (site_request (http_config "10.0.0.2" 8080) google_site 8) =
               Ok Scenario.beacon_response) by reflexivity.
  split; [exact H1|]. split.
  { destruct (Hraise _ 8 _ _ locals_init _ _ H1) as (l' & st' & Hrun & Herr & _).
    exists l', st'. auto. }
  split; [exact H2|].
  destruct (Hkeep _ 8 _ _ (on_exception (ReadTimeout "read timed out") locals_init)
              _ _ H2) as (l' & st' & Hrun & Herr).
  exists l', st'. auto.
Defined.

(** ** The sort of the results *)

Lemma py_insert_perm {A : Type} (key : A -> Z) reverse (x : A) l :
  Permutation (py_insert key reverse x l) (x :: l).
Proof.
  induction l as [|y l IH]; simpl; [done|].
  case_match; [|done]. rewrite IH. apply Permutation_swap.
Qed.

Lemma py_sorted_perm {A : Type} (key : A -> Z) reverse (l : list A) :
  Permutation (py_sorted key reverse l) l.
Proof.
  induction l as [|x l IH]; simpl; [done|].
  unfold py_sorted in *. simpl. rewrite py_insert_perm. by rewrite IH.
Qed.

Lemma py_insert_sorted {A : Type} (key : A -> Z) reverse (x : A) l :
  StronglySorted (in_order key reverse) l ->
  StronglySorted (in_order key reverse) (py_insert key reverse x l).
Proof.
  induction 1 as [|y l Hs IH Hall]; simpl.
  - repeat constructor.
  - destruct (if reverse then key x <? key y else key y <? key x) eqn:Hcmp.
    + constructor; [exact IH|].
      rewrite (py_insert_perm key reverse x l). constructor; [|exact Hall].
      unfold in_order. destruct reverse; lia.
    + constructor; [by constructor|].
      assert (Hxy : in_order key reverse x y)
        by (unfold in_order; destruct reverse; lia).
      constructor; [exact Hxy|].
      eapply Forall_impl; [exact Hall|]. intros z Hyz.
      unfold in_order in *. destruct reverse; lia.
Qed.

Lemma py_sorted_sorted {A : Type} (key : A -> Z) reverse (l : list A) :
  StronglySorted (in_order key reverse) (py_sorted key reverse l).
Proof.
  induction l as [|x l IH]; [constructor|].
  unfold py_sorted in *. simpl. by apply py_insert_sorted.
Qed.

Lemma py_insert_stable {A : Type} (key : A -> Z) reverse (x : A) l k :
  filter (fun y => key y = k) (py_insert key reverse x l) =
  filter (fun y => key y = k) (x :: l).
Proof.
  induction l as [|y l IH]; simpl; [done|].
  destruct (if reverse then key x <? key y else key y <? key x) eqn:Hcmp; [|done].
  assert (Hne : key x <> key y) by (destruct reverse; lia).
  rewrite filter_cons, IH, !filter_cons.
  repeat case_decide; try done; congruence.
Qed.

Lemma py_sorted_stable {A : Type} (key : A -> Z) reverse (l : list A) k :
  filter (fun y => key y = k) (py_sorted key reverse l) =
  filter (fun y => key y = k) l.
Proof.
  induction l as [|x l IH]; [done|].
  unfold py_sorted in *. simpl. rewrite py_insert_stable, !filter_cons.
  by rewrite IH.
Qed.

(** ** The quality check, once more *)

Lemma requests_of_app a b : requests_of (a ++ b) = requests_of a ++ requests_of b.
Proof. unfold requests_of. apply omap_app. Qed.

Lemma advance_inj st evs evs' : advance st evs = advance st evs' -> evs = evs'.
Proof.
  intros H. apply (f_equal st_log) in H. rewrite !advance_log in H.
  by apply app_inv_head in H.
Qed.

Section ProbeInvariant.

Variable P : Locals -> Prop.
Variable all : list ProxyConfig.

Hypothesis P_response : forall config site response elapsed l,
  config ∈ all -> site ∈ test_sites -> P l ->
  P (on_response config site response elapsed l).

Hypothesis P_exception : forall e l, P l -> P (on_exception e l).

Lemma probe_site_inv env timeout config site l st :
  config ∈ all -> site ∈ test_sites -> P l ->
  exists l' evs,
    probe_site env timeout config site l st = (Ok l', advance st evs) /\
    P l' /\ requests_of evs = [site_request config site timeout] /\
    (pi_is_working (proxy_info l) = true -> pi_is_working (proxy_info l') = true).
Proof.
  intros Hc Hs HP. rewrite probe_site_run.
  destruct (env_get env (S (st_clock st)) (site_request config site timeout))
    as [response|e].
  - eexists _, _. split; [reflexivity|]. split; [by apply P_response|].
    split; [reflexivity|]. intros Hw. by rewrite on_response_working, Hw.
  - eexists _, _. split; [reflexivity|]. split; [by apply P_exception|].
    split; [reflexivity|]. done.
Qed.

Lemma probes_inv env timeout config sites l st :
  config ∈ all -> Forall (fun site => site ∈ test_sites) sites -> P l ->
  exists l' evs,
    for_fold sites (probe_site env timeout config) l st = (Ok l', advance st evs) /\
    P l' /\
    requests_of evs = map (fun site => site_request config site timeout) sites /\
    (pi_is_working (proxy_info l) = true -> pi_is_working (proxy_info l') = true).
Proof.
  intros Hc Hall. revert l st. induction Hall as [|site sites Hs _ IH]; intros l st HP.
  - exists l, []. simpl. auto.
  - destruct (probe_site_inv env timeout config site l st Hc Hs HP)
      as (l1 & evs1 & Hrun1 & HP1 & Hreq1 & Hw1).
    destruct (IH l1 (advance st evs1) HP1) as (l2 & evs2 & Hrun2 & HP2 & Hreq2 & Hw2).
    exists l2, (evs1 ++ evs2). cbn [for_fold].
    rewrite (bind_run _ _ _ _ _ Hrun1), Hrun2, advance_app.
    split; [done|]. split; [exact HP2|].
    split; [by rewrite requests_of_app, Hreq1, Hreq2|]. auto.
Qed.

Lemma for_configs_inv env timeout configs l st :
  configs ⊆ all -> P l ->
  exists l' evs,
    for_configs env timeout configs l st = (Ok l', advance st evs) /\
    P l' /\
    Forall (fun req => exists config site,
              config ∈ configs /\ req = site_request config site timeout)
      (requests_of evs) /\
    (length (requests_of evs) <= 3 * length configs)%nat /\
    (pi_is_working (proxy_info l') = false ->
     length (requests_of evs) = (3 * length configs)%nat).
Proof.
  revert l st. induction configs as [|config configs IH]; intros l st Hsub HP.
  - exists l, []. simpl. split; [done|]. split; [done|]. split; [constructor|].
    split; [lia|done].
  - assert (Hc : config ∈ all) by (apply Hsub; left).
    assert (Hsub' : configs ⊆ all) by (intros c Hin; apply Hsub; by right).
    cbn [for_configs]. fold sorted_sites.
    destruct (probes_inv env timeout config sorted_sites l st Hc) as
      (l1 & evs1 & Hrun1 & HP1 & Hreq1 & Hw1); [|exact HP|].
    { rewrite sorted_sites_eq. repeat constructor. }
    rewrite (bind_run _ _ _ _ _ Hrun1).
    assert (Hfirst : Forall (fun req => exists config0 site,
                        config0 ∈ config :: configs /\
                        req = site_request config0 site timeout) (requests_of evs1)).
    { rewrite Hreq1. apply Forall_forall. intros req Hin.
      apply list_elem_of_fmap in Hin as (site & -> & _).
      exists config, site. split; [left|done]. }
    assert (Hlen1 : length (requests_of evs1) = 3%nat).
    { by rewrite Hreq1, length_map, sorted_sites_eq. }
    destruct (pi_is_working (proxy_info l1)) eqn:Hwork.
    + exists l1, evs1. split; [done|]. split; [exact HP1|]. split; [exact Hfirst|].
      split; [cbn [length]; lia|]. congruence.
    + destruct (IH l1 (advance st evs1) Hsub' HP1)
        as (l2 & evs2 & Hrun2 & HP2 & Hall2 & Hlen2 & Hnot2).
      exists l2, (evs1 ++ evs2). rewrite Hrun2, advance_app.
      split; [done|]. split; [exact HP2|]. rewrite requests_of_app. split.
      { apply Forall_app. split; [exact Hfirst|].
        eapply Forall_impl; [exact Hall2|].
        intros req (c & s & Hin & ->). exists c, s. split; [by right|done]. }
      rewrite length_app, Hlen1. cbn [length]. split; [lia|].
      intros Hw. specialize (Hnot2 Hw). lia.
Qed.

End ProbeInvariant.

Lemma mem_string_elem_of x l : mem_string x l = true <-> x ∈ l.
Proof.
  unfold mem_string. rewrite existsb_exists. split.
  - intros (y & Hin & Heq). apply String.eqb_eq in Heq as ->.
    by apply list_elem_of_In.
  - intros Hin. exists x. split; [by apply list_elem_of_In|apply String.eqb_refl].
Qed.

Lemma mem_string_not_elem_of x l : mem_string x l = false <-> x ∉ l.
Proof.
  rewrite <- mem_string_elem_of. by destruct (mem_string x l).
Qed.

Lemma on_response_google config site response elapsed l :
  pi_can_access_google (proxy_info (on_response config site response elapsed l)) =
  (pi_can_access_google (proxy_info l) ||
   (mem_Z (status_code response) success_codes &&
    String.eqb (site_key site) "can_access_google"))%bool.
Proof.
  unfold on_response.
  destruct (mem_Z (status_code response) success_codes);
    [|by rewrite orb_false_r].
  repeat (case_match; simpl in *);
    rewrite ?orb_true_r, ?orb_false_r; try reflexivity; congruence.
Qed.

Lemma on_response_unscored config site response elapsed l :
  pi_quality_score (proxy_info (on_response config site response elapsed l)) =
    pi_quality_score (proxy_info l) /\
  pi_ai_models (proxy_info (on_response config site response elapsed l)) =
    pi_ai_models (proxy_info l).
Proof.
  unfold on_response.
  repeat (case_match; simpl in *); split; try reflexivity; congruence.
Qed.

Lemma on_response_sites_inv config site response elapsed l :
  site ∈ test_sites -> sites_inv l ->
  sites_inv (on_response config site response elapsed l).
Proof.
  intros Hsite (Hnd & Hnames & Hgoogle & Hscore & Hai).
  destruct (on_response_unscored config site response elapsed l) as (Hs & Ha).
  unfold sites_inv.
  rewrite on_response_sites, on_response_google, Hs, Ha.
  destruct (mem_Z (status_code response) success_codes);
    [|by rewrite orb_false_r].
  unfold test_sites in Hsite.
  apply elem_of_cons in Hsite as [->|Hsite];
    [|apply elem_of_cons in Hsite as [->|Hsite];
      [|apply elem_of_cons in Hsite as [->|Hsite]; [|by apply elem_of_nil in Hsite]]].
  - (* the geolocation service *)
    cbn. rewrite andb_false_r, orb_false_r. done.
  - (* the beacon *)
    cbn. rewrite orb_true_r.
    destruct (mem_string "Google" (pi_accessible_sites (proxy_info l))) eqn:Hmem; cbn.
    + apply mem_string_elem_of in Hmem. split_and!; try done.
    + apply mem_string_not_elem_of in Hmem. split_and!; try done.
      * apply NoDup_app. split; [exact Hnd|]. split; [|apply NoDup_singleton].
        intros x Hx Hx'. apply list_elem_of_singleton in Hx' as ->. done.
      * intros name Hin. apply elem_of_app in Hin as [Hin|Hin]; [by apply Hnames|].
        apply list_elem_of_singleton in Hin as ->. by left.
      * split; [|done]. intros _. apply elem_of_app. right. left.
  - (* the media site *)
    cbn. rewrite orb_false_r.
    destruct (mem_string "YouTube" (pi_accessible_sites (proxy_info l))) eqn:Hmem; cbn.
    + split_and!; try done.
    + apply mem_string_not_elem_of in Hmem. split_and!; try done.
      * apply NoDup_app. split; [exact Hnd|]. split; [|apply NoDup_singleton].
        intros x Hx Hx'. apply list_elem_of_singleton in Hx' as ->. done.
      * intros name Hin. apply elem_of_app in Hin as [Hin|Hin]; [by apply Hnames|].
        apply list_elem_of_singleton in Hin as ->. by right.
      * rewrite Hgoogle, elem_of_app, list_elem_of_singleton. split; [by left|].
        by intros [?|?].
Qed.

(** ** The endpoint checker *)

Lemma dict_alter_twice name f g d :
  dict_alter name f (dict_alter name g d) = dict_alter name (fun a => f (g a)) d.
Proof.
  unfold dict_alter. rewrite map_map. apply map_ext. intros [k a]. simpl.
  destruct (String.eqb k name) eqn:Hk; simpl; by rewrite Hk.
Qed.

(** How a response settles the entry of its endpoint. *)
Lemma ai_on_response_entry endpoint response elapsed d :
  exists f,
    ai_on_response endpoint response elapsed d = dict_alter (ep_name endpoint) f d /\
    entry_settled (f ai_unknown).
Proof.
  unfold ai_on_response, entry_settled.
  repeat case_match; rewrite ?dict_alter_twice;
    (eexists; split; [reflexivity|]); cbn;
    (split; [discriminate|]); split; split; intros Hx;
      try done; try (by eexists); try discriminate; by destruct Hx.
Qed.

Lemma ai_on_exception_entry endpoint e d :
  exists f,
    ai_on_exception endpoint e d = dict_alter (ep_name endpoint) f d /\
    entry_settled (f ai_unknown).
Proof.
  unfold ai_on_exception, entry_settled.
  repeat case_match;
    (eexists; split; [reflexivity|]); cbn;
    (split; [discriminate|]); split; split; intros Hx;
      try done; try discriminate; by destruct Hx.
Qed.

Lemma check_endpoint_entry env proxies timeout endpoint d st :
  exists f evs,
    check_endpoint env proxies timeout endpoint d st =
      (Ok (dict_alter (ep_name endpoint) f d), advance st evs) /\
    entry_settled (f ai_unknown) /\
    requests_of evs = [ai_request endpoint proxies timeout].
Proof.
  unfold check_endpoint, try_except, bind, time_time, requests_get, ret. simpl.
  destruct (env_get env (S (st_clock st)) (ai_request endpoint proxies timeout))
    as [response|e].
  - destruct (ai_on_response_entry endpoint response
                (env_time env (S (S (st_clock st))) - env_time env (st_clock st)) d)
      as (f & -> & Hf).
    eexists f, [_; _; _]. split; [reflexivity|]. by split.
  - destruct (ai_on_exception_entry endpoint e d) as (f & -> & Hf).
    eexists f, [_; _]. split; [reflexivity|]. by split.
Qed.

(** The requests of the endpoint checker. *)
Lemma ai_check_requests env proxies timeout st :
  exists d evs,
    test_ai_model_availability env proxies timeout st = (Ok d, advance st evs) /\
    requests_of evs = map (fun endpoint => ai_request endpoint proxies timeout)
                        ai_endpoints.
Proof.
  pose (Q := fun (done : list AiEndpoint) (d : list (string * AiEntry)) (st' : State) =>
    exists evs, st' = advance st evs /\
      requests_of evs = map (fun endpoint => ai_request endpoint proxies timeout) done).
  destruct (for_fold_ind (check_endpoint env proxies timeout) Q) with
    (l := ai_endpoints) (done := @nil AiEndpoint) (s := ai_availability_init) (st := st)
    as (d & st' & Hrun & evs & -> & Hreq).
  - intros done x s st1 (evs & -> & Hreq).
    destruct (check_endpoint_entry env proxies timeout x s (advance st evs))
      as (f & evs' & Hrun & _ & Hreq').
    eexists _, _. split; [exact Hrun|]. exists (evs ++ evs').
    split; [by rewrite advance_app|].
    by rewrite requests_of_app, Hreq, Hreq', map_app.
  - by exists [].
  - by exists d, evs.
Qed.

(** X1.  The endpoint checker always returns the four entries, in the
    order chatgpt, claude, gemini, copilot, after exactly one request per
    endpoint in that order, whatever the answers.  Every entry is settled:
    its status is no longer "unknown", and it is marked available exactly
    when its status is "available", which is exactly when a response time
    is recorded. *)
Theorem ai_check_settles_every_entry env proxies timeout st :
  exists d evs,
    test_ai_model_availability env proxies timeout st = (Ok d, advance st evs) /\
    map fst d = ["chatgpt"; "claude"; "gemini"; "copilot"] /\
    Forall (fun kv => entry_settled (snd kv)) d /\
    requests_of evs = map (fun endpoint => ai_request endpoint proxies timeout)
                        ai_endpoints /\
    0 <= count_available d <= 4.
Proof.
  unfold test_ai_model_availability, ai_endpoints. cbn [for_fold].
  destruct (check_endpoint_entry env proxies timeout
              {| ep_name := "chatgpt"; ep_url := "https://chat.openai.com";
                 ep_display_name := "ChatGPT"; ep_check_text := "openai" |}
              ai_availability_init st) as (f1 & evs1 & Hrun1 & Hf1 & Hreq1).
  rewrite (bind_run _ _ _ _ _ Hrun1).
  destruct (check_endpoint_entry env proxies timeout
              {| ep_name := "claude"; ep_url := "https://claude.ai";
                 ep_display_name := "Claude"; ep_check_text := "claude" |}
              (dict_alter "chatgpt" f1 ai_availability_init) (advance st evs1))
    as (f2 & evs2 & Hrun2 & Hf2 & Hreq2).
  cbn [ep_name] in *. rewrite (bind_run _ _ _ _ _ Hrun2).
  destruct (check_endpoint_entry env proxies timeout
              {| ep_name := "gemini"; ep_url := "https://gemini.google.com";
                 ep_display_name := "Gemini"; ep_check_text := "google" |}
              (dict_alter "claude" f2 (dict_alter "chatgpt" f1 ai_availability_init))
              (advance (advance st evs1) evs2))
    as (f3 & evs3 & Hrun3 & Hf3 & Hreq3).
  cbn [ep_name] in *. rewrite (bind_run _ _ _ _ _ Hrun3).
  destruct (check_endpoint_entry env proxies timeout
              {| ep_name := "copilot"; ep_url := "https://copilot.microsoft.com";
                 ep_display_name := "Copilot"; ep_check_text := "microsoft" |}
              (dict_alter "gemini" f3
                 (dict_alter "claude" f2 (dict_alter "chatgpt" f1 ai_availability_init)))
              (advance (advance (advance st evs1) evs2) evs3))
    as (f4 & evs4 & Hrun4 & Hf4 & Hreq4).
  cbn [ep_name] in *. rewrite (bind_run _ _ _ _ _ Hrun4).
  exists (dict_alter "copilot" f4
            (dict_alter "gemini" f3
               (dict_alter "claude" f2 (dict_alter "chatgpt" f1 ai_availability_init)))),
    (((evs1 ++ evs2) ++ evs3) ++ evs4).
  rewrite !advance_app. split; [reflexivity|].
  split; [reflexivity|]. split.
  { cbn. repeat (constructor; [assumption|]). constructor. }
  split.
  { rewrite !requests_of_app, Hreq1, Hreq2, Hreq3, Hreq4. reflexivity. }
  unfold count_available. cbn [dict_alter ai_availability_init map fst snd String.eqb].
  split; [lia|].
  match goal with |- Z.of_nat ?n <= 4 => assert (n <= 4)%nat; [|lia] end.
  etransitivity; [apply length_filter|]. cbn. lia.
Qed.

(** ** The report of the quality check *)

Lemma on_response_proxies config site response elapsed l :
  working_proxies (on_response config site response elapsed l) =
  if mem_Z (status_code response) success_codes
  then Some (cfg_proxies config) else working_proxies l.
Proof.
  unfold on_response.
  destruct (mem_Z (status_code response) success_codes); [|reflexivity].
  repeat (case_match; simpl in *); reflexivity.
Qed.

Lemma on_response_blank_inv config site response elapsed l :
  blank_inv l -> blank_inv (on_response config site response elapsed l).
Proof.
  intros Hb. unfold blank_inv. rewrite on_response_working.
  destruct (mem_Z (status_code response) success_codes) eqn:Hs.
  - by rewrite orb_true_r.
  - rewrite orb_false_r. by rewrite (on_response_failure _ _ _ _ _ Hs).
Qed.

Lemma on_exception_blank_inv e l : blank_inv l -> blank_inv (on_exception e l).
Proof.
  intros Hb Hw. simpl in Hw. destruct (Hb Hw) as (Hq & Hp).
  split; [|exact Hp]. simpl. by rewrite Hq.
Qed.

Lemma on_response_proxies_inv ip port config site response elapsed l :
  config ∈ proxy_configs ip port ->
  proxies_inv ip port l ->
  proxies_inv ip port (on_response config site response elapsed l).
Proof.
  intros Hc Hp proxies. rewrite on_response_proxies.
  destruct (mem_Z (status_code response) success_codes); [|apply Hp].
  intros [= <-]. rewrite proxy_configs_eq in Hc.
  apply elem_of_cons in Hc as [->|Hc]; [by left|].
  apply list_elem_of_singleton in Hc as ->. by right.
Qed.

Lemma site_request_through_candidate ip port timeout config site :
  config ∈ proxy_configs ip port ->
  through_candidate ip port timeout (site_request config site timeout).
Proof.
  intros Hc. rewrite proxy_configs_eq in Hc. unfold through_candidate. simpl.
  apply elem_of_cons in Hc as [->|Hc]; [auto|].
  apply list_elem_of_singleton in Hc as ->. auto.
Qed.

(** The probing stage and the endpoint stage of the quality check. *)
Lemma test_proxy_quality_stages env ip port timeout check_ai_models st :
  exists l q evs,
    test_proxy_quality env ip port timeout check_ai_models st =
      (Ok (score_stage q), advance st evs) /\
    sites_inv l /\ blank_inv l /\
    (q = proxy_info l \/
     exists d, q = set_pi_ai_models (Some d) (proxy_info l) /\
               pi_is_working (proxy_info l) = true /\ check_ai_models = true) /\
    Forall (through_candidate ip port timeout) (requests_of evs) /\
    (length (requests_of evs) <= 10)%nat /\
    (pi_is_working (proxy_info l) = false -> length (requests_of evs) = 6%nat) /\
    (check_ai_models = false -> (length (requests_of evs) <= 6)%nat).
Proof.
  unfold test_proxy_quality.
  destruct (for_configs_inv
              (fun l => sites_inv l /\ blank_inv l /\ proxies_inv ip port l)
              (proxy_configs ip port)) with
    (env := env) (timeout := timeout) (configs := proxy_configs ip port)
    (l := locals_init) (st := st)
    as (l & evs & Hrun & (Hsites & Hblank & Hprox) & Hall & Hlen & Hnot).
  - intros config site response elapsed l Hc Hs (H1 & H2 & H3).
    split; [by apply on_response_sites_inv|].
    split; [by apply on_response_blank_inv|]. by apply on_response_proxies_inv.
  - intros e l (H1 & H2 & H3).
    split; [exact H1|]. split; [by apply on_exception_blank_inv|]. exact H3.
  - done.
  - split; [|split].
    + unfold sites_inv. simpl. split_and!; try done.
      * constructor.
      * intros name Hin. by apply elem_of_nil in Hin.
      * split; [done|]. intros Hin. by apply elem_of_nil in Hin.
    + intros _. simpl. done.
    + intros proxies. simpl. done.
  - rewrite (bind_run _ _ _ _ _ Hrun).
    assert (Hthrough : Forall (through_candidate ip port timeout) (requests_of evs)).
    { eapply Forall_impl; [exact Hall|].
      intros req (c & s & Hc & ->). by apply site_request_through_candidate. }
    simpl in Hlen, Hnot.
    destruct (working_proxies l) as [proxies|] eqn:Hwp.
    + destruct (pi_is_working (proxy_info l) && check_ai_models) eqn:Hcond.
      * apply andb_true_iff in Hcond as [Hw Hcheck].
        destruct (ai_check_requests env proxies timeout (advance st evs))
          as (d & evs' & Hrun' & Hreq').
        unfold bind. rewrite Hrun'. unfold ret.
        exists l, (set_pi_ai_models (Some d) (proxy_info l)), (evs ++ evs').
        rewrite advance_app. split; [reflexivity|].
        split; [exact Hsites|]. split; [exact Hblank|].
        split; [right; by exists d|].
        rewrite requests_of_app, Hreq', length_app, length_map.
        split.
        { apply Forall_app. split; [exact Hthrough|].
          apply Forall_forall. intros req Hin.
          apply list_elem_of_fmap in Hin as (ep & -> & _).
          unfold through_candidate. simpl. split; [by apply Hprox|done]. }
        split; [simpl; lia|]. split; [congruence|congruence].
      * exists l, (proxy_info l), evs. unfold bind, ret.
        split; [reflexivity|]. split; [exact Hsites|]. split; [exact Hblank|].
        split; [by left|]. split; [exact Hthrough|].
        split; [lia|]. split; [exact Hnot|]. intros _. lia.
    + exists l, (proxy_info l), evs. unfold bind, ret.
      split; [reflexivity|]. split; [exact Hsites|]. split; [exact Hblank|].
      split; [by left|]. split; [exact Hthrough|].
      split; [lia|]. split; [exact Hnot|]. intros _. lia.
Qed.

Lemma two_names_length (l : list string) (a b : string) :
  NoDup l -> (forall x, x ∈ l -> x = a \/ x = b) -> (length l <= 2)%nat.
Proof.
  intros Hnd Hin.
  assert (Hsub : l ⊆ [a; b]).
  { intros x Hx. destruct (Hin x Hx) as [->| ->]; [left|right; left]. }
  exact (submseteq_length _ _ (NoDup_submseteq _ _ Hnd Hsub)).
Qed.

Lemma quality_score_of_bound q :
  (length (pi_accessible_sites q) <= 2)%nat -> 30 <= quality_score_of q <= 95.
Proof.
  intros Hlen. unfold quality_score_of.
  destruct (Z.leb_spec 3 (Z.of_nat (length (pi_accessible_sites q)))); [lia|].
  assert (Hsite : 30 <= (if 2 <=? Z.of_nat (length (pi_accessible_sites q))
                         then 30 + 25
                         else if 1 <=? Z.of_nat (length (pi_accessible_sites q))
                              then 30 + 20 else 30) <= 55)
    by (repeat case_match; lia).
  set (s1 := if 2 <=? Z.of_nat (length (pi_accessible_sites q)) then _ else _) in *.
  assert (Htime : s1 <= match pi_response_time q with
                        | Some response_time =>
                            if response_time <? 300 then s1 + 30
                            else if response_time <? 600 then s1 + 25
                            else if response_time <? 1000 then s1 + 20
                            else if response_time <? 2000 then s1 + 15
                            else if response_time <? 3000 then s1 + 10
                            else if response_time <? 5000 then s1 + 5
                            else s1
                        | None => s1
                        end <= s1 + 30)
    by (repeat case_match; lia).
  set (s2 := match pi_response_time q with Some _ => _ | None => _ end) in *.
  repeat case_match; lia.
Qed.

(** X2.  The report never lists more than the beacon and the media site as
    accessible, each at most once: the geolocation service is probed but
    left out of the list.  So the branch of the scoring for three or more
    sites is never taken and no score exceeds 95.  The report says that
    Google can be accessed exactly when "Google" is in the list, and a
    candidate that does not work scores 0. *)
Theorem quality_score_at_most_95 env ip port timeout check_ai_models st :
  exists report st',
    test_proxy_quality env ip port timeout check_ai_models st = (Ok report, st') /\
    NoDup (pi_accessible_sites report) /\
    (forall name, name ∈ pi_accessible_sites report ->
       name = "Google" \/ name = "YouTube") /\
    (pi_can_access_google report = true <-> "Google" ∈ pi_accessible_sites report) /\
    0 <= pi_quality_score report <= 95 /\
    (pi_is_working report = false -> pi_quality_score report = 0).
Proof.
  destruct (test_proxy_quality_stages env ip port timeout check_ai_models st)
    as (l & q & evs & Hrun & (Hnd & Hnames & Hgoogle & Hscore & _) & _ & Hq & _).
  exists (score_stage q), (advance st evs). split; [exact Hrun|].
  assert (Hsame : pi_accessible_sites q = pi_accessible_sites (proxy_info l) /\
                  pi_can_access_google q = pi_can_access_google (proxy_info l) /\
                  pi_quality_score q = 0).
  { destruct Hq as [->|(d & -> & _)]; simpl; auto. }
  destruct Hsame as (Hs & Hg & Hz).
  pose proof (two_names_length _ _ _ Hnd Hnames) as Hlen. rewrite <- Hs in *.
  rewrite <- Hg in Hgoogle.
  unfold score_stage. destruct (pi_is_working q) eqn:Hw; simpl.
  - split; [exact Hnd|]. split; [exact Hnames|]. split; [exact Hgoogle|].
    pose proof (quality_score_of_bound q Hlen). split; [lia|]. rewrite Hw. done.
  - split; [exact Hnd|]. split; [exact Hnames|]. split; [exact Hgoogle|].
    rewrite Hz. split; [lia|done].
Qed.

(** X3.  A candidate through which no reference probe succeeds is probed
    six times, three per protocol, and never checked against the named
    endpoints; its report is the initial one but for the level
    "unavailable" and the error, which is the category of the last probe
    that raised. *)
Theorem dead_proxy_report_is_blank env ip port timeout check_ai_models st :
  exists report evs,
    test_proxy_quality env ip port timeout check_ai_models st =
      (Ok report, advance st evs) /\
    (pi_is_working report = false ->
     report = set_pi_quality_level "unavailable"
                (set_pi_error (last_error None evs) proxy_info_init) /\
     length (requests_of evs) = 6%nat).
Proof.
  destruct (test_proxy_quality_stages env ip port timeout check_ai_models st)
    as (l & q & evs & Hrun & _ & Hblank & Hq & _ & _ & Hsix & _).
  destruct (test_proxy_quality_run env ip port timeout check_ai_models st)
    as (q' & evs' & Hrun' & _ & _ & Herr & _).
  exists (score_stage q), evs. split; [exact Hrun|].
  assert (Hsame : score_stage q' = score_stage q /\ evs' = evs).
  { rewrite Hrun in Hrun'. injection Hrun' as Hs Hadv.
    split; [by symmetry|]. symmetry. by apply advance_inj in Hadv. }
  destruct Hsame as (Hs & ->).
  assert (Hw : pi_is_working (score_stage q) = pi_is_working q).
  { unfold score_stage. destruct (pi_is_working q) eqn:E; simpl; by rewrite ?E. }
  assert (He : pi_error (score_stage q) = last_error None evs).
  { rewrite <- Hs, <- Herr. unfold score_stage. by destruct (pi_is_working q'). }
  rewrite Hw. intros Hdead.
  destruct Hq as [->|(d & -> & Hworking & _)]; [|simpl in Hdead; congruence].
  destruct (Hblank Hdead) as (Hinit & _). split; [|by apply Hsix].
  rewrite <- He. unfold score_stage. rewrite Hdead. rewrite Hinit at 1. reflexivity.
Qed.

(** X4.  A quality check sends every request through the candidate it
    examines, over HTTP or SOCKS5, with the timeout it was given and
    without certificate verification, and it sends at most ten of them: at
    most six reference probes and, when asked to, four endpoint checks. *)
Theorem quality_check_requests_bounded env ip port timeout check_ai_models st :
  exists report evs,
    test_proxy_quality env ip port timeout check_ai_models st =
      (Ok report, advance st evs) /\
    Forall (through_candidate ip port timeout) (requests_of evs) /\
    (length (requests_of evs) <= 10)%nat /\
    (check_ai_models = false -> (length (requests_of evs) <= 6)%nat).
Proof.
  destruct (test_proxy_quality_stages env ip port timeout check_ai_models st)
    as (l & q & evs & Hrun & _ & _ & _ & Hall & Hten & _ & Hsix).
  by exists (score_stage q), evs.
Qed.

(** ** The worker, step by step *)

Lemma connect_targets_app a b :
  connect_targets (a ++ b) = connect_targets a ++ connect_targets b.
Proof. unfold connect_targets. apply omap_app. Qed.

Lemma connect_targets_events evs :
  connect_events evs = [] -> connect_targets evs = [].
Proof.
  induction evs as [|ev evs IH]; [done|].
  unfold connect_events, connect_targets in *. simpl.
  destruct ev; simpl; try exact IH. discriminate.
Qed.

Lemma connect_attempt_targets env ip port timeout st :
  exists r evs,
    connect_attempt env ip port timeout st = (r, advance st evs) /\
    sublist (connect_targets evs) [(ip, port)] /\
    requests_of evs = [].
Proof.
  unfold connect_attempt, bind, socket_socket, sock_settimeout, sock_connect_ex,
    sock_close, ret. simpl.
  destruct (env_socket env (st_clock st)); simpl.
  { eexists _, [_]. split; [reflexivity|]. simpl. split; [apply sublist_nil_l|done]. }
  destruct (env_settimeout env (S (st_clock st))); simpl.
  { eexists _, [_; _]. split; [reflexivity|]. simpl.
    split; [apply sublist_nil_l|done]. }
  destruct (env_connect_ex env (S (S (st_clock st))) ip port); simpl.
  2:{ eexists _, [_; _; _]. split; [reflexivity|]. simpl. done. }
  destruct (env_close env (S (S (S (st_clock st))))); simpl.
  { eexists _, [_; _; _; _]. split; [reflexivity|]. simpl. done. }
  eexists _, [_; _; _; _]. split; [reflexivity|]. simpl. done.
Qed.

(** One probe unit: what it returns, where it connects and which requests
    it sends. *)
Lemma scan_port_result env ip port check_quality timeout st :
  exists v evs,
    scan_port env ip port check_quality timeout st = (Ok v, advance st evs) /\
    sublist (connect_targets evs) [target_of port ip] /\
    probe_of port check_quality ip v /\
    Forall (through_candidate (ipaddress.str_address ip) port 8) (requests_of evs) /\
    (length (requests_of evs) <= 10)%nat /\
    (check_quality = false -> requests_of evs = []).
Proof.
  unfold scan_port, try_except, bind.
  destruct (connect_attempt_targets env (ipaddress.str_address ip) port timeout st)
    as (r & evs & Hrun & Hlen & Hreq).
  rewrite Hrun.
  assert (Hclosed : sublist (connect_targets evs) [target_of port ip] /\
            probe_of port check_quality ip None /\
            Forall (through_candidate (ipaddress.str_address ip) port 8)
              (requests_of evs) /\
            (length (requests_of evs) <= 10)%nat /\
            (check_quality = false -> requests_of evs = [])).
  { rewrite Hreq. simpl. split_and!; try done. lia. }
  destruct r as [result|e]; [|by exists None, evs].
  destruct (result =? 0); [|by exists None, evs].
  unfold datetime_now. simpl. destruct check_quality.
  - destruct (test_proxy_quality_run env (ipaddress.str_address ip) port 8 true
                (tick (EvNow (env_now env (st_clock (advance st evs)))) (advance st evs)))
      as (q & evs' & Hrun' & _ & _ & _ & Hc & _).
    destruct (test_proxy_quality_stages env (ipaddress.str_address ip) port 8 true
                (tick (EvNow (env_now env (st_clock (advance st evs)))) (advance st evs)))
      as (l2 & q2 & evs2 & Hrun2 & _ & _ & _ & Hall2 & Hten2 & _).
    rewrite Hrun' in Hrun2. injection Hrun2 as _ Hadv.
    apply advance_inj in Hadv as <-.
    rewrite Hrun'. unfold ret.
    eexists _, (evs ++ [EvNow (env_now env (st_clock (advance st evs)))] ++ evs').
    rewrite !advance_app. split; [reflexivity|].
    rewrite !connect_targets_app, (connect_targets_events _ Hc), !requests_of_app, Hreq.
    simpl. rewrite ?app_nil_r.
    split; [exact Hlen|]. split; [simpl; auto|].
    split; [exact Hall2|]. split; [exact Hten2|]. done.
  - unfold ret.
    eexists _, (evs ++ [EvNow (env_now env (st_clock (advance st evs)))]).
    rewrite advance_app. split; [reflexivity|].
    rewrite connect_targets_app, requests_of_app, Hreq. simpl. rewrite ?app_nil_r.
    split; [exact Hlen|]. split; [simpl; auto|].
    split; [constructor|]. split; [simpl; lia|]. done.
Qed.

Lemma map_M_scan_port_results env port check_quality timeout ips st :
  exists futures evs,
    map_M (fun ip => scan_port env ip port check_quality timeout) ips st =
      (Ok futures, advance st evs) /\
    Forall2 (probe_of port check_quality) ips futures /\
    sublist (connect_targets evs) (map (target_of port) ips) /\
    Forall (fun req => exists ip,
              ip ∈ ips /\ through_candidate (ipaddress.str_address ip) port 8 req)
      (requests_of evs) /\
    (length (requests_of evs) <= 10 * length ips)%nat /\
    (check_quality = false -> requests_of evs = []).
Proof.
  revert st. induction ips as [|ip ips IH]; intros st; simpl.
  - exists [], []. simpl. split_and!; done.
  - destruct (scan_port_result env ip port check_quality timeout st)
      as (v & evs & Hrun & Hlen & Hv & Hall & Hten & Hoff).
    destruct (IH (advance st evs))
      as (futures & evs' & Hrun' & Hall2 & Hlen' & Hall' & Hten' & Hoff').
    exists (v :: futures), (evs ++ evs').
    rewrite (bind_run _ _ _ _ _ Hrun), (bind_run _ _ _ _ _ Hrun').
    unfold ret. rewrite advance_app, connect_targets_app, requests_of_app.
    split; [reflexivity|]. split; [by constructor|].
    split; [by apply (sublist_app _ [_])|].
    split.
    { apply Forall_app. split.
      - eapply Forall_impl; [exact Hall|]. intros req Hreq. exists ip.
        split; [left|exact Hreq].
      - eapply Forall_impl; [exact Hall'|]. intros req (ip' & Hin & Hreq).
        exists ip'. split; [by right|exact Hreq]. }
    split; [rewrite length_app; lia|].
    intros Hc. by rewrite (Hoff Hc), (Hoff' Hc).
Qed.

(** What collecting one result does to a task. *)
Lemma collect_results task total_hosts result t st :
  total_hosts <> 0 ->
  st_heap st !! task = Some t ->
  exists st' t',
    collect task total_hosts result st = (Ok tt, st') /\
    st_heap st' !! task = Some t' /\
    results t' = results t ++ omap id [result] /\
    scanned t' = scanned t + 1 /\
    same_identity t t' /\ same_run t t' /\
    st_log st' = st_log st /\ scan_tasks st' = scan_tasks st /\
    st_threads st' = st_threads st /\
    (forall ref, ref <> task -> st_heap st' !! ref = st_heap st !! ref).
Proof.
  intros Hnz H0. unfold collect.
  set (f1 := fun t : ScanTask => set_scanned (scanned t + 1) t).
  rewrite (bind_run _ _ _ _ _ (store_run task f1 t st H0)).
  pose proof (stored_lookup task f1 t st H0) as H1.
  rewrite (bind_run _ _ _ _ _ (load_run task _ _ H1)).
  unfold progress_percent. rewrite (proj2 (Z.eqb_neq _ _) Hnz).
  rewrite (bind_run (lift (Ok _)) _ _ _ _ eq_refl).
  set (f2 := set_progress (progress_float (scanned (f1 t)) total_hosts)).
  rewrite (bind_run _ _ _ _ _ (store_run task f2 _ _ H1)).
  pose proof (stored_lookup task f2 _ _ H1) as H2.
  destruct result as [r|].
  - set (f3 := fun t : ScanTask => set_results (results t ++ [r]) t).
    rewrite (store_run task f3 _ _ H2).
    eexists _, _. split; [reflexivity|].
    split; [by apply stored_lookup|].
    unfold same_identity, same_run. simpl.
    repeat split; try done.
    intros ref Hne. by rewrite !list_lookup_insert_ne.
  - eexists _, _. split; [reflexivity|]. split; [exact H2|].
    unfold same_identity, same_run. simpl. rewrite app_nil_r.
    repeat split; try done.
    intros ref Hne. by rewrite !list_lookup_insert_ne.
Qed.

(** What the collecting loop does to a task. *)
Lemma for_each_collect_results task total_hosts futures t st :
  total_hosts <> 0 ->
  st_heap st !! task = Some t ->
  exists st' t',
    for_each futures (collect task total_hosts) st = (Ok tt, st') /\
    st_heap st' !! task = Some t' /\
    results t' = results t ++ omap id futures /\
    scanned t' = scanned t + Z.of_nat (length futures) /\
    same_identity t t' /\ same_run t t' /\
    st_log st' = st_log st /\ scan_tasks st' = scan_tasks st /\
    st_threads st' = st_threads st /\
    (forall ref, ref <> task -> st_heap st' !! ref = st_heap st !! ref).
Proof.
  intros Hnz. revert t st.
  induction futures as [|result futures IH]; intros t st H0.
  - exists st, t. simpl. split; [reflexivity|]. split; [exact H0|].
    rewrite app_nil_r. unfold same_identity, same_run.
    repeat split; try done; lia.
  - destruct (collect_results task total_hosts result t st Hnz H0)
      as (st1 & t1 & Hrun1 & H1 & Hr1 & Hs1 & Hid1 & Hsame1 & Hl1 & Hreg1 & Hth1 & Hoth1).
    destruct (IH t1 st1 H1)
      as (st2 & t2 & Hrun2 & H2 & Hr2 & Hs2 & Hid2 & Hsame2 & Hl2 & Hreg2 & Hth2 & Hoth2).
    exists st2, t2. cbn [for_each]. rewrite (bind_run _ _ _ _ _ Hrun1).
    split; [exact Hrun2|]. split; [exact H2|].
    split.
    { rewrite Hr2, Hr1. simpl. rewrite <- app_assoc. by destruct result. }
    split; [rewrite Hs2, Hs1; cbn [length]; lia|].
    unfold same_identity, same_run in *.
    destruct Hid1 as (?&?&?&?&?&?), Hid2 as (?&?&?&?&?&?).
    destruct Hsame1 as (?&?&?&?&?&?), Hsame2 as (?&?&?&?&?&?).
    repeat split; try congruence.
    intros ref Hne. by rewrite Hoth2, Hoth1.
Qed.

(** ** Frames *)

Lemma worker_frame_refl task st : worker_frame task [] st st.
Proof. unfold worker_frame. rewrite app_nil_r. auto. Qed.

Lemma worker_frame_trans task evs evs' st st' st'' :
  worker_frame task evs st st' -> worker_frame task evs' st' st'' ->
  worker_frame task (evs ++ evs') st st''.
Proof.
  intros (Hl & Hr & Ht & Ho) (Hl' & Hr' & Ht' & Ho').
  unfold worker_frame. rewrite Hl', Hl, app_assoc.
  repeat split; try congruence. intros ref Hne. by rewrite Ho', Ho.
Qed.

Lemma worker_frame_stored task f t st :
  worker_frame task [] st (stored task f t st).
Proof.
  unfold worker_frame, stored. simpl. rewrite app_nil_r.
  repeat split; try done. intros ref Hne. by rewrite list_lookup_insert_ne.
Qed.

Lemma worker_frame_tick task ev st : worker_frame task [ev] st (tick ev st).
Proof. unfold worker_frame. simpl. auto. Qed.

Lemma worker_frame_advance task evs st : worker_frame task evs st (advance st evs).
Proof.
  unfold worker_frame.
  rewrite advance_log, advance_tasks, advance_threads, advance_heap. auto.
Qed.

(** ** Invariants of one worker *)

Section TaskInvariant.

Variable J : State -> Prop.
Variable task : nat.

Hypothesis J_tick : forall ev st, J st -> J (tick ev st).

Hypothesis J_store : forall f st t,
  body_update f -> st_heap st !! task = Some t -> J st -> J (stored task f t st).

Lemma task_preserves_store f : body_update f -> preserves J (store task f).
Proof.
  intros Hf st H. destruct (st_heap st !! task) as [t|] eqn:Hlook.
  - rewrite (store_run task f t st Hlook). by apply J_store.
  - unfold store. by rewrite Hlook.
Qed.

Lemma task_preserves_collect total_hosts result :
  preserves J (collect task total_hosts result).
Proof.
  unfold collect.
  apply preserves_bind;
    [apply task_preserves_store; intros t; unfold same_identity; simpl;
     repeat split; lia|].
  intros _.
  apply preserves_bind; [apply preserves_load|]. intros t0.
  apply preserves_bind; [apply preserves_lift|]. intros progress.
  apply preserves_bind;
    [apply task_preserves_store; intros t; unfold same_identity; simpl;
     repeat split; lia|].
  intros _. destruct result as [r|]; [|apply preserves_ret].
  apply task_preserves_store. intros t. unfold same_identity. simpl.
  repeat split; lia.
Qed.

Lemma task_preserves_scan_body env : preserves J (scan_body env task).
Proof.
  unfold scan_body.
  apply preserves_bind; [apply preserves_load|]. intros t.
  apply preserves_bind; [apply preserves_lift|]. intros network_obj.
  apply preserves_bind;
    [apply task_preserves_store; intros t'; unfold same_identity; simpl;
     repeat split; lia|].
  intros _.
  apply preserves_bind; [apply preserves_load|]. intros t'.
  apply preserves_bind; [apply preserves_ThreadPoolExecutor|]. intros _.
  apply preserves_bind;
    [apply preserves_map_M; intros ip; by apply preserves_scan_port|].
  intros futures. apply preserves_for_each. intros result.
  apply task_preserves_collect.
Qed.

(** The [try] block together with its [except] clause. *)
Lemma task_preserves_try env :
  preserves J
    (try_except (scan_body env task)
       (fun e => store task (set_error (Some (str_exn e))))).
Proof.
  apply preserves_try_except; [apply task_preserves_scan_body|].
  intros e. apply task_preserves_store. intros t. unfold same_identity. simpl.
  repeat split; lia.
Qed.

End TaskInvariant.

(** ** The blocks of the worker *)

(** The state in which the worker enters its [try] block. *)
Lemma scan_network_thread_enters env id task t st :
  scan_tasks st !! id = Some task ->
  st_heap st !! task = Some t ->
  let now := env_now env (st_clock st) in
  let t2 := set_start_time (Some now) (set_is_scanning true t) in
  exists st2,
    scan_network_thread env id st =
      try_finally
        (try_except (scan_body env task)
           (fun e => store task (set_error (Some (str_exn e)))))
        (scan_finally env task) st2 /\
    st_heap st2 !! task = Some t2 /\
    worker_frame task [EvNow now] st st2.
Proof.
  intros Hid H0 now t2. unfold scan_network_thread.
  rewrite (bind_run get_state _ st st st eq_refl). rewrite Hid.
  erewrite bind_run by (by apply store_run).
  pose proof (stored_lookup task (set_is_scanning true) t st H0) as H1.
  unfold datetime_now at 1. cbn [bind].
  change (env_now env (st_clock (stored task (set_is_scanning true) t st))) with now.
  set (st1 := tick _ (stored task (set_is_scanning true) t st)).
  change (st_heap st1 !! task = Some (set_is_scanning true t)) in H1.
  erewrite bind_run by (by apply store_run).
  eexists. split; [reflexivity|]. split; [by apply stored_lookup|].
  apply (worker_frame_trans task [EvNow now] [] st st1); [|apply worker_frame_stored].
  apply (worker_frame_trans task [] [EvNow now] st
           (stored task (set_is_scanning true) t st));
    [apply worker_frame_stored|apply worker_frame_tick].
Qed.

(** What the [finally] block does to a task. *)
Lemma scan_finally_run env task t st :
  st_heap st !! task = Some t ->
  let now := env_now env (st_clock st) in
  exists st' t',
    scan_finally env task st = (Ok tt, st') /\
    st_heap st' !! task = Some t' /\
    is_scanning t' = false /\ end_time t' = Some now /\
    results t' =
      (if check_proxy_quality t
       then py_sorted get_quality_score true (results t) else results t) /\
    same_identity t t' /\
    scanned t' = scanned t /\ total t' = total t /\ progress t' = progress t /\
    error t' = error t /\ start_time t' = start_time t /\
    worker_frame task [EvNow now] st st'.
Proof.
  intros H0 now. unfold scan_finally.
  erewrite bind_run by (by apply store_run).
  pose proof (stored_lookup task (set_is_scanning false) t st H0) as H1.
  unfold datetime_now at 1. cbn [bind].
  change (env_now env (st_clock (stored task (set_is_scanning false) t st))) with now.
  set (st1 := tick _ (stored task (set_is_scanning false) t st)).
  change (st_heap st1 !! task = Some (set_is_scanning false t)) in H1.
  erewrite bind_run by (by apply store_run).
  pose proof (stored_lookup task (set_end_time (Some now)) _ st1 H1) as H2.
  set (st2 := stored _ _ _ st1) in *.
  set (t2 := set_end_time (Some now) (set_is_scanning false t)) in *.
  erewrite bind_run by (by apply load_run).
  assert (Hf2 : worker_frame task [EvNow now] st st2).
  { apply (worker_frame_trans task [EvNow now] [] st st1);
      [|apply worker_frame_stored].
    apply (worker_frame_trans task [] [EvNow now] st
             (stored task (set_is_scanning false) t st));
      [apply worker_frame_stored|apply worker_frame_tick]. }
  change (check_proxy_quality t2) with (check_proxy_quality t).
  change (results t2) with (results t).
  destruct (check_proxy_quality t) eqn:Hc; simpl.
  - destruct (results t) as [|r rs] eqn:Hres; simpl.
    + exists st2, t2. unfold ret. split_and!; done.
    + erewrite store_run by exact H2.
      eexists _, _. split; [reflexivity|].
      split; [by apply stored_lookup|].
      simpl. rewrite Hres. split_and!; try done.
      rewrite <- (app_nil_r [EvNow now]).
      eapply worker_frame_trans; [exact Hf2|apply worker_frame_stored].
  - exists st2, t2. unfold ret. split_and!; done.
Qed.

Lemma num_addresses_nonzero s n :
  ipaddress.ip_network s = Ok n -> ipaddress.num_addresses n <> 0.
Proof.
  intros Hnet.
  rewrite (ipaddress_facts.num_addresses_value n
             (ipaddress_facts.ip_network_wf _ _ Hnet)).
  apply Z.pow_nonzero; [lia|].
  destruct (ipaddress_facts.ip_network_wf _ _ Hnet) as (Hrange & _). lia.
Qed.

(** The [try] block when the network parses and there is at least one
    worker: every host is probed, in order, and the answers are collected in
    that order. *)
Lemma scan_body_run env task t n st :
  st_heap st !! task = Some t ->
  ipaddress.ip_network (network t) = Ok n ->
  0 < threads t ->
  exists futures evs st' t',
    scan_body env task st = (Ok tt, st') /\
    st_heap st' !! task = Some t' /\
    Forall2 (probe_of (port t) (check_proxy_quality t)) (ipaddress.hosts n) futures /\
    results t' = results t ++ omap id futures /\
    total t' = ipaddress.num_addresses n /\
    scanned t' = scanned t + Z.of_nat (length (ipaddress.hosts n)) /\
    same_identity t t' /\
    is_scanning t' = is_scanning t /\ error t' = error t /\
    start_time t' = start_time t /\ end_time t' = end_time t /\
    sublist (connect_targets evs) (map (target_of (port t)) (ipaddress.hosts n)) /\
    worker_frame task evs st st' /\
    Forall (fun req => exists ip,
              ip ∈ ipaddress.hosts n /\
              through_candidate (ipaddress.str_address ip) (port t) 8 req)
      (requests_of evs) /\
    (length (requests_of evs) <= 10 * length (ipaddress.hosts n))%nat /\
    (check_proxy_quality t = false -> requests_of evs = []).
Proof.
  intros H2 Hnet Hthreads. unfold scan_body.
  pose proof (num_addresses_nonzero _ _ Hnet) as Hnz.
  rewrite (bind_run _ _ _ _ _ (load_run task t st H2)).
  rewrite Hnet.
  rewrite (bind_run (lift (Ok n)) _ st n st eq_refl).
  erewrite bind_run by (by apply store_run).
  pose proof (stored_lookup task (set_total (ipaddress.num_addresses n)) t st H2) as H3.
  set (st3 := stored _ _ _ st) in *.
  rewrite (bind_run _ _ _ _ _ (load_run task _ st3 H3)).
  unfold ThreadPoolExecutor. change (threads (set_total _ t)) with (threads t).
  rewrite (proj2 (Z.leb_gt _ _) Hthreads).
  rewrite (bind_run (ret tt) _ st3 tt st3 eq_refl).
  change (port (set_total (ipaddress.num_addresses n) t)) with (port t).
  change (check_proxy_quality (set_total (ipaddress.num_addresses n) t))
    with (check_proxy_quality t).
  destruct (map_M_scan_port_results env (port t) (check_proxy_quality t) 1
              (ipaddress.hosts n) st3)
    as (futures & evs & Hrun & Hall & Hconn & Hreqs & Hten & Hoff).
  rewrite (bind_run _ _ _ _ _ Hrun).
  assert (H4 : st_heap (advance st3 evs) !! task =
               Some (set_total (ipaddress.num_addresses n) t))
    by (by rewrite advance_heap).
  destruct (for_each_collect_results task (ipaddress.num_addresses n) futures _ _ Hnz H4)
    as (st5 & t5 & Hrun5 & H5 & Hres & Hsc & Hid & Hsame & Hlog & Hreg & Hthr & Hoth).
  exists futures, evs, st5, t5.
  destruct Hsame as (Htot & Hscan & Herr & Hend & Hstart & _).
  split; [exact Hrun5|]. split; [exact H5|]. split; [exact Hall|].
  split; [exact Hres|]. split; [exact Htot|].
  split; [rewrite Hsc; simpl; by rewrite (Forall2_length _ _ _ Hall)|].
  split; [exact Hid|]. split; [exact Hscan|]. split; [exact Herr|].
  split; [exact Hstart|]. split; [exact Hend|]. split; [exact Hconn|].
  split; [|by split_and!].
  unfold worker_frame.
  rewrite Hlog, Hreg, Hthr, advance_log, advance_tasks, advance_threads.
  split_and!; try done.
  intros ref Hne. rewrite (Hoth ref Hne), advance_heap.
  unfold st3. simpl. by rewrite list_lookup_insert_ne.
Qed.

(** The [try] block when the pool is asked for no worker: [total] is
    assigned, then the pool constructor raises. *)
Lemma scan_body_no_workers env task t n st :
  st_heap st !! task = Some t ->
  ipaddress.ip_network (network t) = Ok n ->
  threads t <= 0 ->
  scan_body env task st =
    (Raise (ValueError "max_workers must be greater than 0"),
     stored task (set_total (ipaddress.num_addresses n)) t st).
Proof.
  intros H2 Hnet Hthreads. unfold scan_body.
  rewrite (bind_run _ _ _ _ _ (load_run task t st H2)).
  rewrite Hnet.
  rewrite (bind_run (lift (Ok n)) _ st n st eq_refl).
  erewrite bind_run by (by apply store_run).
  pose proof (stored_lookup task (set_total (ipaddress.num_addresses n)) t st H2) as H3.
  set (st3 := stored _ _ _ st) in *.
  rewrite (bind_run _ _ _ _ _ (load_run task _ st3 H3)).
  unfold ThreadPoolExecutor. change (threads (set_total _ t)) with (threads t).
  rewrite (proj2 (Z.leb_le _ _) Hthreads). reflexivity.
Qed.

(** The [try] block when the network does not parse. *)
Lemma scan_body_bad_network env task t e st :
  st_heap st !! task = Some t ->
  ipaddress.ip_network (network t) = Raise e ->
  scan_body env task st = (Raise e, st).
Proof.
  intros H2 Hnet. unfold scan_body.
  rewrite (bind_run _ _ _ _ _ (load_run task t st H2)).
  rewrite Hnet. reflexivity.
Qed.

Lemma same_identity_refl t : same_identity t t.
Proof. unfold same_identity. auto 10. Qed.

Lemma same_identity_trans t t' t'' :
  same_identity t t' -> same_identity t' t'' -> same_identity t t''.
Proof.
  unfold same_identity. intros (?&?&?&?&?&?) (?&?&?&?&?&?).
  split_and!; congruence.
Qed.

(** The [try] block and its [except] clause, whatever happens inside: the
    block ends without an exception, the task is still marked as scanning,
    and nothing but the task has changed. *)
Lemma scan_try_run env task t st :
  st_heap st !! task = Some t ->
  exists st' t' evs,
    try_except (scan_body env task)
      (fun e => store task (set_error (Some (str_exn e)))) st = (Ok tt, st') /\
    st_heap st' !! task = Some t' /\
    same_identity t t' /\ scanned t <= scanned t' /\
    is_scanning t' = is_scanning t /\ start_time t' = start_time t /\
    end_time t' = end_time t /\
    worker_frame task evs st st'.
Proof.
  intros H0.
  set (J := fun s : State => exists t' evs,
    st_heap s !! task = Some t' /\
    same_identity t t' /\ scanned t <= scanned t' /\
    is_scanning t' = is_scanning t /\ start_time t' = start_time t /\
    end_time t' = end_time t /\
    worker_frame task evs st s).
  assert (J_tick : forall ev s, J s -> J (tick ev s)).
  { intros ev s (t' & evs & Hl & Hi & Hs & Hr & Hb & He & Hf).
    exists t', (evs ++ [ev]). split_and!; try done.
    eapply worker_frame_trans; [exact Hf|apply worker_frame_tick]. }
  assert (J_store : forall f s t1,
    body_update f -> st_heap s !! task = Some t1 -> J s -> J (stored task f t1 s)).
  { intros f s t1 Hf Hl1 (t' & evs & Hl & Hi & Hs & Hr & Hb & He & Hfr).
    assert (t' = t1) as -> by congruence.
    destruct (Hf t1) as (Hi1 & Hs1 & Hr1 & Hb1 & He1).
    exists (f t1), evs. split_and!.
    - by apply stored_lookup.
    - by eapply same_identity_trans.
    - lia.
    - congruence.
    - congruence.
    - congruence.
    - rewrite <- (app_nil_r evs).
      eapply worker_frame_trans; [exact Hfr|apply worker_frame_stored]. }
  assert (HJ0 : J st).
  { exists t, []. split_and!;
      first [done|apply same_identity_refl|apply worker_frame_refl]. }
  pose proof (task_preserves_scan_body J task J_tick J_store env st HJ0) as Hbody.
  unfold try_except.
  destruct (scan_body env task st) as [[[]|e] st1]; simpl in Hbody.
  - destruct Hbody as (t' & evs & H). by exists st1, t', evs.
  - destruct Hbody as (t' & evs & Hl & Hi & Hs & Hr & Hb & He & Hfr).
    rewrite (store_run task _ t' st1 Hl).
    exists (stored task (set_error (Some (str_exn e))) t' st1),
      (set_error (Some (str_exn e)) t'), evs.
    split; [done|]. split; [by apply stored_lookup|].
    split_and!; try done.
    rewrite <- (app_nil_r evs).
    eapply worker_frame_trans; [exact Hfr|apply worker_frame_stored].
Qed.

(** X5.  A worker whose task is registered always runs to the end, whatever
    the network string, the number of workers and the answers of the
    outside world: it returns normally and leaves the task not scanning,
    with the start time it recorded on entry and an end time; the identity
    and the parameters of the task are those it found, [scanned] has not
    decreased, and neither the registry nor any other task has changed. *)
Theorem worker_always_finishes env id task t st :
  scan_tasks st !! id = Some task ->
  st_heap st !! task = Some t ->
  exists st' t' evs,
    scan_network_thread env id st = (Ok tt, st') /\
    st_heap st' !! task = Some t' /\
    is_scanning t' = false /\
    start_time t' = Some (env_now env (st_clock st)) /\
    is_Some (end_time t') /\
    same_identity t t' /\ scanned t <= scanned t' /\
    worker_frame task evs st st'.
Proof.
  intros Hid H0.
  destruct (scan_network_thread_enters env id task t st Hid H0)
    as (st2 & -> & H2 & Hf2).
  destruct (scan_try_run env task _ st2 H2)
    as (st3 & t3 & evs & Hrun3 & H3 & Hi3 & Hs3 & _ & Hb3 & _ & Hf3).
  unfold try_finally. rewrite Hrun3.
  destruct (scan_finally_run env task t3 st3 H3)
    as (st4 & t4 & Hrun4 & H4 & Hr4 & He4 & _ & Hi4 & Hs4 & _ & _ & _ & Hb4 & Hf4).
  rewrite Hrun4.
  exists st4, t4, (([EvNow (env_now env (st_clock st))] ++ evs) ++
                   [EvNow (env_now env (st_clock st3))]).
  split; [done|]. split; [exact H4|]. split; [exact Hr4|].
  split; [by rewrite Hb4, Hb3|]. split; [by rewrite He4|].
  split; [exact (same_identity_trans _ _ _ Hi3 Hi4)|].
  split; [rewrite Hs4; exact Hs3|].
  eapply worker_frame_trans; [|exact Hf4].
  eapply worker_frame_trans; [exact Hf2|exact Hf3].
Qed.

(** The whole run of a worker when the network parses and there is at
    least one worker. *)
Lemma worker_success_run env tid task t n st :
  scan_tasks st !! tid = Some task ->
  st_heap st !! task = Some t ->
  ipaddress.ip_network (network t) = Ok n ->
  0 < threads t ->
  exists futures evs st' t',
    scan_network_thread env tid st = (Ok tt, st') /\
    st_heap st' !! task = Some t' /\
    Forall2 (probe_of (port t) (check_proxy_quality t)) (ipaddress.hosts n) futures /\
    results t' =
      (if check_proxy_quality t
       then py_sorted get_quality_score true (results t ++ omap id futures)
       else results t ++ omap id futures) /\
    scanned t' = scanned t + Z.of_nat (length (ipaddress.hosts n)) /\
    error t' = error t /\
    sublist (connect_targets evs) (map (target_of (port t)) (ipaddress.hosts n)) /\
    st_log st' = st_log st ++ evs /\
    Forall (fun req => exists ip,
              ip ∈ ipaddress.hosts n /\
              through_candidate (ipaddress.str_address ip) (port t) 8 req)
      (requests_of evs) /\
    (length (requests_of evs) <= 10 * length (ipaddress.hosts n))%nat /\
    (check_proxy_quality t = false -> requests_of evs = []).
Proof.
  intros Hid H0 Hnet Hthreads.
  destruct (scan_network_thread_enters env tid task t st Hid H0)
    as (st2 & -> & H2 & Hf2).
  destruct (scan_body_run env task _ n st2 H2 Hnet Hthreads)
    as (futures & evs & st3 & t3 & Hrun3 & H3 & Hall & Hres & _ & Hsc & Hi3 & _ &
        Herr & _ & _ & Hsub & Hf3 & Hreqs & Hten & Hoff).
  unfold try_finally, try_except. rewrite Hrun3.
  destruct (scan_finally_run env task t3 st3 H3)
    as (st4 & t4 & Hrun4 & H4 & _ & _ & Hres4 & _ & Hs4 & _ & _ & Herr4 & _ & Hf4).
  rewrite Hrun4.
  exists futures, (([EvNow (env_now env (st_clock st))] ++ evs) ++
                   [EvNow (env_now env (st_clock st3))]), st4, t4.
  destruct Hi3 as (_ & _ & _ & _ & Hc3 & _). simpl in Hc3.
  split; [done|]. split; [exact H4|]. split; [exact Hall|].
  split; [by rewrite Hres4, Hc3, Hres|].
  split; [by rewrite Hs4, Hsc|]. split; [by rewrite Herr4, Herr|].
  split.
  { rewrite !connect_targets_app. simpl. by rewrite app_nil_r. }
  split.
  { destruct Hf2 as (Hl2 & _), Hf3 as (Hl3 & _), Hf4 as (Hl4 & _).
    by rewrite Hl4, Hl3, Hl2, !app_assoc. }
  rewrite !requests_of_app. simpl. rewrite app_nil_r. by split_and!.
Qed.

(** The whole run of a worker when the task asks for no worker. *)
Lemma worker_no_workers_run env tid task t n st :
  scan_tasks st !! tid = Some task ->
  st_heap st !! task = Some t ->
  ipaddress.ip_network (network t) = Ok n ->
  threads t <= 0 ->
  exists st' t' now now',
    scan_network_thread env tid st = (Ok tt, st') /\
    st_heap st' !! task = Some t' /\
    error t' = Some "max_workers must be greater than 0" /\
    total t' = ipaddress.num_addresses n /\
    scanned t' = scanned t /\ progress t' = progress t /\
    Permutation (results t') (results t) /\
    is_scanning t' = false /\ end_time t' = Some now' /\
    st_log st' = st_log st ++ [EvNow now; EvNow now'].
Proof.
  intros Hid H0 Hnet Hthreads.
  destruct (scan_network_thread_enters env tid task t st Hid H0)
    as (st2 & -> & H2 & Hf2).
  unfold try_finally, try_except.
  rewrite (scan_body_no_workers env task _ n st2 H2 Hnet Hthreads).
  set (t2 := set_start_time _ _) in *.
  pose proof (stored_lookup task (set_total (ipaddress.num_addresses n)) t2 st2 H2)
    as H3.
  set (st3 := stored _ _ _ st2) in *.
  rewrite (store_run task _ _ st3 H3).
  pose proof (stored_lookup task
                (set_error (Some (str_exn (ValueError "max_workers must be greater than 0"))))
                _ st3 H3) as H4.
  set (st4 := stored _ _ _ st3) in *.
  destruct (scan_finally_run env task _ st4 H4)
    as (st5 & t5 & Hrun5 & H5 & Hr5 & He5 & Hres5 & _ & Hs5 & Htot5 & Hp5 & Herr5 &
        _ & Hf5).
  rewrite Hrun5.
  exists st5, t5, (env_now env (st_clock st)), (env_now env (st_clock st4)).
  split; [done|]. split; [exact H5|]. split; [by rewrite Herr5|].
  split; [by rewrite Htot5|]. split; [by rewrite Hs5|]. split; [by rewrite Hp5|].
  split.
  { rewrite Hres5. simpl. destruct (check_proxy_quality t); [|done].
    apply py_sorted_perm. }
  split; [exact Hr5|]. split; [exact He5|].
  destruct Hf2 as (Hl2 & _), Hf5 as (Hl5 & _).
  rewrite Hl5. unfold st4, st3. simpl. rewrite Hl2. by rewrite <- app_assoc.
Qed.

Lemma probe_of_results port check_quality ips futures :
  Forall2 (probe_of port check_quality) ips futures ->
  sublist (map r_ip (omap id futures)) (map ipaddress.str_address ips) /\
  Forall (fun r => r_port r = port /\ r_status r = "open" /\
                   (is_Some (r_proxy_quality r) <-> check_quality = true))
    (omap id futures).
Proof.
  induction 1 as [|ip future ips futures Hp _ (IHs & IHf)]; simpl.
  - split; [done|constructor].
  - destruct future as [r|]; simpl.
    + destruct Hp as (Hip & Hport & Hstatus & Hq). split.
      * rewrite Hip. by apply sublist_skip.
      * constructor; [|exact IHf]. split; [exact Hport|]. split; [exact Hstatus|].
        destruct (r_proxy_quality r) as [q|].
        -- split; [done|by eexists].
        -- split; intros H; [by destruct H|congruence].
    + split; [by apply sublist_cons|exact IHf].
Qed.

(** X6.  A task that asks for no worker ([threads] zero or negative, which
    creation accepts) fails without probing anything: the worker records
    [total], the pool constructor raises, and the task ends with the
    constructor's message as its error, [scanned] and [progress] where they
    were, the same results, and two readings of the clock as the worker's
    only interactions. *)
Theorem no_worker_scan_fails_without_probing env tid task t n st :
  scan_tasks st !! tid = Some task ->
  st_heap st !! task = Some t ->
  ipaddress.ip_network (network t) = Ok n ->
  threads t <= 0 ->
  exists st' t' now now',
    scan_network_thread env tid st = (Ok tt, st') /\
    st_heap st' !! task = Some t' /\
    error t' = Some "max_workers must be greater than 0" /\
    total t' = ipaddress.num_addresses n /\
    scanned t' = scanned t /\ progress t' = progress t /\
    Permutation (results t') (results t) /\
    terminal t' /\
    st_log st' = st_log st ++ [EvNow now; EvNow now'].
Proof.
  intros Hid H0 Hnet Hthreads.
  destruct (worker_no_workers_run env tid task t n st Hid H0 Hnet Hthreads)
    as (st' & t' & now & now' & Hrun & H1 & Herr & Htot & Hsc & Hp & Hres & Hr & He &
        Hlog).
  exists st', t', now, now'. split_and!; try done.
Qed.

(** X7.  A worker only ever connects to hosts of its task's network, on the
    task's port, and to each of them at most once, whatever the number of
    workers asked for.  (Nothing is said of the order of the connections:
    the pool runs the probes as it pleases.) *)
Theorem worker_connects_only_to_hosts env tid task t n st :
  scan_tasks st !! tid = Some task ->
  st_heap st !! task = Some t ->
  ipaddress.ip_network (network t) = Ok n ->
  exists st' evs,
    scan_network_thread env tid st = (Ok tt, st') /\
    st_log st' = st_log st ++ evs /\
    connect_targets evs ⊆+ map (target_of (port t)) (ipaddress.hosts n).
Proof.
  intros Hid H0 Hnet. destruct (Z_lt_le_dec 0 (threads t)) as [Hthreads|Hthreads].
  - destruct (worker_success_run env tid task t n st Hid H0 Hnet Hthreads)
      as (futures & evs & st' & t' & Hrun & _ & _ & _ & _ & _ & Hsub & Hlog & _).
    exists st', evs. split; [exact Hrun|]. split; [exact Hlog|].
    by apply sublist_submseteq.
  - destruct (worker_no_workers_run env tid task t n st Hid H0 Hnet Hthreads)
      as (st' & t' & now & now' & Hrun & _ & _ & _ & _ & _ & _ & _ & _ & Hlog).
    exists st', [EvNow now; EvNow now']. split; [exact Hrun|]. split; [exact Hlog|].
    simpl. apply submseteq_nil_l.
Qed.


(** X9.  When the task asks for the quality check, the worker leaves the
    results in descending order of quality score (an entry without a score
    counts as 0), whichever way the scan went. *)
Theorem quality_results_end_sorted env tid task t st :
  scan_tasks st !! tid = Some task ->
  st_heap st !! task = Some t ->
  check_proxy_quality t = true ->
  exists st' t',
    scan_network_thread env tid st = (Ok tt, st') /\
    st_heap st' !! task = Some t' /\
    StronglySorted (in_order get_quality_score true) (results t').
Proof.
  intros Hid H0 Hcheck.
  destruct (scan_network_thread_enters env tid task t st Hid H0)
    as (st2 & -> & H2 & _).
  destruct (scan_try_run env task _ st2 H2)
    as (st3 & t3 & evs & Hrun3 & H3 & Hi3 & _).
  unfold try_finally. rewrite Hrun3.
  destruct (scan_finally_run env task t3 st3 H3)
    as (st4 & t4 & Hrun4 & H4 & _ & _ & Hres4 & _).
  rewrite Hrun4. exists st4, t4. split; [done|]. split; [exact H4|].
  destruct Hi3 as (_ & _ & _ & _ & Hc3 & _). simpl in Hc3.
  rewrite Hres4, Hc3, Hcheck. apply py_sorted_sorted.
Qed.

(** X10.  The [finally] block only reorders the results: the list it leaves
    holds the same entries, and entries of equal score stay in the order in
    which they were found. *)
Theorem final_sort_is_stable env task t st :
  st_heap st !! task = Some t ->
  exists st' t',
    scan_finally env task st = (Ok tt, st') /\
    st_heap st' !! task = Some t' /\
    Permutation (results t') (results t) /\
    forall k,
      filter (fun r => get_quality_score r = k) (results t') =
      filter (fun r => get_quality_score r = k) (results t).
Proof.
  intros H0.
  destruct (scan_finally_run env task t st H0)
    as (st' & t' & Hrun & H1 & _ & _ & Hres & _).
  exists st', t'. split; [exact Hrun|]. split; [exact H1|].
  rewrite Hres. destruct (check_proxy_quality t); [|done].
  split; [apply py_sorted_perm|]. intros k. apply py_sorted_stable.
Qed.


(** X11.  [scan_port] reports a host exactly when a socket could be
    created and given its timeout, [connect_ex] returned 0 and the socket
    could be closed; any other return value and any exception along the
    way, the closing of the socket included, makes the host count as
    closed. *)
Theorem scan_port_reports_exactly_open_hosts env ip port check_quality timeout st :
  exists v st',
    scan_port env ip port check_quality timeout st = (Ok v, st') /\
    (is_Some v <->
     env_socket env (st_clock st) = None /\
     env_settimeout env (S (st_clock st)) = None /\
     env_connect_ex env (S (S (st_clock st))) (ipaddress.str_address ip) port = Ok 0 /\
     env_close env (S (S (S (st_clock st)))) = None).
Proof.
  unfold scan_port, try_except, connect_attempt, bind, socket_socket,
    sock_settimeout, sock_connect_ex, sock_close, ret. simpl.
  destruct (env_socket env (st_clock st)) as [e|]; simpl.
  { eexists None, _. split; [reflexivity|]. split; [by intros [? ?]|].
    by intros (? & _). }
  destruct (env_settimeout env (S (st_clock st))) as [e|]; simpl.
  { eexists None, _. split; [reflexivity|]. split; [by intros [? ?]|].
    by intros (_ & ? & _). }
  destruct (env_connect_ex env (S (S (st_clock st))) (ipaddress.str_address ip) port)
    as [result|e]; simpl.
  2:{ eexists None, _. split; [reflexivity|]. split; [by intros [? ?]|].
      by intros (_ & _ & ? & _). }
  destruct (env_close env (S (S (S (st_clock st))))) as [e|]; simpl.
  { eexists None, _. split; [reflexivity|]. split; [by intros [? ?]|].
    by intros (_ & _ & _ & ?). }
  destruct (Z.eqb_spec result 0) as [->|Hne].
  2:{ eexists None, _. split; [reflexivity|]. split; [by intros [? ?]|].
      intros (_ & _ & ? & _). congruence. }
  unfold datetime_now. simpl. destruct check_quality.
  - match goal with
    | |- context [test_proxy_quality env ?a ?b ?c ?d ?s] =>
        destruct (test_proxy_quality_run env a b c d s) as (q & evs & Hrun & _)
    end.
    rewrite Hrun. eexists (Some _), _. split; [reflexivity|].
    split; [done|]. intros _. by eexists.
  - eexists (Some _), _. split; [reflexivity|]. split; [done|]. intros _. by eexists.
Qed.

(** X12.  A worker sends requests only when its task asks for the quality
    check, and then only through hosts of the task's network, on the task's
    port, with a timeout of 8 seconds: at most ten per host. *)
Theorem worker_requests_go_through_hosts env tid task t n st :
  scan_tasks st !! tid = Some task ->
  st_heap st !! task = Some t ->
  ipaddress.ip_network (network t) = Ok n ->
  exists st' evs,
    scan_network_thread env tid st = (Ok tt, st') /\
    st_log st' = st_log st ++ evs /\
    Forall (fun req => exists ip,
              ip ∈ ipaddress.hosts n /\
              through_candidate (ipaddress.str_address ip) (port t) 8 req)
      (requests_of evs) /\
    (length (requests_of evs) <= 10 * length (ipaddress.hosts n))%nat /\
    (check_proxy_quality t = false -> requests_of evs = []).
Proof.
  intros Hid H0 Hnet. destruct (Z_lt_le_dec 0 (threads t)) as [Hthreads|Hthreads].
  - destruct (worker_success_run env tid task t n st Hid H0 Hnet Hthreads)
      as (futures & evs & st' & t' & Hrun & _ & _ & _ & _ & _ & _ & Hlog & Hreqs).
    by exists st', evs.
  - destruct (worker_no_workers_run env tid task t n st Hid H0 Hnet Hthreads)
      as (st' & t' & now & now' & Hrun & _ & _ & _ & _ & _ & _ & _ & _ & Hlog).
    exists st', [EvNow now; EvNow now']. split_and!; try done.
    simpl. lia.
Qed.

(** ** The scanning flag along a run *)

Lemma scan_try_flags env task t st :
  st_heap st !! task = Some t ->
  is_scanning t = true ->
  exists st' t' during,
    try_except (scan_body env task)
      (fun e => store task (set_error (Some (str_exn e)))) st = (Ok tt, st') /\
    st_heap st' !! task = Some t' /\
    st_history st' = st_history st ++ during /\
    Forall (fun entry : nat * ScanTask =>
              fst entry = task /\ is_scanning (snd entry) = true) during.
Proof.
  intros H0 Hscan.
  set (J := fun s : State => exists t' during,
    st_heap s !! task = Some t' /\ is_scanning t' = true /\
    st_history s = st_history st ++ during /\
    Forall (fun entry : nat * ScanTask =>
              fst entry = task /\ is_scanning (snd entry) = true) during).
  assert (J_tick : forall ev s, J s -> J (tick ev s)).
  { intros ev s (t' & during & Hl & Hs & Hh & Hall). by exists t', during. }
  assert (J_store : forall f s t1,
    body_update f -> st_heap s !! task = Some t1 -> J s -> J (stored task f t1 s)).
  { intros f s t1 Hf Hl1 (t' & during & Hl & Hs & Hh & Hall).
    assert (t' = t1) as -> by congruence.
    destruct (Hf t1) as (_ & _ & Hr1 & _).
    exists (f t1), (during ++ [(task, f t1)]). split_and!.
    - by apply stored_lookup.
    - congruence.
    - simpl. by rewrite Hh, app_assoc.
    - apply Forall_app. split; [exact Hall|]. constructor; [|constructor].
      simpl. split; [done|congruence]. }
  assert (HJ0 : J st).
  { exists t, []. rewrite app_nil_r. by split_and!. }
  pose proof (task_preserves_scan_body J task J_tick J_store env st HJ0) as Hbody.
  unfold try_except.
  destruct (scan_body env task st) as [[[]|e] st1]; simpl in Hbody.
  - destruct Hbody as (t' & during & Hl & _ & Hh & Hall). by exists st1, t', during.
  - destruct Hbody as (t' & during & Hl & Hs & Hh & Hall).
    rewrite (store_run task _ t' st1 Hl).
    exists (stored task (set_error (Some (str_exn e))) t' st1),
      (set_error (Some (str_exn e)) t'),
      (during ++ [(task, set_error (Some (str_exn e)) t')]).
    split; [done|]. split; [by apply stored_lookup|].
    split; [simpl; by rewrite Hh, app_assoc|].
    apply Forall_app. split; [exact Hall|]. constructor; [|constructor]. by split.
Qed.

Lemma scan_finally_flags env task t st :
  st_heap st !! task = Some t ->
  exists st' after,
    scan_finally env task st = (Ok tt, st') /\
    st_history st' = st_history st ++ after /\
    after <> [] /\
    Forall (fun entry : nat * ScanTask =>
              fst entry = task /\ is_scanning (snd entry) = false) after.
Proof.
  intros H0. unfold scan_finally.
  erewrite bind_run by (by apply store_run).
  pose proof (stored_lookup task (set_is_scanning false) t st H0) as H1.
  unfold datetime_now at 1. cbn [bind].
  set (now := env_now env (st_clock (stored task (set_is_scanning false) t st))).
  set (st1 := tick _ (stored task (set_is_scanning false) t st)).
  change (st_heap st1 !! task = Some (set_is_scanning false t)) in H1.
  erewrite bind_run by (by apply store_run).
  pose proof (stored_lookup task (set_end_time (Some now)) _ st1 H1) as H2.
  set (st2 := stored _ _ _ st1) in *.
  erewrite bind_run by (by apply load_run).
  case_match.
  - erewrite store_run by exact H2.
    eexists _, [_; _; _]. split; [reflexivity|]. simpl.
    rewrite <- !app_assoc. split; [reflexivity|]. split; [done|].
    repeat constructor.
  - eexists _, [_; _]. split; [reflexivity|]. simpl.
    rewrite <- !app_assoc. split; [reflexivity|]. split; [done|].
    repeat constructor.
Qed.

(** X13.  Along the run of a worker the scanning flag rises once and falls
    once: every value the task takes from the worker's first assignment to
    the end of the [try] block is marked as scanning, every value it takes
    in the [finally] block is not, and the worker assigns to no other
    task. *)
Theorem scanning_flag_rises_and_falls_once env tid task t st :
  scan_tasks st !! tid = Some task ->
  st_heap st !! task = Some t ->
  exists st' during after,
    scan_network_thread env tid st = (Ok tt, st') /\
    st_history st' = st_history st ++ during ++ after /\
    during <> [] /\ after <> [] /\
    Forall (fun entry : nat * ScanTask =>
              fst entry = task /\ is_scanning (snd entry) = true) during /\
    Forall (fun entry : nat * ScanTask =>
              fst entry = task /\ is_scanning (snd entry) = false) after.
Proof.
  intros Hid H0. unfold scan_network_thread.
  rewrite (bind_run get_state _ st st st eq_refl). rewrite Hid.
  erewrite bind_run by (by apply store_run).
  pose proof (stored_lookup task (set_is_scanning true) t st H0) as H1.
  unfold datetime_now at 1. cbn [bind].
  set (now := env_now env (st_clock (stored task (set_is_scanning true) t st))).
  set (st1 := tick _ (stored task (set_is_scanning true) t st)).
  change (st_heap st1 !! task = Some (set_is_scanning true t)) in H1.
  erewrite bind_run by (by apply store_run).
  pose proof (stored_lookup task (set_start_time (Some now)) _ st1 H1) as H2.
  set (st2 := stored _ _ _ st1) in *.
  destruct (scan_try_flags env task _ st2 H2 eq_refl)
    as (st3 & t3 & during & Hrun3 & H3 & Hh3 & Hall3).
  unfold try_finally. rewrite Hrun3.
  destruct (scan_finally_flags env task t3 st3 H3)
    as (st4 & after & Hrun4 & Hh4 & Hne4 & Hall4).
  rewrite Hrun4.
  exists st4, ([(task, set_is_scanning true t);
                (task, set_start_time (Some now) (set_is_scanning true t))] ++ during),
    after.
  split; [done|]. split.
  { rewrite Hh4, Hh3. simpl. by rewrite <- !app_assoc. }
  split; [done|]. split; [exact Hne4|]. split; [|exact Hall4].
  apply Forall_app. split; [|exact Hall3]. repeat constructor.
Qed.
(** ** The sweeper *)

(** The state with another registry. *)
Lemma registry_delete_run tid st :
  exists st',
    registry_delete tid st = (Ok tt, st') /\
    scan_tasks st' = delete tid (scan_tasks st) /\
    st_heap st' = st_heap st /\ st_log st' = st_log st /\
    st_clock st' = st_clock st /\ st_threads st' = st_threads st /\
    st_history st' = st_history st.
Proof. eexists. split; [reflexivity|]. simpl. auto 10. Qed.

Lemma for_each_registry_delete tids st :
  exists st',
    for_each tids registry_delete st = (Ok tt, st') /\
    scan_tasks st' = foldl (fun m tid => delete tid m) (scan_tasks st) tids /\
    st_heap st' = st_heap st /\ st_log st' = st_log st /\
    st_clock st' = st_clock st /\ st_threads st' = st_threads st /\
    st_history st' = st_history st.
Proof.
  revert st. induction tids as [|tid tids IH]; intros st.
  - exists st. simpl. auto 10.
  - destruct (registry_delete_run tid st) as (st1 & Hrun1 & Hr1 & Hh1 & Hl1 & Hc1 & Ht1 & Hy1).
    destruct (IH st1) as (st2 & Hrun2 & Hr2 & Hh2 & Hl2 & Hc2 & Ht2 & Hy2).
    exists st2. cbn [for_each]. rewrite (bind_run _ _ _ _ _ Hrun1).
    split; [exact Hrun2|]. simpl. rewrite Hr2, Hr1.
    split_and!; congruence.
Qed.

Lemma lookup_foldl_delete (m : gmap string nat) (tids : list string) (tid : string) :
  foldl (fun m tid => delete tid m) m tids !! tid =
  if decide (tid ∈ tids) then None else m !! tid.
Proof.
  revert m. induction tids as [|k tids IH]; intros m.
  - simpl. destruct (decide (tid ∈ [])) as [Hin|_]; [|done].
    by apply elem_of_nil in Hin.
  - cbn [foldl]. rewrite IH.
    destruct (decide (tid ∈ tids)) as [Hin|Hin];
      destruct (decide (tid ∈ k :: tids)) as [Hin'|Hin']; try done.
    + exfalso. apply Hin'. by right.
    + apply elem_of_cons in Hin' as [->|?]; [|done]. apply lookup_delete_eq.
    + apply lookup_delete_ne. intros ->. apply Hin'. left.
Qed.

Lemma sweep_selects current_time items acc st :
  Forall (fun item : string * nat => is_Some (st_heap st !! snd item)) items ->
  for_fold items
    (fun item tasks_to_remove =>
       task <- load (snd item) ;;
       if negb (is_scanning task)
       then
         let age := current_time - created_at task in
         if 3600 <? age
         then ret (tasks_to_remove ++ [fst item])
         else ret tasks_to_remove
       else ret tasks_to_remove)
    acc st = (Ok (acc ++ selected current_time st items), st).
Proof.
  intros Hall. revert acc. induction Hall as [|item items [t Ht] _ IH]; intros acc.
  - simpl. unfold ret. by rewrite app_nil_r.
  - cbn [for_fold]. unfold bind at 1. unfold bind at 1.
    rewrite (load_run _ _ _ Ht).
    unfold selected. simpl. rewrite Ht. unfold expired.
    fold (selected current_time st items).
    destruct (is_scanning t); simpl.
    + apply IH.
    + destruct (3600 <? current_time - created_at t); simpl.
      * rewrite IH. by rewrite <- app_assoc.
      * apply IH.
Qed.

Lemma elem_of_selected current_time st (m : gmap string nat) tid :
  tid ∈ selected current_time st (map_to_list m) <->
  exists task t, m !! tid = Some task /\ st_heap st !! task = Some t /\
                 expired current_time t = true.
Proof.
  unfold selected. rewrite list_elem_of_omap. split.
  - intros ([k task] & Hin & Hsel). apply elem_of_map_to_list in Hin.
    simpl in Hsel. destruct (st_heap st !! task) as [t|] eqn:Ht; [|done].
    destruct (expired current_time t) eqn:He; [|done]. simplify_eq.
    by exists task, t.
  - intros (task & t & Hm & Ht & He). exists (tid, task).
    split; [by apply elem_of_map_to_list|]. simpl. by rewrite Ht, He.
Qed.

Lemma expired_false current_time t :
  expired current_time t = false <->
  is_scanning t = true \/ current_time - created_at t <= 3600.
Proof.
  unfold expired. destruct (is_scanning t); simpl.
  - split; auto.
  - rewrite Z.ltb_ge. split; [auto|]. by intros [|].
Qed.

(** The outcome of one round of the sweeper. *)
Lemma cleanup_old_tasks_round_run env st :
  registry_bound st ->
  let now := env_now env (st_clock st) in
  exists st',
    cleanup_old_tasks_round env st = (Ok tt, st') /\
    st_heap st' = st_heap st /\
    st_log st' = st_log st ++ [EvNow now] /\
    st_threads st' = st_threads st /\
    forall tid,
      scan_tasks st' !! tid =
      if decide (tid ∈ selected now st (map_to_list (scan_tasks st)))
      then None else scan_tasks st !! tid.
Proof.
  intros Hbound now. unfold cleanup_old_tasks_round.
  unfold datetime_now at 1. cbn [bind]. fold now.
  set (st1 := tick (EvNow now) st).
  rewrite (bind_run get_state _ st1 st1 st1 eq_refl).
  change (scan_tasks st1) with (scan_tasks st).
  assert (Hall : Forall (fun item : string * nat => is_Some (st_heap st1 !! snd item))
                   (map_to_list (scan_tasks st))).
  { apply Forall_forall. intros [k task] Hin. apply elem_of_map_to_list in Hin.
    exact (Hbound k task Hin). }
  rewrite (bind_run _ _ _ _ _ (sweep_selects now _ [] st1 Hall)).
  destruct (for_each_registry_delete
              ([] ++ selected now st1 (map_to_list (scan_tasks st))) st1)
    as (st2 & Hrun2 & Hr2 & Hh2 & Hl2 & _ & Ht2 & _).
  exists st2. split; [exact Hrun2|]. split; [exact Hh2|]. split; [exact Hl2|].
  split; [exact Ht2|]. intros tid. rewrite Hr2. simpl.
  apply lookup_foldl_delete.
Qed.

(** X14.  One round of the sweeper removes exactly the registered tasks that
    are not scanning and were created more than 3600 seconds before the
    round's reading of the clock; a task that is scanning stays whatever its
    age, and so does one that is exactly 3600 seconds old.  The age is
    counted from the creation of the task, not from its end.  The task
    objects themselves are left alone. *)
Theorem sweep_removes_exactly_expired env st :
  registry_bound st ->
  let now := env_now env (st_clock st) in
  exists st',
    cleanup_old_tasks_round env st = (Ok tt, st') /\
    st_heap st' = st_heap st /\
    st_log st' = st_log st ++ [EvNow now] /\
    forall tid task,
      scan_tasks st' !! tid = Some task <->
      scan_tasks st !! tid = Some task /\
      exists t, st_heap st !! task = Some t /\
                (is_scanning t = true \/ now - created_at t <= 3600).
Proof.
  intros Hbound now.
  destruct (cleanup_old_tasks_round_run env st Hbound)
    as (st' & Hrun & Hheap & Hlog & _ & Hreg).
  exists st'. split; [exact Hrun|]. split; [exact Hheap|]. split; [exact Hlog|].
  intros tid task. rewrite Hreg. fold now.
  destruct (decide (tid ∈ selected now st (map_to_list (scan_tasks st))))
    as [Hin|Hout].
  - split; [done|]. intros (Hm & t & Ht & Hkeep).
    apply elem_of_selected in Hin as (task' & t' & Hm' & Ht' & He).
    assert (task' = task) as -> by congruence.
    assert (t' = t) as -> by congruence.
    apply expired_false in Hkeep. congruence.
  - split; [|by intros (Hm & _)]. intros Hm. split; [exact Hm|].
    destruct (Hbound tid task Hm) as [t Ht]. exists t. split; [exact Ht|].
    apply expired_false. destruct (expired now t) eqn:He; [|done].
    exfalso. apply Hout. apply elem_of_selected. by exists task, t.
Qed.

Lemma worker_frame_bound task evs st st' :
  worker_frame task evs st st' -> is_Some (st_heap st' !! task) ->
  registry_bound st -> registry_bound st'.
Proof.
  intros (_ & Hreg & _ & Hoth) Htask Hbound tid ref Hm. rewrite Hreg in Hm.
  destruct (decide (ref = task)) as [->|Hne]; [exact Htask|].
  rewrite (Hoth ref Hne). by eapply Hbound.
Qed.

(** X15.  The sweeper counts a task's age from its creation.  So a task
    whose scan is still running an hour after its creation is removed by the
    first round that follows the end of the scan, however recent that end
    is, and its results can no longer be fetched. *)
Theorem long_scan_is_swept_once_finished env tid task t st :
  registry_bound st ->
  scan_tasks st !! tid = Some task ->
  st_heap st !! task = Some t ->
  3600 < env_now env (st_clock (snd (scan_network_thread env tid st))) - created_at t ->
  exists reply st',
    (scan_network_thread env tid ;; cleanup_old_tasks_round env ;;
     get_task_results tid) st = (Ok reply, st') /\
    reply_code reply = 404 /\ reply_data reply = None /\
    scan_tasks st' !! tid = None.
Proof.
  intros Hbound Hid H0 Hage.
  assert (Hworker : exists st1 t1 evs,
    scan_network_thread env tid st = (Ok tt, st1) /\
    st_heap st1 !! task = Some t1 /\ is_scanning t1 = false /\
    same_identity t t1 /\ worker_frame task evs st st1).
  { destruct (scan_network_thread_enters env tid task t st Hid H0)
      as (st2 & -> & H2 & Hf2).
    destruct (scan_try_run env task _ st2 H2)
      as (st3 & t3 & evs & Hrun3 & H3 & Hi3 & _ & _ & _ & _ & Hf3).
    unfold try_finally. rewrite Hrun3.
    destruct (scan_finally_run env task t3 st3 H3)
      as (st4 & t4 & Hrun4 & H4 & Hr4 & _ & _ & Hi4 & _ & _ & _ & _ & _ & Hf4).
    rewrite Hrun4. eexists st4, t4, _. split; [done|]. split; [exact H4|].
    split; [exact Hr4|]. split; [exact (same_identity_trans _ _ _ Hi3 Hi4)|].
    eapply worker_frame_trans; [|exact Hf4].
    eapply worker_frame_trans; [exact Hf2|exact Hf3]. }
  destruct Hworker as (st1 & t1 & evs & Hrun1 & H1 & Hr1 & Hi1 & Hf1).
  rewrite Hrun1 in Hage. simpl in Hage.
  assert (Hbound1 : registry_bound st1).
  { eapply worker_frame_bound; [exact Hf1|by eexists|exact Hbound]. }
  destruct (cleanup_old_tasks_round_run env st1 Hbound1)
    as (st2 & Hrun2 & _ & _ & _ & Hreg2).
  assert (Hgone : scan_tasks st2 !! tid = None).
  { rewrite Hreg2.
    destruct (decide (tid ∈ selected (env_now env (st_clock st1)) st1
                              (map_to_list (scan_tasks st1)))) as [_|Hout]; [done|].
    exfalso. apply Hout. apply elem_of_selected. exists task, t1.
    destruct Hf1 as (_ & Hreg1 & _). rewrite Hreg1.
    split; [exact Hid|]. split; [exact H1|].
    unfold expired. rewrite Hr1. simpl.
    destruct Hi1 as (_ & _ & _ & _ & _ & Hc). rewrite Hc.
    by apply Z.ltb_lt. }
  rewrite (bind_run _ _ _ _ _ Hrun1), (bind_run _ _ _ _ _ Hrun2).
  unfold get_task_results.
  rewrite (bind_run get_state _ st2 st2 st2 eq_refl), Hgone.
  eexists _, st2. split; [reflexivity|]. simpl. auto.
Qed.

(** ** Statistics *)

Lemma count_active_run others k tasks n st :
  (forall j, keeps_registry (others j)) ->
  Forall (fun task => is_Some (st_heap st !! task)) tasks ->
  exists n' st',
    count_active others k tasks n st = (Ok n', st') /\
    n <= n' <= n + Z.of_nat (length tasks) /\
    scan_tasks st' = scan_tasks st /\
    forall ref, is_Some (st_heap st !! ref) -> is_Some (st_heap st' !! ref).
Proof.
  intros Hothers. revert k n st.
  induction tasks as [|task tasks IH]; intros k n st Hall.
  - exists n, st. simpl. split; [reflexivity|]. split; [lia|]. auto.
  - apply Forall_cons in Hall as [Htask Hall].
    destruct (Hothers k st) as (Hreg1 & Hdom1).
    destruct (Hdom1 task Htask) as [t Ht].
    cbn [count_active]. unfold meanwhile at 1. cbn [bind].
    rewrite (bind_run _ _ _ _ _ (load_run _ _ _ Ht)).
    destruct (IH (S k) (if is_scanning t then n + 1 else n) (others k st))
      as (n' & st' & Hrun & Hn & Hreg & Hdom).
    { eapply Forall_impl; [exact Hall|]. intros ref. apply Hdom1. }
    exists n', st'. split; [exact Hrun|].
    split; [cbn [length]; destruct (is_scanning t); lia|].
    split; [congruence|]. intros ref Href. apply Hdom, Hdom1, Href.
Qed.

Lemma count_completed_run others others' k tasks n st :
  (forall j, keeps_registry (others j)) ->
  (forall j, keeps_registry (others' j)) ->
  Forall (fun task => is_Some (st_heap st !! task)) tasks ->
  exists n' st',
    count_completed others others' k tasks n st = (Ok n', st') /\
    n <= n' <= n + Z.of_nat (length tasks) /\
    scan_tasks st' = scan_tasks st /\
    forall ref, is_Some (st_heap st !! ref) -> is_Some (st_heap st' !! ref).
Proof.
  intros Hothers Hothers'. revert k n st.
  induction tasks as [|task tasks IH]; intros k n st Hall.
  - exists n, st. simpl. split; [reflexivity|]. split; [lia|]. auto.
  - apply Forall_cons in Hall as [Htask Hall].
    destruct (Hothers k st) as (Hreg1 & Hdom1).
    destruct (Hdom1 task Htask) as [t Ht].
    cbn [count_completed]. unfold meanwhile at 1. cbn [bind].
    rewrite (bind_run _ _ _ _ _ (load_run _ _ _ Ht)).
    destruct (is_scanning t).
    + destruct (IH (S k) n (others k st)) as (n' & st' & Hrun & Hn & Hreg & Hdom).
      { eapply Forall_impl; [exact Hall|]. intros ref. apply Hdom1. }
      exists n', st'. split; [exact Hrun|]. split; [cbn [length]; lia|].
      split; [congruence|]. intros ref Href. apply Hdom, Hdom1, Href.
    + destruct (Hothers' k (others k st)) as (Hreg2 & Hdom2).
      destruct (Hdom2 task (Hdom1 task Htask)) as [t' Ht'].
      unfold meanwhile at 1. cbn [bind].
      rewrite (bind_run _ _ _ _ _ (load_run _ _ _ Ht')).
      destruct (IH (S k) (if truthy (end_time t') then n + 1 else n)
                  (others' k (others k st)))
        as (n' & st' & Hrun & Hn & Hreg & Hdom).
      { eapply Forall_impl; [exact Hall|]. intros ref Href.
        apply Hdom2, Hdom1, Href. }
      exists n', st'. split; [exact Hrun|].
      split; [cbn [length]; destruct (truthy (end_time t')); lia|].
      split; [congruence|]. intros ref Href. apply Hdom, Hdom2, Hdom1, Href.
Qed.

(** With no worker assigning in between, the two sums count on one state. *)
Lemma count_active_quiet k tasks n st :
  Forall (fun task => is_Some (st_heap st !! task)) tasks ->
  count_active (fun _ st => st) k tasks n st =
    (Ok (n + count_where is_scanning st tasks), st).
Proof.
  intros Hall. revert k n. unfold count_where.
  induction Hall as [|task tasks [t Ht] _ IH]; intros k n.
  - simpl. unfold ret. by rewrite Z.add_0_r.
  - cbn [count_active]. unfold meanwhile at 1. cbn [bind].
    rewrite (bind_run _ _ _ _ _ (load_run _ _ _ Ht)), IH.
    cbn [List.filter]. rewrite Ht.
    destruct (is_scanning t); cbn [length]; do 2 f_equal; lia.
Qed.

Lemma count_completed_quiet k tasks n st :
  Forall (fun task => is_Some (st_heap st !! task)) tasks ->
  count_completed (fun _ st => st) (fun _ st => st) k tasks n st =
    (Ok (n + count_where (fun task => negb (is_scanning task) && truthy (end_time task))
               st tasks), st).
Proof.
  intros Hall. revert k n. unfold count_where.
  induction Hall as [|task tasks [t Ht] _ IH]; intros k n.
  - simpl. unfold ret. by rewrite Z.add_0_r.
  - cbn [count_completed]. unfold meanwhile at 1. cbn [bind].
    rewrite (bind_run _ _ _ _ _ (load_run _ _ _ Ht)).
    cbn [List.filter]. rewrite Ht.
    destruct (is_scanning t); cbn [negb andb].
    + apply IH.
    + unfold meanwhile at 1. cbn [bind].
      rewrite (bind_run _ _ _ _ _ (load_run _ _ _ Ht)), IH.
      destruct (truthy (end_time t)); cbn [length]; do 2 f_equal; lia.
Qed.

Lemma counts_partition {A : Type} (f g : A -> bool) (l : list A) :
  (forall x, f x && g x = false) ->
  (length (List.filter f l) + length (List.filter g l) <= length l)%nat /\
  ((length (List.filter f l) + length (List.filter g l) = length l)%nat <->
   Forall (fun x => f x || g x = true) l).
Proof.
  intros Hdis. induction l as [|x l (IHle & IHeq)]; simpl.
  - split; [lia|]. split; [constructor|done].
  - specialize (Hdis x).
    destruct (f x) eqn:Hf, (g x) eqn:Hg; simpl in *; try discriminate.
    + split; [lia|]. rewrite Forall_cons, Hf, Hg, <- IHeq. simpl. split; [|lia].
      intros H. split; [done|lia].
    + split; [lia|]. rewrite Forall_cons, Hf, Hg, <- IHeq. simpl. split; [|lia].
      intros H. split; [done|lia].
    + split; [lia|]. rewrite Forall_cons, Hf, Hg. simpl. split; [lia|].
      by intros [? _].
Qed.

(** X16.  The statistics.  [get_stats] reads the number of registered tasks
    and then takes its two sums over them one after the other, while the
    workers go on assigning to their tasks.  Whatever they assign in between,
    the call answers 200, leaves the registry as it is, and each of its two
    counts lies between 0 and the number of registered tasks.  When no
    worker assigns during the call, the two counts are of disjoint tasks:
    their sum does not exceed the number of registered tasks and equals it
    exactly when no registered task is still waiting for its worker to
    start; the call then changes nothing and reads the clock once. *)
Theorem stats_counts_within_the_registry env st :
  registry_bound st ->
  (forall others, workers_only others ->
     exists reply s st',
       get_stats env others st = (Ok reply, st') /\
       reply_code reply = 200 /\ reply_data reply = Some s /\
       scan_tasks st' = scan_tasks st /\
       total_tasks s = Z.of_nat (size (scan_tasks st)) /\
       0 <= active_tasks s <= total_tasks s /\
       0 <= completed_tasks s <= total_tasks s) /\
  (exists reply s,
     get_stats env quiet st = (Ok reply, tick (EvNow (env_now env (st_clock st))) st) /\
     reply_data reply = Some s /\
     active_tasks s + completed_tasks s <= total_tasks s /\
     (active_tasks s + completed_tasks s = total_tasks s <->
      forall tid task t,
        scan_tasks st !! tid = Some task -> st_heap st !! task = Some t ->
        is_scanning t = true \/ is_Some (end_time t))).
Proof.
  intros Hbound.
  set (values := map snd (map_to_list (scan_tasks st))).
  assert (Hall : Forall (fun task => is_Some (st_heap st !! task)) values).
  { apply Forall_forall. intros task Hin. apply list_elem_of_fmap in Hin
      as ([k task'] & -> & Hin). apply elem_of_map_to_list in Hin.
    exact (Hbound k task' Hin). }
  assert (Hlen : length values = size (scan_tasks st)).
  { unfold values. rewrite length_map. apply length_map_to_list. }
  split.
  - intros others Hothers. unfold get_stats.
    rewrite (bind_run get_state _ st st st eq_refl). fold values.
    destruct (count_active_run (before_active others) 0 values 0 st)
      as (a & st1 & Hrun1 & Ha & Hreg1 & Hdom1); [intros j; apply Hothers|exact Hall|].
    rewrite (bind_run _ _ _ _ _ Hrun1).
    destruct (count_completed_run (before_completed others) (before_end_time others)
                0 values 0 st1)
      as (c & st2 & Hrun2 & Hc & Hreg2 & Hdom2);
      [intros j; apply Hothers|intros j; apply Hothers| |].
    { eapply Forall_impl; [exact Hall|]. intros ref. apply Hdom1. }
    rewrite (bind_run _ _ _ _ _ Hrun2).
    unfold datetime_now. cbn [bind ret].
    eexists _, _, _. split; [reflexivity|]. cbn [reply_code reply_data].
    split; [reflexivity|]. split; [reflexivity|].
    cbn [total_tasks active_tasks completed_tasks scan_tasks tick].
    split; [congruence|]. split; [reflexivity|]. rewrite <- Hlen. lia.
  - unfold get_stats, quiet. cbn [before_active before_completed before_end_time].
    rewrite (bind_run get_state _ st st st eq_refl). fold values.
    rewrite (bind_run _ _ _ _ _ (count_active_quiet 0 values 0 st Hall)).
    rewrite (bind_run _ _ _ _ _ (count_completed_quiet 0 values 0 st Hall)).
    unfold datetime_now. cbn [bind ret].
    eexists _, _. split; [reflexivity|]. cbn [reply_data].
    split; [reflexivity|].
    cbn [total_tasks active_tasks completed_tasks].
    unfold count_where. rewrite !Z.add_0_l.
    set (f := fun task : nat =>
                match st_heap st !! task with Some t => is_scanning t | None => false end).
    set (g := fun task : nat =>
                match st_heap st !! task with
                | Some t => negb (is_scanning t) && truthy (end_time t)
                | None => false
                end).
    assert (Hdis : forall x, f x && g x = false).
    { intros x. unfold f, g. destruct (st_heap st !! x) as [t|]; [|done].
      by destruct (is_scanning t). }
    destruct (counts_partition f g values Hdis) as (Hle & Heq).
    rewrite <- Hlen. split; [lia|]. split.
    + intros Hsum tid task t Hm Ht.
      assert (Hforall : Forall (fun x => f x || g x = true) values) by (apply Heq; lia).
      rewrite Forall_forall in Hforall.
      assert (Hin : task ∈ values).
      { apply list_elem_of_fmap. exists (tid, task).
        split; [done|]. by apply elem_of_map_to_list. }
      specialize (Hforall task Hin). unfold f, g in Hforall. rewrite Ht in Hforall.
      destruct (is_scanning t); [by left|]. right. simpl in Hforall.
      destruct (end_time t); [by eexists|done].
    + intros Hcov.
      assert (Hforall : Forall (fun x => f x || g x = true) values).
      { apply Forall_forall. intros task Hin. apply list_elem_of_fmap in Hin
          as ([k task'] & -> & Hin). apply elem_of_map_to_list in Hin. simpl.
        destruct (Hbound k task' Hin) as [t Ht].
        unfold f, g. rewrite Ht.
        destruct (Hcov k task' t Hin Ht) as [Hs|[e He]].
        - by rewrite Hs.
        - rewrite He. by destruct (is_scanning t). }
      apply Heq in Hforall. lia.
Qed.

(** ** Creation, retrieval and deletion *)

(** The outcome of a creation request that passes validation. *)
Lemma start_scan_run env data n st :
  ipaddress.ip_network (default "10.16.65.0/24" (rq_network data)) = Ok n ->
  1 <= default 7890 (rq_port data) <= 65535 ->
  let uid := env_uuid4 env (st_clock st) in
  let now := env_now env (S (st_clock st)) in
  let t := ScanTask_init uid (default "10.16.65.0/24" (rq_network data))
             (default 7890 (rq_port data)) (default 50 (rq_threads data))
             (default false (rq_check_proxy_quality data)) now in
  exists r st',
    start_scan env data st = (Ok r, st') /\
    is_success r /\ api_task_id r = Some uid /\ api_data r = Some t /\
    scan_tasks st' = <[uid := length (st_heap st)]> (scan_tasks st) /\
    st_heap st' = st_heap st ++ [t] /\
    st_threads st' = st_threads st ++ [uid] /\
    st_log st' = st_log st ++ [EvUuid4 uid; EvNow now].
Proof.
  intros Hnet [Hlo Hhi] uid now t.
  unfold start_scan, try_except, bind, lift. rewrite Hnet.
  rewrite (proj2 (Z.leb_le _ _) Hlo), (proj2 (Z.leb_le _ _) Hhi). simpl.
  unfold load. simpl. rewrite lookup_app_r by done. rewrite Nat.sub_diag. simpl.
  eexists _, _. split; [reflexivity|]. unfold is_success. simpl.
  rewrite <- app_assoc. auto 10.
Qed.

Lemma worker_progress_keeps task t st st' :
  worker_progress st st' ->
  st_heap st !! task = Some t ->
  scan_tasks st' = scan_tasks st /\
  exists t', st_heap st' !! task = Some t' /\ same_identity t t'.
Proof.
  intros Hprogress. revert t.
  induction Hprogress as [st|ev st st' _ IH|ref f t0 st st' Hf Href _ IH]; intros t Ht.
  - split; [done|]. exists t. split; [exact Ht|]. apply same_identity_refl.
  - apply (IH t Ht).
  - destruct (decide (task = ref)) as [->|Hne].
    + assert (t0 = t) as -> by congruence.
      destruct (IH (f t) (stored_lookup ref f t st Ht)) as (Hreg & t' & Ht' & Hid).
      split; [exact Hreg|]. exists t'. split; [exact Ht'|].
      eapply same_identity_trans; [|exact Hid].
      destruct (Hf t) as (?&?&?&?&?&?&_). unfold same_identity. auto 10.
    + apply IH. simpl. by rewrite list_lookup_insert_ne.
Qed.

(** X17.  A creation request that passes validation is answered "success"
    with the identifier drawn for it and a snapshot that carries that
    identifier, the request's network, port, worker count and quality flag
    (or their defaults) and the creation time.  One worker is started, for
    that identifier, and the identifiers registered before lead where they
    led.  The worker runs from then on, so the other attributes of the
    snapshot are whatever it has assigned so far; but whatever the workers
    have done since, a status request for the identifier is answered with a
    snapshot of the same identity, and a results request with status 200,
    the identifier and the quality flag of the request.  (The results and
    their number are read one after the other while the worker appends, and
    are left out here.) *)
Theorem created_task_stays_retrievable env data n st :
  ipaddress.ip_network (default "10.16.65.0/24" (rq_network data)) = Ok n ->
  1 <= default 7890 (rq_port data) <= 65535 ->
  let uid := env_uuid4 env (st_clock st) in
  let t0 := ScanTask_init uid (default "10.16.65.0/24" (rq_network data))
              (default 7890 (rq_port data)) (default 50 (rq_threads data))
              (default false (rq_check_proxy_quality data))
              (env_now env (S (st_clock st))) in
  exists r st' t,
    start_scan env data st = (Ok r, st') /\
    is_success r /\ api_task_id r = Some uid /\
    api_data r = Some t /\ same_identity t0 t /\
    st_threads st' = st_threads st ++ [uid] /\
    (forall tid, tid <> uid -> scan_tasks st' !! tid = scan_tasks st !! tid) /\
    forall st'', worker_progress st' st'' ->
      exists r' t' reply d,
        get_task_status uid st'' = (Ok r', st'') /\
        is_success r' /\ api_data r' = Some t' /\ same_identity t0 t' /\
        get_task_results uid st'' = (Ok reply, st'') /\
        reply_code reply = 200 /\ reply_data reply = Some d /\
        tr_task_id d = uid /\
        tr_check_proxy_quality d = default false (rq_check_proxy_quality data).
Proof.
  intros Hnet Hport uid t0.
  destruct (start_scan_run env data n st Hnet Hport)
    as (r & st' & Hrun & Hok & Hid & Hdata & Hreg & Hheap & Hthr & _).
  fold uid in Hid, Hreg, Hthr. fold t0 in Hdata, Hheap.
  assert (Hm : scan_tasks st' !! uid = Some (length (st_heap st)))
    by (rewrite Hreg; apply lookup_insert_eq).
  assert (Ht : st_heap st' !! length (st_heap st) = Some t0).
  { rewrite Hheap, lookup_app_r by done. by rewrite Nat.sub_diag. }
  exists r, st', t0. split; [exact Hrun|]. split; [exact Hok|]. split; [exact Hid|].
  split; [exact Hdata|]. split; [apply same_identity_refl|]. split; [exact Hthr|].
  split.
  { intros tid Hne. rewrite Hreg. by apply lookup_insert_ne. }
  intros st'' Hprogress.
  destruct (worker_progress_keeps _ t0 st' st'' Hprogress Ht)
    as (Hreg'' & t' & Ht' & Hsame).
  assert (Hm'' : scan_tasks st'' !! uid = Some (length (st_heap st)))
    by (by rewrite Hreg'').
  eexists _, t', _, _. split.
  { unfold get_task_status.
    rewrite (bind_run get_state _ st'' st'' st'' eq_refl), Hm''.
    rewrite (bind_run _ _ _ _ _ (load_run _ _ _ Ht')). reflexivity. }
  split; [by split|]. split; [reflexivity|]. split; [exact Hsame|]. split.
  { unfold get_task_results.
    rewrite (bind_run get_state _ st'' st'' st'' eq_refl), Hm''.
    rewrite (bind_run _ _ _ _ _ (load_run _ _ _ Ht')). reflexivity. }
  split; [reflexivity|]. split; [reflexivity|].
  cbn [tr_task_id tr_check_proxy_quality].
  split; [reflexivity|].
  destruct Hsame as (_ & _ & _ & _ & Hc & _). by rewrite Hc.
Qed.

Lemma worker_progress_trans st st' st'' :
  worker_progress st st' -> worker_progress st' st'' -> worker_progress st st''.
Proof.
  induction 1 as [st|ev st st' _ IH|ref f t st st' Hf Href _ IH]; intros H2.
  - exact H2.
  - apply (progress_tick ev). by apply IH.
  - apply (progress_store ref f t); [exact Hf|exact Href|]. by apply IH.
Qed.

(** A run of a worker is progress of that kind. *)
Lemma worker_run_is_progress env tid st :
  worker_progress st (snd (scan_network_thread env tid st)).
Proof.
  apply (preserves_scan_network_thread (worker_progress st)).
  - intros ev s H. eapply worker_progress_trans; [exact H|].
    apply (progress_tick ev), progress_none.
  - intros ref f s t Hf Ht H. rewrite (store_run ref f t s Ht).
    eapply worker_progress_trans; [exact H|].
    apply (progress_store ref f t); [exact Hf|exact Ht|apply progress_none].
  - apply progress_none.
Qed.

(** ** A deletion while the worker starts *)

Lemma scan_network_thread_scan_task env tid task st :
  scan_tasks st !! tid = Some task ->
  scan_network_thread env tid st = scan_task env task st.
Proof.
  intros Hid. unfold scan_network_thread.
  by rewrite (bind_run get_state _ st st st eq_refl), Hid.
Qed.

(** The run of a worker that holds its task object, whether the task is
    still registered or not. *)
Lemma scan_task_run env task t n st :
  st_heap st !! task = Some t ->
  ipaddress.ip_network (network t) = Ok n ->
  exists st' t' evs,
    scan_task env task st = (Ok tt, st') /\
    st_heap st' !! task = Some t' /\
    total t' = ipaddress.num_addresses n /\
    terminal t' /\
    (0 < threads t ->
     scanned t' = scanned t + Z.of_nat (length (ipaddress.hosts n))) /\
    worker_frame task evs st st'.
Proof.
  intros H0 Hnet. unfold scan_task.
  erewrite bind_run by (by apply store_run).
  pose proof (stored_lookup task (set_is_scanning true) t st H0) as H1.
  unfold datetime_now at 1. cbn [bind].
  set (now := env_now env (st_clock (stored task (set_is_scanning true) t st))).
  set (st1 := tick _ (stored task (set_is_scanning true) t st)).
  change (st_heap st1 !! task = Some (set_is_scanning true t)) in H1.
  erewrite bind_run by (by apply store_run).
  pose proof (stored_lookup task (set_start_time (Some now)) _ st1 H1) as H2.
  set (t2 := set_start_time (Some now) (set_is_scanning true t)) in *.
  set (st2 := stored _ _ _ st1) in *.
  assert (Hf2 : worker_frame task [EvNow now] st st2).
  { apply (worker_frame_trans task [EvNow now] [] st st1);
      [|apply worker_frame_stored].
    apply (worker_frame_trans task [] [EvNow now] st
             (stored task (set_is_scanning true) t st));
      [apply worker_frame_stored|apply worker_frame_tick]. }
  unfold try_finally, try_except.
  destruct (Z_lt_le_dec 0 (threads t)) as [Hthreads|Hthreads].
  - destruct (scan_body_run env task t2 n st2 H2 Hnet Hthreads)
      as (futures & evs & st3 & t3 & Hrun3 & H3 & _ & _ & Htot & Hsc & _ & _ & _ & _ &
          _ & _ & Hf3 & _).
    rewrite Hrun3.
    destruct (scan_finally_run env task t3 st3 H3)
      as (st4 & t4 & Hrun4 & H4 & Hr4 & He4 & _ & _ & Hs4 & Htot4 & _ & _ & _ & Hf4).
    rewrite Hrun4. eexists st4, t4, _. split; [reflexivity|]. split; [exact H4|].
    split; [by rewrite Htot4|]. split; [split; [exact Hr4|by rewrite He4]|].
    split; [intros _; by rewrite Hs4, Hsc|].
    eapply worker_frame_trans; [|exact Hf4].
    eapply worker_frame_trans; [exact Hf2|exact Hf3].
  - rewrite (scan_body_no_workers env task t2 n st2 H2 Hnet Hthreads).
    pose proof (stored_lookup task (set_total (ipaddress.num_addresses n)) t2 st2 H2)
      as H3.
    set (st3 := stored _ _ _ st2) in *.
    rewrite (store_run task _ _ st3 H3).
    pose proof (stored_lookup task
                  (set_error (Some (str_exn (ValueError "max_workers must be greater than 0"))))
                  _ st3 H3) as H4.
    set (st4 := stored _ _ _ st3) in *.
    destruct (scan_finally_run env task _ st4 H4)
      as (st5 & t5 & Hrun5 & H5 & Hr5 & He5 & _ & _ & _ & Htot5 & _ & _ & _ & Hf5).
    rewrite Hrun5. eexists st5, t5, _. split; [reflexivity|]. split; [exact H5|].
    split; [by rewrite Htot5|]. split; [split; [exact Hr5|by rewrite He5]|].
    split; [intros Hpos; lia|].
    eapply worker_frame_trans; [|exact Hf5].
    eapply worker_frame_trans; [exact Hf2|].
    eapply worker_frame_trans; apply worker_frame_stored.
Qed.

(** X18.  A task is not marked as scanning until its worker's first
    assignment, so a deletion that arrives between the creation and that
    assignment succeeds.  The worker of a registered task is its lookup
    followed by [scan_task] on the object it found.  If the deletion arrives
    before the lookup, the worker finds nothing under its identifier and
    returns without probing anything.  If it arrives after the lookup, the
    worker still holds the task object: it scans the block to the end (every host
    when at least one worker is asked for) on a task that is no longer
    registered, so what it finds can never be fetched. *)
Theorem deletion_while_the_worker_starts env data n st :
  ipaddress.ip_network (default "10.16.65.0/24" (rq_network data)) = Ok n ->
  1 <= default 7890 (rq_port data) <= 65535 ->
  let uid := env_uuid4 env (st_clock st) in
  let task := length (st_heap st) in
  exists r st1 r' st2,
    start_scan env data st = (Ok r, st1) /\ api_task_id r = Some uid /\
    scan_tasks st1 !! uid = Some task /\
    scan_network_thread env uid st1 = scan_task env task st1 /\
    delete_task uid st1 = (Ok r', st2) /\ is_success r' /\
    scan_network_thread env uid st2 = (Ok tt, st2) /\
    exists st3 t3,
      scan_task env task st2 = (Ok tt, st3) /\
      st_heap st3 !! task = Some t3 /\
      total t3 = ipaddress.num_addresses n /\ terminal t3 /\
      (0 < default 50 (rq_threads data) ->
       scanned t3 = Z.of_nat (length (ipaddress.hosts n))) /\
      exists r'' reply,
        get_task_status uid st3 = (Ok r'', st3) /\ is_not_found r'' /\
        get_task_results uid st3 = (Ok reply, st3) /\ reply_code reply = 404.
Proof.
  intros Hnet Hport uid task.
  destruct (start_scan_run env data n st Hnet Hport)
    as (r & st1 & Hrun & _ & Hid & _ & Hreg & Hheap & _).
  fold uid in Hid, Hreg.
  assert (Hm : scan_tasks st1 !! uid = Some task)
    by (rewrite Hreg; apply lookup_insert_eq).
  set (t0 := ScanTask_init uid (default "10.16.65.0/24" (rq_network data))
               (default 7890 (rq_port data)) (default 50 (rq_threads data))
               (default false (rq_check_proxy_quality data))
               (env_now env (S (st_clock st)))) in *.
  assert (Ht : st_heap st1 !! task = Some t0).
  { rewrite Hheap. unfold task. rewrite lookup_app_r by done.
    by rewrite Nat.sub_diag. }
  destruct (registry_delete_run uid st1) as (st2 & Hrun2 & Hreg2 & Hheap2 & _).
  assert (Hgone : scan_tasks st2 !! uid = None)
    by (rewrite Hreg2; apply lookup_delete_eq).
  exists r, st1. eexists _, st2.
  split; [exact Hrun|]. split; [exact Hid|]. split; [exact Hm|].
  split; [exact (scan_network_thread_scan_task env uid task st1 Hm)|]. split.
  { unfold delete_task.
    rewrite (bind_run get_state _ st1 st1 st1 eq_refl), Hm.
    rewrite (bind_run _ _ _ _ _ (load_run _ _ _ Ht)). cbn [is_scanning ScanTask_init t0].
    rewrite (bind_run _ _ _ _ _ Hrun2). reflexivity. }
  split; [by split|]. split.
  { unfold scan_network_thread.
    by rewrite (bind_run get_state _ st2 st2 st2 eq_refl), Hgone. }
  assert (Ht2 : st_heap st2 !! task = Some t0) by (by rewrite Hheap2).
  destruct (scan_task_run env task t0 n st2 Ht2 Hnet)
    as (st3 & t3 & evs & Hrun3 & H3 & Htot & Hterm & Hsc & Hf3).
  exists st3, t3. split; [exact Hrun3|]. split; [exact H3|]. split; [exact Htot|].
  split; [exact Hterm|]. split.
  { intros Hpos. rewrite (Hsc Hpos). simpl. lia. }
  assert (Hgone3 : scan_tasks st3 !! uid = None).
  { destruct Hf3 as (_ & Hreg3 & _). by rewrite Hreg3. }
  eexists _, _. split.
  { unfold get_task_status.
    rewrite (bind_run get_state _ st3 st3 st3 eq_refl), Hgone3. reflexivity. }
  split; [by split|]. split.
  { unfold get_task_results.
    rewrite (bind_run get_state _ st3 st3 st3 eq_refl), Hgone3. reflexivity. }
  reflexivity.
Qed.

(** X19.  The [total] of the results endpoint is the number of results, not
    the [total] of the task: once a worker has scanned a fresh task, the
    results endpoint reports the task as no longer scanning, returns its
    results and counts them, and that count is at most the number of hosts
    of the block, while the task's own [total] is the number of addresses. *)
Theorem results_total_counts_open_hosts env tid task t n st :
  scan_tasks st !! tid = Some task ->
  st_heap st !! task = Some t ->
  ipaddress.ip_network (network t) = Ok n ->
  0 < threads t ->
  results t = [] ->
  exists st' t' reply d,
    scan_network_thread env tid st = (Ok tt, st') /\
    st_heap st' !! task = Some t' /\
    get_task_results tid st' = (Ok reply, st') /\
    reply_code reply = 200 /\ reply_data reply = Some d /\
    tr_results d = results t' /\ tr_is_scanning d = false /\
    tr_total d = Z.of_nat (length (results t')) /\
    tr_total d <= Z.of_nat (length (ipaddress.hosts n)) /\
    total t' = ipaddress.num_addresses n.
Proof.
  intros Hid H0 Hnet Hthreads Hfresh.
  destruct (scan_network_thread_enters env tid task t st Hid H0)
    as (st2 & Henter & H2 & Hf2).
  destruct (scan_body_run env task _ n st2 H2 Hnet Hthreads)
    as (futures & evs & st3 & t3 & Hrun3 & H3 & Hall & Hres & Htot & _ & _ & _ &
        _ & _ & _ & _ & Hf3 & _).
  destruct (scan_finally_run env task t3 st3 H3)
    as (st4 & t4 & Hrun4 & H4 & Hr4 & _ & Hres4 & _ & _ & Htot4 & _ & _ & _ & Hf4).
  assert (Hrun : scan_network_thread env tid st = (Ok tt, st4)).
  { rewrite Henter. unfold try_finally, try_except. by rewrite Hrun3, Hrun4. }
  assert (Hm : scan_tasks st4 !! tid = Some task).
  { destruct Hf2 as (_ & Hr2 & _), Hf3 as (_ & Hr3 & _), Hf4 as (_ & Hr & _).
    by rewrite Hr, Hr3, Hr2. }
  assert (Hlen : (length (results t4) <= length (ipaddress.hosts n))%nat).
  { destruct (probe_of_results _ _ _ _ Hall) as (Hsub & _).
    apply sublist_length in Hsub. rewrite !length_map in Hsub.
    assert (Hperm : Permutation (results t4) (omap id futures)).
    { rewrite Hres4, Hres. simpl. rewrite Hfresh. simpl.
      destruct (check_proxy_quality t3); [apply py_sorted_perm|done]. }
    by rewrite (Permutation_length Hperm). }
  exists st4, t4. eexists _, _. split; [exact Hrun|]. split; [exact H4|].
  split.
  { unfold get_task_results.
    rewrite (bind_run get_state _ st4 st4 st4 eq_refl), Hm.
    rewrite (bind_run _ _ _ _ _ (load_run _ _ _ H4)). reflexivity. }
  split; [reflexivity|]. split; [reflexivity|]. split; [reflexivity|].
  split; [exact Hr4|]. split; [reflexivity|].
  split; [simpl; lia|by rewrite Htot4].
Qed.


(** X20.  However many rounds the sweeper runs, it never removes a task that
    is scanning and never touches a task object. *)
Theorem sweeper_never_removes_scanning_task env rounds tid task t st :
  registry_bound st ->
  scan_tasks st !! tid = Some task ->
  st_heap st !! task = Some t ->
  is_scanning t = true ->
  exists st',
    cleanup_old_tasks env rounds st = (Ok tt, st') /\
    scan_tasks st' !! tid = Some task /\
    st_heap st' = st_heap st.
Proof.
  revert st. induction rounds as [|rounds IH]; intros st Hbound Hid H0 Hscan.
  - exists st. by split_and!.
  - destruct (cleanup_old_tasks_round_run env st Hbound)
      as (st1 & Hrun1 & Hheap1 & _ & _ & Hreg1).
    assert (Hid1 : scan_tasks st1 !! tid = Some task).
    { rewrite Hreg1.
      destruct (decide (tid ∈ selected (env_now env (st_clock st)) st
                                (map_to_list (scan_tasks st)))) as [Hin|_]; [|done].
      apply elem_of_selected in Hin as (task' & t' & Hm' & Ht' & He).
      assert (task' = task) as -> by congruence.
      assert (t' = t) as -> by congruence.
      unfold expired in He. by rewrite Hscan in He. }
    assert (Hbound1 : registry_bound st1).
    { intros k ref Hm. rewrite Hheap1. rewrite Hreg1 in Hm.
      destruct (decide (k ∈ selected (env_now env (st_clock st)) st
                              (map_to_list (scan_tasks st)))); [done|].
      by eapply Hbound. }
    destruct (IH st1 Hbound1 Hid1) as (st2 & Hrun2 & Hid2 & Hheap2);
      [by rewrite Hheap1|exact Hscan|].
    exists st2. cbn [cleanup_old_tasks]. rewrite (bind_run _ _ _ _ _ Hrun1).
    split; [exact Hrun2|]. split; [exact Hid2|]. by rewrite Hheap2.
Qed.

(** ** The further properties on the scenarios *)

Lemma registry_bound_singleton st tid ref :
  scan_tasks st = {[tid := ref]} -> is_Some (st_heap st !! ref) -> registry_bound st.
Proof.
  intros Hreg Href k task Hk. rewrite Hreg in Hk.
  apply lookup_singleton_Some in Hk as [_ <-]. exact Href.
Qed.

Lemma registry_bound_created : registry_bound Scenario.created_state.
Proof.
  apply (registry_bound_singleton _ "task-1" 0%nat); 
    [vm_compute; reflexivity|vm_compute; eexists; reflexivity].
Qed.

Lemma registry_bound_running : registry_bound Scenario.running_state.
Proof.
  apply (registry_bound_singleton _ "task-1" 0%nat); 
    [vm_compute; reflexivity|vm_compute; eexists; reflexivity].
Qed.

Lemma registry_bound_finished : registry_bound Scenario.finished_state.
Proof.
  apply (registry_bound_singleton _ "task-1" 0%nat); 
    [vm_compute; reflexivity|vm_compute; eexists; reflexivity].
Qed.

Lemma registry_bound_slow : registry_bound Cases.slow_state.
Proof.
  apply (registry_bound_singleton _ "task-1" 0%nat); 
    [vm_compute; reflexivity|vm_compute; eexists; reflexivity].
Qed.

Lemma worker_always_finishes_witness :
  (scan_tasks Scenario.created_state !! "task-1" = Some 0%nat /\
   st_heap Scenario.created_state !! 0%nat = Some Scenario.closed_task) /\
  exists st' t' evs,
    scan_network_thread Scenario.two_hosts_env "task-1" Scenario.created_state =
      (Ok tt, st') /\
    st_heap st' !! 0%nat = Some t' /\
    is_scanning t' = false /\
    start_time t' =
      Some (env_now Scenario.two_hosts_env (st_clock Scenario.created_state)) /\
    is_Some (end_time t') /\
    same_identity Scenario.closed_task t' /\
    scanned Scenario.closed_task <= scanned t' /\
    worker_frame 0 evs Scenario.created_state st'.
Proof.
  split; [split; vm_compute; reflexivity|].
  apply (worker_always_finishes Scenario.two_hosts_env "task-1" 0%nat
           Scenario.closed_task Scenario.created_state);
    vm_compute; reflexivity.
Defined.

Lemma no_worker_scan_fails_without_probing_witness :
  (scan_tasks Cases.no_workers_state !! "task-1" = Some 0%nat /\
   st_heap Cases.no_workers_state !! 0%nat = Some Cases.no_workers_task /\
   ipaddress.ip_network (network Cases.no_workers_task) = Ok Scenario.slash30 /\
   threads Cases.no_workers_task <= 0) /\
  exists st' t' now now',
    scan_network_thread Scenario.two_hosts_env "task-1" Cases.no_workers_state =
      (Ok tt, st') /\
    st_heap st' !! 0%nat = Some t' /\
    error t' = Some "max_workers must be greater than 0" /\
    total t' = ipaddress.num_addresses Scenario.slash30 /\
    scanned t' = scanned Cases.no_workers_task /\
    progress t' = progress Cases.no_workers_task /\
    Permutation (results t') (results Cases.no_workers_task) /\
    terminal t' /\
    st_log st' = st_log Cases.no_workers_state ++ [EvNow now; EvNow now'].
Proof.
  split; [split_and!; vm_compute; (reflexivity || discriminate)|].
  apply (no_worker_scan_fails_without_probing Scenario.two_hosts_env "task-1" 0%nat
           Cases.no_workers_task Scenario.slash30 Cases.no_workers_state);
    vm_compute; (reflexivity || discriminate).
Defined.

Lemma worker_connects_only_to_hosts_witness :
  (scan_tasks Scenario.created_state !! "task-1" = Some 0%nat /\
   st_heap Scenario.created_state !! 0%nat = Some Scenario.closed_task /\
   ipaddress.ip_network (network Scenario.closed_task) = Ok Scenario.slash30) /\
  exists st' evs,
    scan_network_thread Scenario.two_hosts_env "task-1" Scenario.created_state =
      (Ok tt, st') /\
    st_log st' = st_log Scenario.created_state ++ evs /\
    connect_targets evs ⊆+
      map (target_of (port Scenario.closed_task)) (ipaddress.hosts Scenario.slash30).
Proof.
  split; [split_and!; vm_compute; reflexivity|].
  apply (worker_connects_only_to_hosts Scenario.two_hosts_env "task-1" 0%nat
           Scenario.closed_task Scenario.slash30 Scenario.created_state);
    vm_compute; reflexivity.
Defined.


Lemma quality_results_end_sorted_witness :
  (scan_tasks Cases.quality_state !! "task-1" = Some 0%nat /\
   st_heap Cases.quality_state !! 0%nat = Some Cases.quality_task /\
   check_proxy_quality Cases.quality_task = true) /\
  exists st' t',
    scan_network_thread Scenario.two_hosts_env "task-1" Cases.quality_state =
      (Ok tt, st') /\
    st_heap st' !! 0%nat = Some t' /\
    StronglySorted (in_order get_quality_score true) (results t').
Proof.
  split; [split_and!; vm_compute; reflexivity|].
  apply (quality_results_end_sorted Scenario.two_hosts_env "task-1" 0%nat
           Cases.quality_task Cases.quality_state);
    vm_compute; reflexivity.
Defined.

Lemma final_sort_is_stable_witness :
  st_heap Cases.unsorted_state !! 0%nat = Some Cases.unsorted_task /\
  exists st' t',
    scan_finally Scenario.two_hosts_env 0 Cases.unsorted_state = (Ok tt, st') /\
    st_heap st' !! 0%nat = Some t' /\
    Permutation (results t') (results Cases.unsorted_task) /\
    forall k,
      filter (fun r => get_quality_score r = k) (results t') =
      filter (fun r => get_quality_score r = k) (results Cases.unsorted_task).
Proof.
  split; [vm_compute; reflexivity|].
  apply (final_sort_is_stable Scenario.two_hosts_env 0%nat Cases.unsorted_task
           Cases.unsorted_state).
  vm_compute; reflexivity.
Defined.

Lemma sweep_removes_exactly_expired_witness :
  registry_bound Scenario.finished_state /\
  (let now := env_now Scenario.closed_env (st_clock Scenario.finished_state) in
   exists st',
     cleanup_old_tasks_round Scenario.closed_env Scenario.finished_state = (Ok tt, st') /\
     st_heap st' = st_heap Scenario.finished_state /\
     st_log st' = st_log Scenario.finished_state ++ [EvNow now] /\
     forall tid task,
       scan_tasks st' !! tid = Some task <->
       scan_tasks Scenario.finished_state !! tid = Some task /\
       exists t, st_heap Scenario.finished_state !! task = Some t /\
                 (is_scanning t = true \/ now - created_at t <= 3600)).
Proof.
  split; [exact registry_bound_finished|].
  exact (sweep_removes_exactly_expired Scenario.closed_env Scenario.finished_state
           registry_bound_finished).
Defined.

Lemma long_scan_is_swept_once_finished_witness :
  (scan_tasks Cases.slow_state !! "task-1" = Some 0%nat /\
   st_heap Cases.slow_state !! 0%nat = Some Cases.slow_task /\
   3600 < env_now Cases.slow_env
            (st_clock (snd (scan_network_thread Cases.slow_env "task-1"
                              Cases.slow_state))) -
          created_at Cases.slow_task) /\
  exists reply st',
    (scan_network_thread Cases.slow_env "task-1" ;;
     cleanup_old_tasks_round Cases.slow_env ;;
     get_task_results "task-1") Cases.slow_state = (Ok reply, st') /\
    reply_code reply = 404 /\ reply_data reply = None /\
    scan_tasks st' !! "task-1" = None.
Proof.
  split; [split_and!; vm_compute; reflexivity|].
  apply (long_scan_is_swept_once_finished Cases.slow_env "task-1" 0%nat
           Cases.slow_task Cases.slow_state registry_bound_slow);
    vm_compute; reflexivity.
Defined.

Lemma scan_finally_keeps_registry env task :
  keeps_registry (fun st => snd (scan_finally env task st)).
Proof.
  intros st.
  set (J := fun s : State =>
    scan_tasks s = scan_tasks st /\
    forall ref, is_Some (st_heap st !! ref) -> is_Some (st_heap s !! ref)).
  assert (J_tick : forall ev s, J s -> J (tick ev s)) by (intros ev s H; exact H).
  assert (J_store : forall ref f s t,
    worker_update f -> st_heap s !! ref = Some t -> J s -> J (snd (store ref f s))).
  { intros ref f s t _ Ht (Hreg & Hdom). rewrite (store_run ref f t s Ht).
    split; [exact Hreg|]. intros r Hr. simpl.
    destruct (decide (r = ref)) as [->|Hne].
    - rewrite list_lookup_insert_eq by (by eapply lookup_lt_Some). by eexists.
    - rewrite list_lookup_insert_ne by done. by apply Hdom. }
  apply (preserves_scan_finally J J_tick J_store env task st). by split.
Qed.

Lemma workers_only_finishing : workers_only Cases.finishing.
Proof.
  intros k. split; [by intros st|]. split; [|by intros st].
  destruct k as [|k]; [apply scan_finally_keeps_registry|by intros st].
Qed.

(** While the only task is scanning, its worker runs its [finally] block
    between the two sums: the task is counted as active and as completed. *)
Lemma stats_counts_within_the_registry_witness :
  registry_bound Scenario.running_state /\
  exists reply s st',
    get_stats Scenario.closed_env Cases.finishing Scenario.running_state =
      (Ok reply, st') /\
    reply_data reply = Some s /\
    total_tasks s = 1 /\ active_tasks s = 1 /\ completed_tasks s = 1 /\
    0 <= active_tasks s <= total_tasks s /\
    0 <= completed_tasks s <= total_tasks s.
Proof.
  split; [exact registry_bound_running|].
  destruct (stats_counts_within_the_registry Scenario.closed_env Scenario.running_state
              registry_bound_running) as (Hany & _).
  destruct (Hany Cases.finishing workers_only_finishing)
    as (reply & s & st' & Hrun & _ & Hdata & _ & _ & Ha & Hc).
  exists reply, s, st'. split; [exact Hrun|]. split; [exact Hdata|].
  assert (Hfacts : total_tasks s = 1 /\ active_tasks s = 1 /\ completed_tasks s = 1).
  { vm_compute in Hrun. injection Hrun as <- _. injection Hdata as <-.
    vm_compute. auto. }
  destruct Hfacts as (H1 & H2 & H3).
  split; [exact H1|]. split; [exact H2|]. split; [exact H3|].
  split; [exact Ha|exact Hc].
Defined.

Lemma created_task_stays_retrievable_witness :
  (ipaddress.ip_network
     (default "10.16.65.0/24" (rq_network Scenario.closed_request)) =
     Ok Scenario.slash30 /\
   1 <= default 7890 (rq_port Scenario.closed_request) <= 65535) /\
  (let uid := env_uuid4 Scenario.closed_env (st_clock init_state) in
   let t0 := ScanTask_init uid
               (default "10.16.65.0/24" (rq_network Scenario.closed_request))
               (default 7890 (rq_port Scenario.closed_request))
               (default 50 (rq_threads Scenario.closed_request))
               (default false (rq_check_proxy_quality Scenario.closed_request))
               (env_now Scenario.closed_env (S (st_clock init_state))) in
   exists r st' t,
     start_scan Scenario.closed_env Scenario.closed_request init_state = (Ok r, st') /\
     is_success r /\ api_task_id r = Some uid /\
     api_data r = Some t /\ same_identity t0 t /\
     st_threads st' = st_threads init_state ++ [uid] /\
     (forall tid, tid <> uid -> scan_tasks st' !! tid = scan_tasks init_state !! tid) /\
     forall st'', worker_progress st' st'' ->
       exists r' t' reply d,
         get_task_status uid st'' = (Ok r', st'') /\
         is_success r' /\ api_data r' = Some t' /\ same_identity t0 t' /\
         get_task_results uid st'' = (Ok reply, st'') /\
         reply_code reply = 200 /\ reply_data reply = Some d /\
         tr_task_id d = uid /\
         tr_check_proxy_quality d =
           default false (rq_check_proxy_quality Scenario.closed_request)).
Proof.
  split; [split; [vm_compute; reflexivity|simpl; lia]|].
  apply (created_task_stays_retrievable Scenario.closed_env Scenario.closed_request
           Scenario.slash30 init_state); [vm_compute; reflexivity|simpl; lia].
Defined.

Lemma deletion_while_the_worker_starts_witness :
  (ipaddress.ip_network
     (default "10.16.65.0/24" (rq_network Scenario.closed_request)) =
     Ok Scenario.slash30 /\
   1 <= default 7890 (rq_port Scenario.closed_request) <= 65535) /\
  (let uid := env_uuid4 Scenario.two_hosts_env (st_clock init_state) in
   let task := length (st_heap init_state) in
   exists r st1 r' st2,
     start_scan Scenario.two_hosts_env Scenario.closed_request init_state =
       (Ok r, st1) /\
     api_task_id r = Some uid /\
     scan_tasks st1 !! uid = Some task /\
     scan_network_thread Scenario.two_hosts_env uid st1 =
       scan_task Scenario.two_hosts_env task st1 /\
     delete_task uid st1 = (Ok r', st2) /\ is_success r' /\
     scan_network_thread Scenario.two_hosts_env uid st2 = (Ok tt, st2) /\
     exists st3 t3,
       scan_task Scenario.two_hosts_env task st2 = (Ok tt, st3) /\
       st_heap st3 !! task = Some t3 /\
       total t3 = ipaddress.num_addresses Scenario.slash30 /\ terminal t3 /\
       (0 < default 50 (rq_threads Scenario.closed_request) ->
        scanned t3 = Z.of_nat (length (ipaddress.hosts Scenario.slash30))) /\
       exists r'' reply,
         get_task_status uid st3 = (Ok r'', st3) /\ is_not_found r'' /\
         get_task_results uid st3 = (Ok reply, st3) /\ reply_code reply = 404).
Proof.
  split; [split; [vm_compute; reflexivity|simpl; lia]|].
  apply (deletion_while_the_worker_starts Scenario.two_hosts_env
           Scenario.closed_request Scenario.slash30 init_state);
    [vm_compute; reflexivity|simpl; lia].
Defined.

Lemma results_total_counts_open_hosts_witness :
  (scan_tasks Scenario.created_state !! "task-1" = Some 0%nat /\
   st_heap Scenario.created_state !! 0%nat = Some Scenario.closed_task /\
   ipaddress.ip_network (network Scenario.closed_task) = Ok Scenario.slash30 /\
   0 < threads Scenario.closed_task /\
   results Scenario.closed_task = []) /\
  exists st' t' reply d,
    scan_network_thread Scenario.two_hosts_env "task-1" Scenario.created_state =
      (Ok tt, st') /\
    st_heap st' !! 0%nat = Some t' /\
    get_task_results "task-1" st' = (Ok reply, st') /\
    reply_code reply = 200 /\ reply_data reply = Some d /\
    tr_results d = results t' /\ tr_is_scanning d = false /\
    tr_total d = Z.of_nat (length (results t')) /\
    tr_total d <= Z.of_nat (length (ipaddress.hosts Scenario.slash30)) /\
    total t' = ipaddress.num_addresses Scenario.slash30.
Proof.
  split; [split_and!; vm_compute; reflexivity|].
  apply (results_total_counts_open_hosts Scenario.two_hosts_env "task-1" 0%nat
           Scenario.closed_task Scenario.slash30 Scenario.created_state);
    vm_compute; reflexivity.
Defined.

Lemma sweeper_never_removes_scanning_task_witness :
  (scan_tasks Scenario.running_state !! "task-1" = Some 0%nat /\
   st_heap Scenario.running_state !! 0%nat = Some Scenario.running_task /\
   is_scanning Scenario.running_task = true) /\
  exists st',
    cleanup_old_tasks Cases.slow_env 3 Scenario.running_state = (Ok tt, st') /\
    scan_tasks st' !! "task-1" = Some 0%nat /\
    st_heap st' = st_heap Scenario.running_state.
Proof.
  split; [split_and!; vm_compute; reflexivity|].
  apply (sweeper_never_removes_scanning_task Cases.slow_env 3 "task-1" 0%nat
           Scenario.running_task Scenario.running_state registry_bound_running);
    vm_compute; reflexivity.
Defined.

Lemma worker_requests_go_through_hosts_witness :
  (scan_tasks Cases.quality_state !! "task-1" = Some 0%nat /\
   st_heap Cases.quality_state !! 0%nat = Some Cases.quality_task /\
   ipaddress.ip_network (network Cases.quality_task) = Ok Scenario.slash30) /\
  exists st' evs,
    scan_network_thread Scenario.two_hosts_env "task-1" Cases.quality_state =
      (Ok tt, st') /\
    st_log st' = st_log Cases.quality_state ++ evs /\
    Forall (fun req => exists ip,
              ip ∈ ipaddress.hosts Scenario.slash30 /\
              through_candidate (ipaddress.str_address ip)
                (port Cases.quality_task) 8 req)
      (requests_of evs) /\
    (length (requests_of evs) <= 10 * length (ipaddress.hosts Scenario.slash30))%nat /\
    (check_proxy_quality Cases.quality_task = false -> requests_of evs = []).
Proof.
  split; [split_and!; vm_compute; reflexivity|].
  apply (worker_requests_go_through_hosts Scenario.two_hosts_env "task-1" 0%nat
           Cases.quality_task Scenario.slash30 Cases.quality_state);
    vm_compute; reflexivity.
Defined.

Lemma scanning_flag_rises_and_falls_once_witness :
  (scan_tasks Scenario.created_state !! "task-1" = Some 0%nat /\
   st_heap Scenario.created_state !! 0%nat = Some Scenario.closed_task) /\
  exists st' during after,
    scan_network_thread Scenario.two_hosts_env "task-1" Scenario.created_state =
      (Ok tt, st') /\
    st_history st' = st_history Scenario.created_state ++ during ++ after /\
    during <> [] /\ after <> [] /\
    Forall (fun entry : nat * ScanTask =>
              fst entry = 0%nat /\ is_scanning (snd entry) = true) during /\
    Forall (fun entry : nat * ScanTask =>
              fst entry = 0%nat /\ is_scanning (snd entry) = false) after.
Proof.
  split; [split; vm_compute; reflexivity|].
  apply (scanning_flag_rises_and_falls_once Scenario.two_hosts_env "task-1" 0%nat
           Scenario.closed_task Scenario.created_state);
    vm_compute; reflexivity.
Defined.
